(** * Browsing-history question answering: the query-understanding and
      retrieval-filtering pipeline of [backend/main.py]

    A shallow embedding of the pure parts of the service (categorizer, date
    and domain extraction, artist resolution, retrieval filter, the empty
    result templates, the stable document identifier and the memory
    distiller's control flow) together with the properties stated about them.

    Modelling conventions.
    - A Python [str] is a [string] of 8-bit characters; [str.lower],
      [str.isspace] and the regular-expression classes [\s] and [\d] are the
      ASCII restrictions of the Python ones.
    - A metadata [dict] is a [gmap string string]; [m.get(k, "")] is
      [meta_get m k].
    - A Python [set] of strings is kept as the duplicate-free list of its
      insertions; the order in which a [for] loop visits it is a parameter
      [set_iter] of the functions that iterate over it.
    - The wall clock, the process-wide string hash and the remote providers
      are parameters of the functions that consult them. *)

From Stdlib Require Import ZArith Ascii String List Bool Lia.
From stdpp Require Import base decidable option list strings pretty finite gmap.

Local Open Scope string_scope.
Local Open Scope Z_scope.

(** ** Python string primitives *)

Module Py.

(** [c.isspace()] on an 8-bit character: TAB, LF, VT, FF, CR, the four
    separators FS..US and the blank. *)
Definition isspace (c : ascii) : bool :=
  let n := N_of_ascii c in
  ((9 <=? n) && (n <=? 13) || (28 <=? n) && (n <=? 32))%N.

Definition isdigit (c : ascii) : bool :=
  let n := N_of_ascii c in ((48 <=? n) && (n <=? 57))%N.

Definition lower_char (c : ascii) : ascii :=
  let n := N_of_ascii c in
  if ((65 <=? n) && (n <=? 90))%N then ascii_of_N (n + 32) else c.

(** [s.lower()] *)
Fixpoint lower (s : string) : string :=
  match s with
  | EmptyString => EmptyString
  | String c s' => String (lower_char c) (lower s')
  end.

Definition upper_char (c : ascii) : ascii :=
  let n := N_of_ascii c in
  if ((97 <=? n) && (n <=? 122))%N then ascii_of_N (n - 32) else c.

(** [s.upper()] *)
Fixpoint upper (s : string) : string :=
  match s with
  | EmptyString => EmptyString
  | String c s' => String (upper_char c) (upper s')
  end.

(** [s.startswith(p)] *)
Fixpoint startswith (p s : string) : bool :=
  match p, s with
  | EmptyString, _ => true
  | String a p', String b s' => if Ascii.eqb a b then startswith p' s' else false
  | String _ _, EmptyString => false
  end.

(** [needle in hay] *)
Fixpoint contains (needle hay : string) : bool :=
  startswith needle hay ||
  match hay with
  | EmptyString => false
  | String _ hay' => contains needle hay'
  end.

(** [any(p in s for p in ps)] *)
Definition any_in (ps : list string) (s : string) : bool :=
  existsb (fun p => contains p s) ps.

(** [s in l] for a list of strings *)
Definition mem (s : string) (l : list string) : bool :=
  existsb (String.eqb s) l.

Fixpoint drop (n : nat) (s : string) : string :=
  match n, s with
  | O, _ => s
  | S _, EmptyString => EmptyString
  | S n', String _ s' => drop n' s'
  end.

Fixpoint take (n : nat) (s : string) : string :=
  match n, s with
  | O, _ => EmptyString
  | S _, EmptyString => EmptyString
  | S n', String c s' => String c (take n' s')
  end.

Fixpoint lstrip (s : string) : string :=
  match s with
  | String c s' => if isspace c then lstrip s' else s
  | EmptyString => EmptyString
  end.

(** the string without its trailing white space *)
Fixpoint rstrip (s : string) : string :=
  match s with
  | EmptyString => EmptyString
  | String c s' =>
      match rstrip s' with
      | EmptyString => if isspace c then EmptyString else String c EmptyString
      | r => String c r
      end
  end.

(** [s.strip()] *)
Definition strip (s : string) : string := rstrip (lstrip s).

(** [s.split()]: the maximal runs of non-space characters. *)
Fixpoint split_go (cur : string) (s : string) : list string :=
  match s with
  | EmptyString => match cur with EmptyString => [] | _ => [String.rev cur] end
  | String c s' =>
      if isspace c
      then match cur with
           | EmptyString => split_go EmptyString s'
           | _ => String.rev cur :: split_go EmptyString s'
           end
      else split_go (String c cur) s'
  end.

Definition split (s : string) : list string := split_go EmptyString s.

(** [s.split(sep, 1)[0]]: the part of [s] before the first occurrence of a
    non-empty [sep], all of [s] when there is none. *)
Fixpoint before_first (sep s : string) : string :=
  match s with
  | EmptyString => EmptyString
  | String c s' =>
      if startswith sep s then EmptyString else String c (before_first sep s')
  end.

(** The value of a decimal digit. *)
Definition digit_val (c : ascii) : Z := Z.of_N (N_of_ascii c) - 48.

(** [int(s)] for a string of decimal digits. *)
Fixpoint int_go (acc : Z) (s : string) : Z :=
  match s with
  | EmptyString => acc
  | String c s' => int_go (10 * acc + digit_val c) s'
  end.

Definition int (s : string) : Z := int_go 0 s.

Fixpoint zeros (n : nat) : string :=
  match n with
  | O => EmptyString
  | S n' => String "0" (zeros n')
  end.

(** [s.zfill(w)] for a string that carries no sign. *)
Definition zfill (w : nat) (s : string) : string :=
  zeros (w - String.length s) +:+ s.

(** [str(n)] *)
Definition str (n : Z) : string := pretty n.

(** [f"{n:02d}"], [f"{n:04d}"] for a non-negative [n]. *)
Definition fmt_d (w : nat) (n : Z) : string := zfill w (str n).

(** Truth value of an [Optional[str]]: [None] and [""] are false. *)
Definition truthy (o : option string) : bool :=
  match o with
  | Some (String _ _) => true
  | _ => false
  end.

(** [l[:k]] for a Python integer [k]; a negative [k] counts from the end. *)
Definition slice_to {A} (k : Z) (l : list A) : list A :=
  if 0 <=? k then firstn (Z.to_nat k) l
  else firstn (length l - Z.to_nat (- k)) l.

End Py.


(** ** The fragment of Python's [re] that the service uses

    Backtracking matching written as a list of successes: [matches r s]
    lists, in the order in which the backtracking matcher tries them, the
    ways [r] matches a prefix of [s]; each with the texts of the capture
    groups (in group order) and the unread rest of [s]. *)

Module Re.

Inductive cls : Type :=
| Digit                       (* \d *)
| Space                       (* \s *)
| OneOf (cs : list ascii)     (* [abc] *)
| NoneOf (cs : list ascii).   (* [^abc] *)

Definition in_cls (k : cls) (c : ascii) : bool :=
  match k with
  | Digit => Py.isdigit c
  | Space => Py.isspace c
  | OneOf cs => existsb (Ascii.eqb c) cs
  | NoneOf cs => negb (existsb (Ascii.eqb c) cs)
  end.

Inductive re : Type :=
| Lit (l : string)                                (* literal text *)
| Rep (k : cls) (lo : nat) (hi : option nat)      (* greedy k{lo,hi} *)
| Opt (r : re)                                    (* greedy r? *)
| Cat (r1 r2 : re)
| Alt (r1 r2 : re)
| Grp (r : re).                                   (* ( r ) *)

(** Length of the longest run of [k] characters at the head of [s], capped
    by [hi]. *)
Fixpoint run (k : cls) (hi : option nat) (s : string) : nat :=
  match hi, s with
  | Some O, _ => O
  | _, EmptyString => O
  | _, String c s' =>
      if in_cls k c then S (run k (pred <$> hi) s') else O
  end.

(** The rests after reading [n], [n-1], ..., [lo] characters. *)
Fixpoint give_back (lo n : nat) (s : string) : list (list string * string) :=
  if (n <? lo)%nat then []
  else ([], Py.drop n s) ::
       match n with
       | O => []
       | S n' => give_back lo n' s
       end.

Fixpoint matches (r : re) (s : string) : list (list string * string) :=
  match r with
  | Lit l => if Py.startswith l s then [([], Py.drop (String.length l) s)] else []
  | Rep k lo hi => give_back lo (run k hi s) s
  | Opt r1 => (matches r1 s ++ [([], s)])%list
  | Cat r1 r2 =>
      flat_map (fun m1 =>
                  map (fun m2 => ((m1.1 ++ m2.1)%list, m2.2)) (matches r2 m1.2))
               (matches r1 s)
  | Alt r1 r2 => (matches r1 s ++ matches r2 s)%list
  | Grp r1 =>
      map (fun m => (Py.take (String.length s - String.length m.2) s :: m.1, m.2))
          (matches r1 s)
  end.

(** [re.match(r, s)]: the groups and the rest of the first success. *)
Definition match_ (r : re) (s : string) : option (list string * string) :=
  head (matches r s).

(** [re.search(r, s)]: the leftmost position with a success. *)
Fixpoint search (r : re) (s : string) : option (list string * string) :=
  match match_ r s with
  | Some m => Some m
  | None =>
      match s with
      | EmptyString => None
      | String _ s' => search r s'
      end
  end.

(** [re.finditer(r, s)] for a pattern that matches no empty text: the
    groups of the successive matches, each search starting where the
    previous match ended. *)
Fixpoint finditer_go (fuel : nat) (r : re) (s : string) : list (list string) :=
  match fuel with
  | O => []
  | S fuel' =>
      match search r s with
      | None => []
      | Some m => m.1 :: finditer_go fuel' r m.2
      end
  end.

Definition finditer (r : re) (s : string) : list (list string) :=
  finditer_go (S (String.length s)) r s.

(** [m.group(i)], groups numbered from 1. *)
Definition group (i : nat) (gs : list string) : string :=
  nth (pred i) gs EmptyString.

Definition d_ (lo hi : nat) : re := Rep Digit lo (Some hi).   (* \d{lo,hi} *)
Definition s_plus : re := Rep Space 1 None.                   (* \s+ *)
Definition s_star : re := Rep Space 0 None.                   (* \s* *)
Definition cat (rs : list re) : re := foldr Cat (Lit EmptyString) rs.

End Re.


(** ** The fragment of Python's [datetime] that the service uses

    Proleptic Gregorian dates with the ordinal numbering of [datetime]
    (0001-01-01 has ordinal 1), the English names of the C locale, and the
    three [strftime] formats and the one [strptime] format of the service.
    [%Y] is rendered with four digits. *)

Module Cal.

Record date : Type := mkdate { year : Z; month : Z; day : Z }.

Definition is_leap (y : Z) : bool :=
  (y mod 4 =? 0) && (negb (y mod 100 =? 0) || (y mod 400 =? 0)).

Definition days_in_month (y m : Z) : Z :=
  if m =? 2 then (if is_leap y then 29 else 28)
  else if (m =? 4) || (m =? 6) || (m =? 9) || (m =? 11) then 30
  else 31.

(** Number of days in the year before the first of month [m], in a year
    that is not a leap year. *)
Definition days_before_month_common (m : Z) : Z :=
  nth (Z.to_nat m) [0; 0; 31; 59; 90; 120; 151; 181; 212; 243; 273; 304; 334] 0.

Definition days_before_month (y m : Z) : Z :=
  days_before_month_common m + (if (2 <? m) && is_leap y then 1 else 0).

Definition days_before_year (y : Z) : Z :=
  let y1 := y - 1 in y1 * 365 + y1 / 4 - y1 / 100 + y1 / 400.

(** [date.toordinal()] *)
Definition ymd2ord (d : date) : Z :=
  days_before_year (year d) + days_before_month (year d) (month d) + day d.

(** The end of [_ord2ymd]: month and day of the day with offset [n] in a
    year, [leapyear] telling whether the year is a leap year. *)
Definition month_day (n : Z) (leapyear : bool) : Z * Z :=
  let m := Z.shiftr (n + 50) 5 in
  let preceding :=
    days_before_month_common m + (if (2 <? m) && leapyear then 1 else 0) in
  if n <? preceding
  then
    let m' := m - 1 in
    let preceding' :=
      preceding - (days_in_month 1 m' + (if (m' =? 2) && leapyear then 1 else 0)) in
    (m', n - preceding' + 1)
  else (m, n - preceding + 1).

(** [date.fromordinal(n)] *)
Definition ord2ymd (n : Z) : date :=
  let n := n - 1 in
  let n400 := n / 146097 in
  let n := n mod 146097 in
  let n100 := n / 36524 in
  let n := n mod 36524 in
  let n4 := n / 1461 in
  let n := n mod 1461 in
  let n1 := n / 365 in
  let n := n mod 365 in
  let y := n400 * 400 + 1 + n100 * 100 + n4 * 4 + n1 in
  if (n1 =? 4) || (n100 =? 4) then mkdate (y - 1) 12 31
  else
    let leapyear := (n1 =? 3) && (negb (n4 =? 24) || (n100 =? 3)) in
    let md := month_day n leapyear in
    mkdate y md.1 md.2.

(** A date that [datetime] accepts. *)
Definition valid (d : date) : bool :=
  (1 <=? year d) && (year d <=? 9999) &&
  (1 <=? month d) && (month d <=? 12) &&
  (1 <=? day d) && (day d <=? days_in_month (year d) (month d)).

(** [d - timedelta(days=k)] *)
Definition minus_days (d : date) (k : Z) : date := ord2ymd (ymd2ord d - k).

(** [date.weekday()]: Monday is 0. *)
Definition weekday (d : date) : Z := (ymd2ord d + 6) mod 7.

Definition day_names : list string :=
  ["Monday"; "Tuesday"; "Wednesday"; "Thursday"; "Friday"; "Saturday"; "Sunday"].

Definition month_names : list string :=
  ["January"; "February"; "March"; "April"; "May"; "June"; "July";
   "August"; "September"; "October"; "November"; "December"].

(** [%A] *)
Definition day_name (d : date) : string :=
  nth (Z.to_nat (weekday d)) day_names EmptyString.

(** [%B] *)
Definition month_name (d : date) : string :=
  nth (Z.to_nat (month d - 1)) month_names EmptyString.

(** [d.strftime("%Y-%m-%d")] *)
Definition strftime_Ymd (d : date) : string :=
  Py.fmt_d 4 (year d) +:+ "-" +:+ Py.fmt_d 2 (month d) +:+ "-" +:+ Py.fmt_d 2 (day d).

(** [d.strftime("%B %Y")] *)
Definition strftime_BY (d : date) : string :=
  month_name d +:+ " " +:+ Py.fmt_d 4 (year d).

(** [d.strftime("%A %B %d %Y")] *)
Definition strftime_ABdY (d : date) : string :=
  day_name d +:+ " " +:+ month_name d +:+ " " +:+ Py.fmt_d 2 (day d)
    +:+ " " +:+ Py.fmt_d 4 (year d).

Definition chars (s : string) : list ascii := list_ascii_of_string s.

(** The regular expression that [strptime] compiles for ["%Y-%m-%d"]:
    [(\d\d\d\d)-(1[0-2]|0[1-9]|[1-9])-(3[01]|[12]\d|0[1-9]|[1-9]| [1-9])]. *)
Definition re_Ymd : Re.re :=
  let one k := Re.Rep k 1 (Some 1%nat) in
  let d19 := one (Re.OneOf (chars "123456789")) in
  Re.cat
    [ Re.Grp (Re.d_ 4 4); Re.Lit "-";
      Re.Grp (Re.Alt (Re.Cat (Re.Lit "1") (one (Re.OneOf (chars "012"))))
             (Re.Alt (Re.Cat (Re.Lit "0") d19) d19));
      Re.Lit "-";
      Re.Grp (Re.Alt (Re.Cat (Re.Lit "3") (one (Re.OneOf (chars "01"))))
             (Re.Alt (Re.Cat (one (Re.OneOf (chars "12"))) (one Re.Digit))
             (Re.Alt (Re.Cat (Re.Lit "0") d19)
             (Re.Alt d19 (Re.Cat (Re.Lit " ") d19))))) ].

(** [datetime.strptime(s, "%Y-%m-%d")]; [None] stands for [ValueError]. *)
Definition strptime_Ymd (s : string) : option date :=
  match Re.match_ re_Ymd s with
  | Some (gs, EmptyString) =>
      let d := mkdate (Py.int (Re.group 1 gs)) (Py.int (Py.lstrip (Re.group 2 gs)))
                      (Py.int (Py.lstrip (Re.group 3 gs))) in
      if valid d then Some d else None
  | _ => None
  end.

(** [datetime.fromtimestamp(ms / 1000)] for a whole number of milliseconds
    since the epoch, in a zone [utcoffset] seconds east of UTC; [None]
    stands for the error raised outside the years 1..9999. *)
Definition fromtimestamp_ms (utcoffset : Z) (ms : Z) : option date :=
  let d := ord2ymd (719163 + (ms / 1000 + utcoffset) / 86400) in
  if (1 <=? year d) && (year d <=? 9999) then Some d else None.

End Cal.


(** ** [backend/main.py] *)

(** [class HistoryItem], without the optional [extracted_content] that only
    the text normalizer reads; [lastVisitTime] and [collectedAt] are whole
    milliseconds since the epoch. *)
Record HistoryItem : Type := {
  id : string;
  lastVisitTime : Z;
  title : string;
  url : string;
  domain : string;
  dayOfWeek : Z;
  hour : Z;
  collectedAt : Z
}.

(** [class ChatResponse], with the entries of [sources] as records. *)
Record Source : Type := { src_url : string; src_title : string; src_meta : string }.

Record ChatResponse : Type := {
  success : bool;
  answer : string;
  sources : list Source
}.

(** [meta.get(k, "")] on a metadata dictionary. *)
Definition meta_get (m : gmap string string) (k : string) : string :=
  default EmptyString (m !! k).

Definition get_time_period (hour : Z) : string :=
  if (5 <=? hour) && (hour <? 12) then "Morning"
  else if (12 <=? hour) && (hour <? 17) then "Afternoon"
  else if (17 <=? hour) && (hour <? 22) then "Evening"
  else "Night".

Definition categorize_url (url title : string) : string :=
  let u := Py.lower url in
  if Py.contains "leetcode.com" u then "Programming Practice"
  else if Py.contains "github.com" u then "Code Repository"
  else if Py.contains "chatgpt.com" u || Py.contains "claude.ai" u
          || Py.contains "perplexity.ai" u then "AI Assistant"
  else if Py.contains "docs.google.com" u then "Documentation"
  else if Py.contains "aws" u then "Cloud Services"
  else if Py.contains "x.com" u || Py.contains "twitter.com" u then "Social Media"
  else if Py.contains "cricbuzz.com" u then "Sports News"
  else if Py.contains "youtube.com" u || Py.contains "music.youtube.com" u then "Media"
  else if Py.contains "spotify.com" u then "Music Streaming"
  else "General".

Section StableId.

(** The built-in [hash] on strings of the running interpreter (its value
    depends on the hash seed the interpreter was started with), and the
    offset of the local time zone. *)
Variable py_hash : string -> Z.
Variable utcoffset : Z.

(** The [vdate] of [stable_doc_id]. *)
Definition visit_date (item : HistoryItem) : option Cal.date :=
  Cal.fromtimestamp_ms utcoffset (lastVisitTime item).

(** [abs(hash(item.url)) % (10**9)] *)
Definition url_hash (item : HistoryItem) : Z :=
  Z.abs (py_hash (url item)) mod 10 ^ 9.

(** [None] stands for the error of [fromtimestamp]. *)
Definition stable_doc_id (item : HistoryItem) : option string :=
  match visit_date item with
  | Some d =>
      let vdate := Cal.strftime_Ymd d in
      Some ("hist:" +:+ domain item +:+ ":" +:+ vdate +:+ ":" +:+ Py.str (url_hash item))
  | None => None
  end.

End StableId.

(** *** Query interpretation *)

Definition months : list (string * Z) :=
  [("jan", 1); ("january", 1); ("feb", 2); ("february", 2); ("mar", 3); ("march", 3);
   ("apr", 4); ("april", 4); ("may", 5); ("jun", 6); ("june", 6); ("jul", 7);
   ("july", 7); ("aug", 8); ("august", 8); ("sep", 9); ("september", 9);
   ("oct", 10); ("october", 10); ("nov", 11); ("november", 11); ("dec", 12);
   ("december", 12)].

(** [rf'{name}\s+(\d{{4}})'], [rf'{name}\s*(\d{{1,2}})'] and
    [rf'(\d{{1,2}})\s*{name}']. *)
Definition re_month_year (name : string) : Re.re :=
  Re.cat [Re.Lit name; Re.s_plus; Re.Grp (Re.d_ 4 4)].
Definition re_month_day (name : string) : Re.re :=
  Re.cat [Re.Lit name; Re.s_star; Re.Grp (Re.d_ 1 2)].
Definition re_day_month (name : string) : Re.re :=
  Re.cat [Re.Grp (Re.d_ 1 2); Re.s_star; Re.Lit name].

(** [r'(\d{4})-(\d{1,2})-(\d{1,2})'] and [r'(\d{1,2})/(\d{1,2})/(\d{4})']. *)
Definition re_iso : Re.re :=
  Re.cat [Re.Grp (Re.d_ 4 4); Re.Lit "-"; Re.Grp (Re.d_ 1 2); Re.Lit "-"; Re.Grp (Re.d_ 1 2)].
Definition re_us : Re.re :=
  Re.cat [Re.Grp (Re.d_ 1 2); Re.Lit "/"; Re.Grp (Re.d_ 1 2); Re.Lit "/"; Re.Grp (Re.d_ 4 4)].

(** The loop [for name, num in months.items()] of [extract_date]; [None]
    when the loop ends without returning. *)
Fixpoint extract_date_months (current_year : Z) (q : string)
    (ms : list (string * Z)) : option string :=
  match ms with
  | [] => None
  | (name, num) :: ms' =>
      match Re.search (re_month_year name) q with
      | Some m_year =>
          let year := Py.int (Re.group 1 m_year.1) in
          Some (Py.str year +:+ "-" +:+ Py.fmt_d 2 num)
      | None =>
          match Re.search (re_month_day name) q, Re.search (re_day_month name) q with
          | Some m1, _ =>
              let d := Py.int (Re.group 1 m1.1) in
              Some (Py.str current_year +:+ "-" +:+ Py.fmt_d 2 num +:+ "-" +:+ Py.fmt_d 2 d)
          | None, Some m2 =>
              let d := Py.int (Re.group 1 m2.1) in
              Some (Py.str current_year +:+ "-" +:+ Py.fmt_d 2 num +:+ "-" +:+ Py.fmt_d 2 d)
          | None, None =>
              if Py.contains name q && (3 <? String.length name)%nat
              then Some (Py.str current_year +:+ "-" +:+ Py.fmt_d 2 num)
              else extract_date_months current_year q ms'
          end
      end
  end.

(** [extract_date], with [datetime.now()] as the argument [now]. *)
Definition extract_date (now : Cal.date) (query : string) : option string :=
  let q := Py.lower query in
  let current_year := Cal.year now in
  if Py.contains "yesterday" q then Some (Cal.strftime_Ymd (Cal.minus_days now 1))
  else if Py.contains "today" q then Some (Cal.strftime_Ymd now)
  else if Py.contains "last week" q then Some (Cal.strftime_Ymd (Cal.minus_days now 7))
  else if Py.contains "this week" q then Some (Cal.strftime_Ymd now)
  else
    match extract_date_months current_year q months with
    | Some r => Some r
    | None =>
        match Re.search re_iso q with
        | Some m =>
            let y := Re.group 1 m.1 in
            let mo := Re.group 2 m.1 in
            let d := Re.group 3 m.1 in
            Some (y +:+ "-" +:+ Py.zfill 2 mo +:+ "-" +:+ Py.zfill 2 d)
        | None =>
            match Re.search re_us q with
            | Some m =>
                let mo := Re.group 1 m.1 in
                let d := Re.group 2 m.1 in
                let y := Re.group 3 m.1 in
                Some (y +:+ "-" +:+ Py.zfill 2 mo +:+ "-" +:+ Py.zfill 2 d)
            | None => None
            end
        end
    end.

Definition domain_mapping : list (string * string) :=
  [("youtube", "youtube.com"); ("spotify", "spotify.com"); ("github", "github.com");
   ("leetcode", "leetcode.com"); ("google docs", "docs.google.com");
   ("gmail", "mail.google.com"); ("x.com", "x.com"); ("twitter", "x.com")].

Definition extract_domain (query : string) : option string :=
  let q := Py.lower query in
  snd <$> find (fun kv => Py.contains kv.1 q) domain_mapping.

(** The text that [chat_structured] appends to the query for a date filter
    (without the separating blank): [None] when the [try] block fails and
    nothing is appended. *)
Definition render_date (date_filter : string) : option string :=
  if (String.length date_filter =? 7)%nat
  then Cal.strftime_BY <$> Cal.strptime_Ymd (date_filter +:+ "-01")
  else Cal.strftime_ABdY <$> Cal.strptime_Ymd date_filter.

Definition exclusion_phrases : list string :=
  ["apart from song"; "except song"; "besides song"; "other than song";
   "excluding song"; "not song"; "no song"].

Definition music_words : list string := ["song"; "music"; "sing"; "artist"; "track"].

Definition exclude_music (message : string) : bool :=
  Py.any_in exclusion_phrases (Py.lower message).

Definition exclude_youtube (message : string) : bool :=
  let q_lower := Py.lower message in
  Py.contains "apart from youtube" q_lower || Py.contains "except youtube" q_lower.

Definition is_music_query (message : string) : bool :=
  negb (exclude_music message) && Py.any_in music_words (Py.lower message).


(** *** Artist resolution *)

Definition stop_words : list string :=
  ["songs"; "song"; "music"; "by"; "from"; "what"; "which"; "show"; "me";
   "did"; "i"; "listen"; "to"; "today"; "yesterday"; "last"; "week";
   "the"; "a"; "an"; "my"; "all"; "any"; "that"; "in"; "on"].

(** [r'^\(\d+\)\s*'] *)
Definition re_numeric_prefix : Re.re :=
  Re.cat [Re.Lit "("; Re.Rep Re.Digit 1 None; Re.Lit ")"; Re.s_star].

(** [re.sub(r'^\(\d+\)\s*', '', s)] *)
Definition strip_numeric_prefix (s : string) : string :=
  match Re.match_ re_numeric_prefix s with
  | Some m => m.2
  | None => s
  end.

Definition feat_patterns : list Re.re :=
  let name_in_parens := Re.Grp (Re.Rep (Re.NoneOf [")"%char]) 1 None) in
  let name := Re.Grp (Re.Rep (Re.NoneOf [","%char; ")"%char]) 1 None) in
  [ Re.cat [Re.Lit "(feat"; Re.Opt (Re.Lit "."); Re.s_plus; name_in_parens; Re.Lit ")"];
    Re.cat [Re.Lit "(ft"; Re.Opt (Re.Lit "."); Re.s_plus; name_in_parens; Re.Lit ")"];
    Re.cat [Re.Lit "feat"; Re.Opt (Re.Lit "."); Re.s_plus; name];
    Re.cat [Re.Lit "ft"; Re.Opt (Re.Lit "."); Re.s_plus; name];
    Re.cat [Re.Lit "featuring"; Re.s_plus; name];
    Re.cat [Re.Lit "with"; Re.s_plus; name] ].

(** [s.add(x)] on a set kept as the list of its insertions. *)
Definition set_add (x : string) (l : list string) : list string :=
  if Py.mem x l then l else (l ++ [x])%list.

(** The body of [for title in available_titles]. *)
Definition add_title_artists (all_artists : list string) (title : string) : list string :=
  let title_lower := Py.lower title in
  let all_artists :=
    if Py.contains " - " title
    then
      let main_artist := Py.strip (Py.before_first " - " title) in
      let main_artist := strip_numeric_prefix main_artist in
      set_add main_artist all_artists
    else all_artists in
  fold_left
    (fun acc pattern =>
       fold_left
         (fun acc gs =>
            let feat_artist := Py.strip (Re.group 1 gs) in
            let feat_artist := strip_numeric_prefix feat_artist in
            set_add feat_artist acc)
         (Re.finditer pattern title_lower) acc)
    feat_patterns all_artists.

Definition collect_artists (available_titles : list string) : list string :=
  fold_left add_title_artists available_titles [].

(** The two nested loops that score one artist. *)
Definition artist_score (query_tokens artist_tokens : list string) : Z :=
  fold_left
    (fun score query_token =>
       fold_left
         (fun score artist_token =>
            if String.eqb query_token artist_token then score + 2
            else if Py.contains query_token artist_token
                    || Py.contains artist_token query_token then score + 1
            else score)
         artist_tokens score)
    query_tokens 0.

(** The loop [for artist in all_artists], from the state [(best_match,
    best_score)], followed by the final test on [best_score]. *)
Fixpoint best_artist (q_lower : string) (query_tokens : list string)
    (artists : list string) (best_match : option string) (best_score : Z)
    : option string :=
  match artists with
  | [] => if 1 <=? best_score then best_match else None
  | artist :: rest =>
      let artist_lower := Py.lower artist in
      let artist_tokens := Py.split artist_lower in
      if Py.contains artist_lower q_lower then Some artist
      else
        let score := artist_score query_tokens artist_tokens in
        if best_score <? score
        then best_artist q_lower query_tokens rest (Some artist) score
        else best_artist q_lower query_tokens rest best_match best_score
  end.

Definition query_tokens_of (q_lower : string) : list string :=
  List.filter (fun w => negb (Py.mem w stop_words) && (2 <? String.length w)%nat)
         (Py.split q_lower).

Section Pipeline.

(** The order in which a [for] loop visits a set of strings, given the
    list of its insertions. *)
Variable set_iter : list string -> list string.

Definition extract_artist_from_query (query : string)
    (available_titles : list string) : option string :=
  let q_lower := Py.lower query in
  let query_tokens := query_tokens_of q_lower in
  match query_tokens with
  | [] => None
  | _ =>
      let all_artists := collect_artists available_titles in
      best_artist q_lower query_tokens (set_iter all_artists) None 0
  end.

(** *** Retrieval filter *)

(** The test of one candidate in the date and domain pass. *)
Definition structured_match (date_filter domain_filter : option string)
    (meta : gmap string string) : bool :=
  let match_date :=
    if Py.truthy date_filter
    then
      let df := default EmptyString date_filter in
      let visit_date := meta_get meta "visit_date" in
      if (String.length df =? 7)%nat
      then Py.startswith df visit_date
      else String.eqb visit_date df
    else true in
  let match_domain :=
    if Py.truthy domain_filter
    then String.eqb (meta_get meta "domain") (default EmptyString domain_filter)
    else true in
  match_date && match_domain.

(** The loop of the date and domain pass from index [i]; [None] stands for
    the [IndexError] of [docs_h[i]]. *)
Fixpoint structured_loop (date_filter domain_filter : option string)
    (docs_h : list string) (i : nat) (metas : list (gmap string string))
    : option (list string * list (gmap string string)) :=
  match metas with
  | [] => Some ([], [])
  | meta :: metas' =>
      if structured_match date_filter domain_filter meta
      then
        match docs_h !! i with
        | Some doc =>
            match structured_loop date_filter domain_filter docs_h (S i) metas' with
            | Some (ds, ms) => Some (doc :: ds, meta :: ms)
            | None => None
            end
        | None => None
        end
      else structured_loop date_filter domain_filter docs_h (S i) metas'
  end.

Definition structured_pass (date_filter domain_filter : option string)
    (docs_h : list string) (metas_h : list (gmap string string))
    : option (list string * list (gmap string string)) :=
  if Py.truthy date_filter || Py.truthy domain_filter
  then structured_loop date_filter domain_filter docs_h 0 metas_h
  else Some (docs_h, metas_h).

Definition music_indicators : list string :=
  ["official audio"; "official video"; "music video"; "lyric"; "lyrics";
   "(audio)"; "(official)"; "ft."; "feat."].

Definition music_terms : list string :=
  [" - "; "official"; "audio"; "music"; "ft"; "feat"].

(** The value of [should_exclude] at the end of the loop body. *)
Definition should_exclude (artist_filter : option string)
    (is_music exclude_music exclude_youtube : bool)
    (meta : gmap string string) : bool :=
  let title := meta_get meta "title" in
  let title_lower := Py.lower title in
  let domain := Py.lower (meta_get meta "domain") in
  let category := Py.lower (meta_get meta "content_category") in
  let should_exclude := false in
  let should_exclude :=
    if Py.truthy artist_filter && is_music
    then
      if negb (Py.contains (Py.lower (default EmptyString artist_filter)) title_lower)
      then true else should_exclude
    else should_exclude in
  let should_exclude :=
    if exclude_music
    then
      if Py.any_in music_indicators title_lower then true
      else if Py.mem domain ["youtube.com"; "music.youtube.com"]
      then (if Py.any_in music_terms title_lower then true else should_exclude)
      else if Py.mem category ["media"; "music streaming"] then true
      else should_exclude
    else should_exclude in
  let should_exclude :=
    if exclude_youtube
    then (if Py.contains "youtube.com" domain then true else should_exclude)
    else should_exclude in
  should_exclude.

(** The loop of the exclusion pass from index [i]. *)
Fixpoint exclusion_loop (artist_filter : option string)
    (is_music exclude_music exclude_youtube : bool)
    (docs_h : list string) (i : nat) (metas : list (gmap string string))
    : list string * list (gmap string string) :=
  match metas with
  | [] => ([], [])
  | meta :: metas' =>
      let rest := exclusion_loop artist_filter is_music exclude_music
                    exclude_youtube docs_h (S i) metas' in
      if should_exclude artist_filter is_music exclude_music exclude_youtube meta
      then rest
      else (default EmptyString (docs_h !! i) :: rest.1, meta :: rest.2)
  end.

(** What the stage hands to the answer composer. *)
Record Filtered : Type := {
  artist_filter : option string;
  docs : list string;
  metas : list (gmap string string)
}.

(** Lines 508-584 of [chat_structured]: the date and domain pass, artist
    resolution, the exclusion pass and the truncation to [top_k]; [None]
    stands for the [IndexError] of the first pass. *)
Definition retrieval_filter (message : string)
    (date_filter domain_filter : option string) (top_k : Z)
    (docs_h : list string) (metas_h : list (gmap string string))
    : option Filtered :=
  match structured_pass date_filter domain_filter docs_h metas_h with
  | None => None
  | Some (docs_h, metas_h) =>
      let available_titles := map (fun meta => meta_get meta "title") metas_h in
      let artist_filter :=
        if is_music_query message
        then extract_artist_from_query message available_titles
        else None in
      let final :=
        exclusion_loop artist_filter (is_music_query message)
          (exclude_music message) (exclude_youtube message) docs_h 0 metas_h in
      Some {| artist_filter := artist_filter;
              docs := Py.slice_to top_k final.1;
              metas := Py.slice_to top_k final.2 |}
  end.

(** Lines 586-591: the response when [docs_h] is empty after the stage,
    [None] when the answer composer takes over. *)
Definition empty_result (f : Filtered) (date_filter domain_filter : option string)
    : option ChatResponse :=
  match docs f with
  | _ :: _ => None
  | [] =>
      if Py.truthy (artist_filter f)
      then Some {| success := true;
                   answer := "No songs featuring "
                             +:+ default EmptyString (artist_filter f) +:+ " found.";
                   sources := [] |}
      else if Py.truthy date_filter && Py.truthy domain_filter
      then Some {| success := true;
                   answer := "No " +:+ default EmptyString domain_filter
                             +:+ " activity found from "
                             +:+ default EmptyString date_filter +:+ ".";
                   sources := [] |}
      else Some {| success := true;
                   answer := "No matching results found.";
                   sources := [] |}
  end.

(** Lines 593-708, the answer composer: the response built from the
    question and a non-empty result of the stage. *)
Variable compose_answer : string -> Filtered -> ChatResponse.

(** [chat_structured] from the result [(docs_h, metas_h)] of the vector
    query on; [None] stands for the HTTP 500 response that the handler
    makes of an exception. *)
Definition chat_after_retrieval (now : Cal.date) (message : string) (top_k : Z)
    (docs_h : list string) (metas_h : list (gmap string string))
    : option ChatResponse :=
  let date_filter := extract_date now message in
  let domain_filter := extract_domain message in
  match docs_h with
  | [] => Some {| success := true; answer := "No matching history found.";
                  sources := [] |}
  | _ :: _ =>
      match retrieval_filter message date_filter domain_filter top_k docs_h metas_h with
      | None => None
      | Some f =>
          match empty_result f date_filter domain_filter with
          | Some r => Some r
          | None => Some (compose_answer message f)
          end
      end
  end.

End Pipeline.

(** ** Statements of the specification, in its own words *)

(** The three conditions of the music exclusion, read as a disjunction. *)
Definition has_music_indicator (meta : gmap string string) : bool :=
  Py.any_in music_indicators (Py.lower (meta_get meta "title")).

Definition on_youtube_domain (meta : gmap string string) : bool :=
  Py.mem (Py.lower (meta_get meta "domain")) ["youtube.com"; "music.youtube.com"].

Definition has_music_term (meta : gmap string string) : bool :=
  Py.any_in music_terms (Py.lower (meta_get meta "title")).

Definition media_category (meta : gmap string string) : bool :=
  Py.mem (Py.lower (meta_get meta "content_category")) ["media"; "music streaming"].

Definition music_exclusion_disjunction (meta : gmap string string) : bool :=
  has_music_indicator meta
  || on_youtube_domain meta && has_music_term meta
  || media_category meta.

(** The same conditions as the branches of the code nest them. *)
Definition music_exclusion_nested (meta : gmap string string) : bool :=
  has_music_indicator meta
  || (if on_youtube_domain meta then has_music_term meta else media_category meta).

(** The categorizer as an ordered list of (substrings, category) pairs. *)
Definition category_cascade : list (list string * string) :=
  [ (["leetcode.com"], "Programming Practice");
    (["github.com"], "Code Repository");
    (["chatgpt.com"; "claude.ai"; "perplexity.ai"], "AI Assistant");
    (["docs.google.com"], "Documentation");
    (["aws"], "Cloud Services");
    (["x.com"; "twitter.com"], "Social Media");
    (["cricbuzz.com"], "Sports News");
    (["youtube.com"; "music.youtube.com"], "Media");
    (["spotify.com"], "Music Streaming") ].

(** First match wins, no match falls back to General. *)
Definition first_match (u : string) (cascade : list (list string * string)) : string :=
  match find (fun rule => Py.any_in rule.1 u) cascade with
  | Some rule => rule.2
  | None => "General"
  end.


(** *** Memory distiller *)

(** A raised exception: its class name and whether the class derives from
    [Exception] (cancellation and interpreter exit do not). *)
Record exn : Type := { exn_class : string; derives_Exception : bool }.

Inductive result (A : Type) : Type :=
| Ok (a : A)
| Raise (e : exn).
Arguments Ok {A} a.
Arguments Raise {A} e.

Section Distiller.

(** An embedding vector. *)
Variable Vec : Type.

(** One record of the memory collection. *)
Record MemEntry : Type := {
  mem_id : string;
  mem_document : string;
  mem_embedding : list Vec;
  mem_user_id : string;
  mem_ts : string
}.

(** The providers and the clock: the chat completion (its content may be
    [None]), the embedding of a batch of documents, the failure, if any, of
    adding an entry to the memory collection of a user, and
    [datetime.utcnow()] as a timestamp and in ISO format. *)
Variable chat_complete : list (string * string) -> result (option string).
Variable embed_documents : list string -> result (list Vec).
Variable add_error : string -> list MemEntry -> MemEntry -> option exn.
Variable utc_timestamp : Z.
Variable utc_isoformat : string.

Definition newline : string := String (ascii_of_nat 10) EmptyString.

Definition distill_prompt (question answer : string) : list (string * string) :=
  [("system", "Condense user preference or a durable fact from the exchange in <= 2 short sentences. If nothing durable, reply with 'NONE'.");
   ("user", "Q: " +:+ question +:+ newline +:+ "A: " +:+ answer)].

(** [distill_and_store_memory] run on the memory collection [store] of
    [user_id]: how the call ends, and the collection afterwards. *)
Definition distill_and_store_memory (user_id question answer : string)
    (store : list MemEntry) : result unit * list MemEntry :=
  let prompt := distill_prompt question answer in
  match chat_complete prompt with
  | Raise e =>
      if derives_Exception e then (Ok tt, store) else (Raise e, store)
  | Ok summary =>
      if negb (Py.truthy summary)
         || Py.startswith "NONE" (Py.upper (Py.strip (default EmptyString summary)))
      then (Ok tt, store)
      else
        let summary := default EmptyString summary in
        match embed_documents [summary] with
        | Raise e => (Raise e, store)
        | Ok vec =>
            let mem_id := "mem:" +:+ Py.str utc_timestamp in
            let entry := {| mem_id := mem_id; mem_document := summary;
                            mem_embedding := vec; mem_user_id := user_id;
                            mem_ts := utc_isoformat |} in
            match add_error user_id store entry with
            | Some e => (Raise e, store)
            | None => (Ok tt, (store ++ [entry])%list)
            end
        end
  end.

End Distiller.

(** ** Notions used in the statements and proofs *)

(** Every character of the string satisfies [p]. *)
Fixpoint str_forall (p : ascii -> bool) (s : string) : bool :=
  match s with
  | EmptyString => true
  | String c s' => p c && str_forall p s'
  end.

(** The lower-cased name of the candidate occurs in the question. *)
Definition in_question (q_lower : string) (artist : string) : bool :=
  Py.contains (Py.lower artist) q_lower.

(** The score that the loop of the resolver gives to a candidate. *)
Definition score_of (query_tokens : list string) (artist : string) : Z :=
  artist_score query_tokens (Py.split (Py.lower artist)).

(** No tie in artist resolution: at most one candidate occurs in the
    question, and, when none does, at most one candidate has the highest
    score if that score is at least 1. *)
Definition tie_free (q_lower : string) (query_tokens artists : list string) : Prop :=
  (forall a b, In a artists -> In b artists ->
     in_question q_lower a = true -> in_question q_lower b = true -> a = b)
  /\ ((forall c, In c artists -> in_question q_lower c = false) ->
      forall a b, In a artists -> In b artists ->
        1 <= score_of query_tokens a ->
        score_of query_tokens a = score_of query_tokens b ->
        (forall c, In c artists -> score_of query_tokens c <= score_of query_tokens a) ->
        a = b).

(** Two strings are similar when they differ only in which digit stands at
    a position. *)
Definition sim_char (a b : ascii) : Prop :=
  a = b \/ (Py.isdigit a = true /\ Py.isdigit b = true).

Fixpoint sim (s s' : string) : Prop :=
  match s, s' with
  | EmptyString, EmptyString => True
  | String a s, String b s' => sim_char a b /\ sim s s'
  | _, _ => False
  end.

Definition no_digit (c : ascii) : bool := negb (Py.isdigit c).

(** A pattern is blind when its literals and character sets contain no
    digit: it can then not tell similar strings apart. *)
Definition blind_cls (k : Re.cls) : bool :=
  match k with
  | Re.Digit | Re.Space => true
  | Re.OneOf cs | Re.NoneOf cs => forallb no_digit cs
  end.

Fixpoint blind (r : Re.re) : bool :=
  match r with
  | Re.Lit l => str_forall no_digit l
  | Re.Rep k _ _ => blind_cls k
  | Re.Opt r1 | Re.Grp r1 => blind r1
  | Re.Cat r1 r2 | Re.Alt r1 r2 => blind r1 && blind r2
  end.

(** Two successes leave similar rests. *)
Definition sim_rest (m m' : list string * string) : Prop := sim m.2 m'.2.

(** [m is not None] *)
Definition found {A} (o : option A) : bool :=
  match o with Some _ => true | None => false end.

(** Month granularity is what [chat_structured] tests with
    [len(date_filter) == 7]; every other result is matched as one day. *)
Definition granularity (r : option string) : nat :=
  match r with
  | None => 0
  | Some d => if (String.length d =? 7)%nat then 1 else 2
  end.

(** The words that [extract_date] looks for before the month names. *)
Definition relative_words : list string :=
  ["yesterday"; "today"; "last week"; "this week"].

(** The last test of the loop body: [name in q and len(name) > 3]. *)
Definition bare_month (q : string) (key : string * Z) : bool :=
  Py.contains key.1 q && (3 <? String.length key.1)%nat.

(** At this key the loop of [extract_date] does not return a month. *)
Definition day_key_ok (q : string) (key : string * Z) : bool :=
  negb (found (Re.search (re_month_year key.1) q))
  && (found (Re.search (re_month_day key.1) q)
      || found (Re.search (re_day_month key.1) q)
      || negb (bare_month q key)).

(** At this key the loop returns a day. *)
Definition day_key_hit (q : string) (key : string * Z) : bool :=
  found (Re.search (re_month_day key.1) q) || found (Re.search (re_day_month key.1) q).

(** On [q], [extract_date] returns from the loop over the months, and
    through one of the two day patterns. *)
Definition day_checks (q : string) : bool :=
  negb (Py.any_in relative_words q)
  && forallb (day_key_ok q) months
  && existsb (day_key_hit q) months.

(** At this key the loop returns. *)
Definition key_hit (q : string) (key : string * Z) : bool :=
  found (Re.search (re_month_year key.1) q)
  || day_key_hit q key
  || bare_month q key.

(** On [q], [extract_date] returns at the latest from the loop over the
    months. *)
Definition month_checks (q : string) : bool := existsb (key_hit q) months.

(** The rendered texts with every digit replaced by 0. *)
Definition day_template (w m : string) : string := w +:+ " " +:+ m +:+ " 00 0000".
Definition month_template (m : string) : string := m +:+ " 0000".

(** ** Further functions of [backend/main.py] *)

(** *** User identifiers *)

(** The characters that [[^a-zA-Z0-9_-]] does not match. *)
Definition safe_id_char (c : ascii) : bool :=
  let n := N_of_ascii c in
  ((97 <=? n) && (n <=? 122) || (65 <=? n) && (n <=? 90)
   || (48 <=? n) && (n <=? 57))%N
  || Ascii.eqb c "_" || Ascii.eqb c "-".

(** [re.sub(r'[^...]', '', s)] for a set of characters given by [p]: every
    character outside the set is removed. *)
Fixpoint keep_chars (p : ascii -> bool) (s : string) : string :=
  match s with
  | EmptyString => EmptyString
  | String c s' => if p c then String c (keep_chars p s') else keep_chars p s'
  end.

Definition get_user_id (request_user_id : option string) : string :=
  if Py.truthy request_user_id
  then
    let safe_id := keep_chars safe_id_char (default EmptyString request_user_id) in
    if Py.truthy (Some safe_id) then safe_id else "local_user"
  else "local_user".

(** The collection names of [col_history] and [col_memory]. *)
Definition history_collection_name (user_id : string) : string :=
  "browser_history_" +:+ user_id.

Definition memory_collection_name (user_id : string) : string :=
  "chat_memory_" +:+ user_id.

(** *** Notions for the artist resolver *)

(** The two tokens score: they are equal or one contains the other. *)
Definition tokens_related (query_token artist_token : string) : bool :=
  String.eqb query_token artist_token
  || Py.contains query_token artist_token
  || Py.contains artist_token query_token.

(** The main artist that a title with " - " contributes. *)
Definition main_artist_of (title : string) : string :=
  strip_numeric_prefix (Py.strip (Py.before_first " - " title)).

(** *** The shapes of an extracted date *)

Definition digits (s : string) : Prop := str_forall Py.isdigit s = true.

Definition two_digits (s : string) : Prop := digits s /\ String.length s = 2%nat.

(** A year of one to four digits and a month: [Y-MM] ... [YYYY-MM]. *)
Definition month_shaped (d : string) : Prop :=
  exists y m, digits y /\ (1 <= String.length y <= 4)%nat /\ two_digits m
              /\ d = y +:+ "-" +:+ m.

(** [YYYY-MM-DD] *)
Definition day_shaped (d : string) : Prop :=
  exists y m dd, digits y /\ String.length y = 4%nat /\ two_digits m /\ two_digits dd
                 /\ d = y +:+ "-" +:+ m +:+ "-" +:+ dd.

(** *** Query expansion *)

(** The text [enhanced] that [chat_structured] embeds (lines 450-494). *)
Definition enhanced_query (now : Cal.date) (message : string) : string :=
  let date_filter := extract_date now message in
  let enhanced := message in
  let enhanced :=
    if Py.truthy date_filter
    then
      match render_date (default EmptyString date_filter) with
      | Some text => enhanced +:+ " " +:+ text
      | None => enhanced
      end
    else enhanced in
  let q_lower := Py.lower message in
  if is_music_query message
  then
    let enhanced := enhanced +:+ " music audio video song" in
    let enhanced :=
      if Py.contains "piano" q_lower
      then enhanced +:+ " piano acoustic instrumental" else enhanced in
    let enhanced :=
      if Py.contains "guitar" q_lower then enhanced +:+ " guitar acoustic" else enhanced in
    let enhanced :=
      if Py.contains "rain" q_lower then enhanced +:+ " rain" else enhanced in
    let enhanced :=
      if Py.contains "danc" q_lower then enhanced +:+ " dancing dance" else enhanced in
    let enhanced :=
      if Py.any_in ["girl"; "woman"; "female"; "she"] q_lower
      then enhanced +:+ " female woman girl" else enhanced in
    let enhanced :=
      if Py.any_in ["boy"; "man"; "male"; "he"] q_lower
      then enhanced +:+ " male man boy" else enhanced in
    let enhanced :=
      if Py.contains "duet" q_lower || Py.contains "together" q_lower
      then enhanced +:+ " duet collaboration featuring" else enhanced in
    enhanced
  else if exclude_music message
  then enhanced +:+ " browsing web article page website"
  else enhanced.

(** *** Sources *)

(** One entry of [mk_sources]. *)
Definition mk_source (m : gmap string string) : Source :=
  {| src_url := meta_get m "url";
     src_title := default (default "Source" (m !! "domain")) (m !! "title");
     src_meta := Py.strip (meta_get m "visit_date" +:+ " " +:+ meta_get m "day_name"
                           +:+ " " +:+ meta_get m "time_period") |}.

(** [mk_sources]; [None] stands for the [IndexError] of [metas[i]]. *)
Definition mk_sources (docs : list string) (metas : list (gmap string string))
    : option (list Source) :=
  mapM (fun i => mk_source <$> metas !! i) (seq 0 (length docs)).

(** *** Ingestion *)

(** Truth value of an [Optional[Dict]]: [None] and [{}] are false. *)
Definition dict_truthy (o : option (gmap string string)) : bool :=
  match o with
  | Some content => negb (bool_decide (content = ∅))
  | None => false
  end.

(** [d.strftime("%B %d, %Y")] *)
Definition strftime_BdY (d : Cal.date) : string :=
  Cal.month_name d +:+ " " +:+ Py.fmt_d 2 (Cal.day d) +:+ ", "
  +:+ Py.fmt_d 4 (Cal.year d).

(** The nine lines with which [create_rich_text] begins. *)
Definition rich_base_text (it : HistoryItem) (visit_dt : Cal.date) : string :=
  "Title: " +:+ title it +:+ newline
  +:+ "URL: " +:+ url it +:+ newline
  +:+ "Domain: " +:+ domain it +:+ newline
  +:+ "Visit Date: " +:+ strftime_BdY visit_dt +:+ newline
  +:+ "Date: " +:+ Cal.strftime_Ymd visit_dt +:+ newline
  +:+ "Day: " +:+ Cal.day_name visit_dt +:+ newline
  +:+ "Time: " +:+ Py.str (hour it) +:+ ":00" +:+ newline
  +:+ "Time Period: " +:+ get_time_period (hour it) +:+ newline
  +:+ "Content Type: " +:+ categorize_url (url it) (title it).

(** [create_rich_text] for an item whose [extracted_content] holds strings;
    [None] stands for the error of [fromtimestamp]. *)
Definition create_rich_text (utcoffset : Z)
    (extracted_content : option (gmap string string)) (it : HistoryItem)
    : option string :=
  match visit_date utcoffset it with
  | Some visit_dt =>
      let base_text := rich_base_text it visit_dt in
      let base_text :=
        if dict_truthy extracted_content
        then
          let content := default ∅ extracted_content in
          let base_text :=
            if Py.truthy (content !! "video_title")
            then base_text +:+ newline +:+ "Video Title: "
                 +:+ meta_get content "video_title"
            else base_text in
          let base_text :=
            if Py.truthy (content !! "channel")
            then base_text +:+ newline +:+ "Channel/Artist: "
                 +:+ meta_get content "channel"
            else base_text in
          let base_text :=
            if Py.truthy (content !! "parsed_artist")
            then base_text +:+ newline +:+ "Artist: "
                 +:+ meta_get content "parsed_artist"
            else base_text in
          let base_text :=
            if Py.truthy (content !! "parsed_song")
            then base_text +:+ newline +:+ "Song: "
                 +:+ meta_get content "parsed_song"
            else base_text in
          let base_text :=
            if Py.truthy (content !! "video_type")
            then base_text +:+ newline +:+ "Video Type: "
                 +:+ meta_get content "video_type"
            else base_text in
          let base_text :=
            if Py.truthy (content !! "collaboration")
            then base_text +:+ newline +:+ "Collaboration: Yes"
            else base_text in
          let base_text :=
            if Py.truthy (content !! "description")
            then
              let description := meta_get content "description" in
              let desc :=
                if (800 <? String.length description)%nat
                then Py.take 800 description else description in
              base_text +:+ newline +:+ "Description: " +:+ desc
            else base_text in
          let base_text :=
            if Py.truthy (content !! "contextual_keywords")
            then base_text +:+ newline +:+ "Context: "
                 +:+ meta_get content "contextual_keywords"
            else base_text in
          let base_text :=
            if Py.truthy (content !! "track_name")
            then base_text +:+ newline +:+ "Song/Track: "
                 +:+ meta_get content "track_name"
            else base_text in
          let base_text :=
            if Py.truthy (content !! "artist")
            then base_text +:+ newline +:+ "Artist: " +:+ meta_get content "artist"
            else base_text in
          let base_text :=
            if Py.truthy (content !! "album")
            then base_text +:+ newline +:+ "Album: " +:+ meta_get content "album"
            else base_text in
          let base_text :=
            if Py.truthy (content !! "release_year")
            then base_text +:+ newline +:+ "Year: "
                 +:+ meta_get content "release_year"
            else base_text in
          base_text
        else base_text in
      Some (Py.strip base_text)
  | None => None
  end.

(** The metadata that [rebuild_embeddings] and [upsert_items] store with an
    item, the two integers as decimal numerals and the extracted content,
    which is stored for an item that has some, as [repr] renders it; [None]
    stands for the error of [fromtimestamp]. *)
Definition item_metadata (utcoffset : Z) (repr : gmap string string -> string)
    (extracted_content : option (gmap string string)) (it : HistoryItem)
    : option (gmap string string) :=
  match visit_date utcoffset it with
  | Some visit_dt =>
      let meta : gmap string string :=
        list_to_map
          [("title", title it); ("id", id it); ("url", url it);
           ("domain", domain it);
           ("dayOfWeek", Py.str (dayOfWeek it)); ("hour", Py.str (hour it));
           ("visit_date", Cal.strftime_Ymd visit_dt);
           ("day_name", Cal.day_name visit_dt);
           ("time_period", get_time_period (hour it));
           ("content_category", categorize_url (url it) (title it))] in
      Some (if dict_truthy extracted_content
            then <["extracted_content" := repr (default ∅ extracted_content)]> meta
            else meta)
  | None => None
  end.

(** The year and month of a date as a month filter has them. *)
Definition month_key (d : Cal.date) : string :=
  Py.fmt_d 4 (Cal.year d) +:+ "-" +:+ Py.fmt_d 2 (Cal.month d).

(** *** Notions for the sources *)

(** The string neither begins nor ends with white space. *)
Definition trimmed (s : string) : Prop :=
  (forall c t, s = String c t -> Py.isspace c = false)
  /\ (forall t c, s = t +:+ String c EmptyString -> Py.isspace c = false).

(** *** The answer to a question that is not about music *)

(** One entry of a list of [by_category]. *)
Record Listed : Type := {
  l_title : string;
  l_domain : string;
  l_citation : Z
}.

(** The category under which a result is listed. *)
Definition category_of (meta : gmap string string) : string :=
  default "General" (meta !! "content_category").

(** The entry that the loop appends for the result at index [i]. *)
Definition listed (i : nat) (meta : gmap string string) : Listed :=
  {| l_title := default "Untitled" (meta !! "title");
     l_domain := meta_get meta "domain";
     l_citation := Z.of_nat i + 1 |}.

(** [by_category[category].append(x)], after [by_category[category] = []]
    for a new key; the dict as the list of its items in insertion order. *)
Fixpoint by_category_append (category : string) (x : Listed)
    (by_category : list (string * list Listed)) : list (string * list Listed) :=
  match by_category with
  | [] => [(category, [x])]
  | (c, items) :: rest =>
      if String.eqb c category then (c, (items ++ [x])%list) :: rest
      else (c, items) :: by_category_append category x rest
  end.

(** The grouping loop over [enumerate(metas_h)] from index [i]. *)
Fixpoint by_category_loop (i : nat) (metas_h : list (gmap string string))
    (by_category : list (string * list Listed)) : list (string * list Listed) :=
  match metas_h with
  | [] => by_category
  | meta :: rest =>
      by_category_loop (S i) rest
        (by_category_append (category_of meta) (listed i meta) by_category)
  end.

Fixpoint sorted_insert (kv : string * list Listed)
    (l : list (string * list Listed)) : list (string * list Listed) :=
  match l with
  | [] => [kv]
  | kv' :: l' =>
      if String.leb kv.1 kv'.1 then kv :: l else kv' :: sorted_insert kv l'
  end.

(** [sorted(by_category.items())]: the keys of a dict differ, so that the
    comparison of two items is decided by the keys. *)
Definition sorted_items (by_category : list (string * list Listed))
    : list (string * list Listed) :=
  foldr sorted_insert [] by_category.

(** The bullet U+2022 in UTF-8. *)
Definition bullet : string :=
  String (ascii_of_nat 226) (String (ascii_of_nat 128)
    (String (ascii_of_nat 162) EmptyString)).

Definition render_listed (x : Listed) : string :=
  bullet +:+ " " +:+ l_title x +:+ " (" +:+ l_domain x +:+ ") [#"
  +:+ Py.str (l_citation x) +:+ "]".

Definition category_header (category : string) : string :=
  newline +:+ "**" +:+ category +:+ ":**".

Definition browse_header (exclude_music : bool) : string :=
  if exclude_music then "Here's your non-music browsing activity:" +:+ newline
  else "Here's what I found:" +:+ newline.

(** [answer_lines] of the branch for a question that is not about music
    (lines 685-704). *)
Definition browse_lines (exclude_music : bool)
    (metas_h : list (gmap string string)) : list string :=
  let answer_lines := [browse_header exclude_music] in
  let by_category := by_category_loop 0 metas_h [] in
  fold_left
    (fun answer_lines kv =>
       let answer_lines :=
         if (1 <? length by_category)%nat
         then (answer_lines ++ [category_header kv.1])%list
         else answer_lines in
       (answer_lines ++ map render_listed (firstn 5 kv.2))%list)
    (sorted_items by_category) answer_lines.

(** *** Notions for that answer *)

(** The entries of the results of a category, in retrieval order, the
    first result at index [i]. *)
Fixpoint of_category (category : string) (i : nat)
    (metas_h : list (gmap string string)) : list Listed :=
  match metas_h with
  | [] => []
  | meta :: rest =>
      if String.eqb (category_of meta) category
      then listed i meta :: of_category category (S i) rest
      else of_category category (S i) rest
  end.

(** Each string is strictly below the next one. *)
Fixpoint ascending (l : list string) : Prop :=
  match l with
  | a :: l' =>
      match l' with
      | b :: _ => String.ltb a b = true
      | [] => True
      end /\ ascending l'
  | [] => True
  end.

(** The list under a key of [by_category], empty for a missing key. *)
Fixpoint group_of (category : string) (by_category : list (string * list Listed))
    : list Listed :=
  match by_category with
  | [] => []
  | (c, items) :: rest =>
      if String.eqb c category then items else group_of category rest
  end.


(** *** Notions for the retrieval filter *)

(** [docs_h[i] if i < len(docs_h) else ''] *)
Definition document_at (docs_h : list string) (i : nat) : string :=
  default EmptyString (docs_h !! i).


(** * Properties *)

(** ** Substring tests *)

Lemma startswith_refl s : Py.startswith s s = true.
Proof. induction s as [|c s IH]; simpl; [done|]. by rewrite Ascii.eqb_refl. Qed.

Lemma lower_char_idem c : Py.lower_char (Py.lower_char c) = Py.lower_char c.
Proof. destruct c as [[] [] [] [] [] [] [] []]; reflexivity. Qed.

Lemma startswith_lower p s :
  Py.startswith p s = true -> Py.startswith (Py.lower p) (Py.lower s) = true.
Proof.
  revert s. induction p as [|a p IH]; intros [|b s]; simpl; try done.
  destruct (Ascii.eqb_spec a b) as [->|]; [|done].
  rewrite Ascii.eqb_refl. apply IH.
Qed.

Lemma contains_lower p s :
  Py.contains p s = true -> Py.contains (Py.lower p) (Py.lower s) = true.
Proof.
  induction s as [|b s IH]; simpl.
  - rewrite orb_false_r. intros H. apply (startswith_lower p "") in H.
    simpl in H. by rewrite H.
  - intros [H|H]%orb_true_iff.
    + apply (startswith_lower p (String b s)) in H. simpl in H. by rewrite H.
    + rewrite (IH H). apply orb_true_r.
Qed.

Lemma any_in_true ps s :
  Py.any_in ps s = true <-> exists p, In p ps /\ Py.contains p s = true.
Proof. apply existsb_exists. Qed.

(** ** Music intent and exclusion *)

(** C4: a question whose lower-cased text contains one of the exclusion
    phrases has no music intent, whatever trigger words it also contains;
    so no question has both exclude-music and music-intent. *)
Theorem exclusion_suppresses_music_intent (question : string) :
  (forall phrase, In phrase exclusion_phrases ->
     Py.contains phrase (Py.lower question) = true ->
     is_music_query question = false)
  /\ ~ (exclude_music question = true /\ is_music_query question = true).
Proof.
  split.
  - intros phrase Hin Hsub. unfold is_music_query.
    assert (exclude_music question = true) as ->; [|done].
    apply any_in_true. eauto.
  - unfold is_music_query. intros [-> H]. discriminate H.
Qed.

Lemma exclusion_suppresses_music_intent_witness :
  Py.contains "song" (Py.lower "Anything besides SONGS today?") = true
  /\ is_music_query "Anything besides SONGS today?" = false.
Proof.
  split; [reflexivity|].
  apply (proj1 (exclusion_suppresses_music_intent "Anything besides SONGS today?")
           "besides song").
  - simpl. auto.
  - reflexivity.
Defined.

Lemma exclusion_loop_metas af im em ey docs_h i metas_h :
  (exclusion_loop af im em ey docs_h i metas_h).2
  = List.filter (fun m => negb (should_exclude af im em ey m)) metas_h.
Proof.
  revert i. induction metas_h as [|m ms IH]; intros i; simpl; [done|].
  destruct (should_exclude af im em ey m); simpl; by rewrite IH.
Qed.

Lemma exclusion_loop_length af im em ey docs_h i metas_h :
  length (exclusion_loop af im em ey docs_h i metas_h).1
  = length (exclusion_loop af im em ey docs_h i metas_h).2.
Proof.
  revert i. induction metas_h as [|m ms IH]; intros i; simpl; [done|].
  destruct (should_exclude af im em ey m); simpl; by rewrite IH.
Qed.

Lemma should_exclude_music_question question af meta :
  exclude_music question = true ->
  should_exclude af (is_music_query question) (exclude_music question)
    (exclude_youtube question) meta
  = music_exclusion_nested meta
    || exclude_youtube question
       && Py.contains "youtube.com" (Py.lower (meta_get meta "domain")).
Proof.
  intros Hex. unfold is_music_query, should_exclude, music_exclusion_nested,
    has_music_indicator, on_youtube_domain, has_music_term, media_category.
  rewrite Hex. cbn [negb andb]. rewrite andb_false_r.
  generalize (Py.any_in music_indicators (Py.lower (meta_get meta "title"))),
    (Py.mem (Py.lower (meta_get meta "domain")) ["youtube.com"; "music.youtube.com"]),
    (Py.any_in music_terms (Py.lower (meta_get meta "title"))),
    (Py.mem (Py.lower (meta_get meta "content_category")) ["media"; "music streaming"]),
    (exclude_youtube question),
    (Py.contains "youtube.com" (Py.lower (meta_get meta "domain"))).
  by intros [] [] [] [] [] [].
Qed.

(** C1 (as the code nests the conditions): for a question that triggers
    exclude-music, a candidate survives the exclusion pass exactly when it
    has no music-indicator phrase in its title, and then, on one of the two
    YouTube domains, no music-like token in its title, or, on any other
    domain, a category other than Media and Music Streaming; and the
    YouTube exclusion does not apply to it. The category is consulted only
    off the YouTube domains. *)
Theorem music_exclusion_drops_by_nested_conditions
    (question : string) (af : option string) (docs_h : list string)
    (metas_h : list (gmap string string)) (meta : gmap string string) :
  exclude_music question = true ->
  In meta (exclusion_loop af (is_music_query question) (exclude_music question)
             (exclude_youtube question) docs_h 0 metas_h).2
  <-> In meta metas_h
      /\ music_exclusion_nested meta = false
      /\ exclude_youtube question
         && Py.contains "youtube.com" (Py.lower (meta_get meta "domain")) = false.
Proof.
  intros Hex. rewrite exclusion_loop_metas, filter_In.
  rewrite (should_exclude_music_question _ _ _ Hex).
  rewrite negb_true_iff, orb_false_iff. tauto.
Qed.

Lemma music_exclusion_drops_by_nested_conditions_witness :
  let meta : gmap string string :=
    list_to_map [("title", "Release notes"); ("domain", "github.com");
                 ("content_category", "Code Repository")] in
  In meta (exclusion_loop None (is_music_query "anything apart from songs?")
             (exclude_music "anything apart from songs?")
             (exclude_youtube "anything apart from songs?") ["doc"] 0 [meta]).2.
Proof.
  intros meta.
  apply (music_exclusion_drops_by_nested_conditions
           "anything apart from songs?" None ["doc"] [meta] meta).
  - reflexivity.
  - split; [left; reflexivity|]. split; vm_compute; reflexivity.
Defined.

(** C1, refuted as a plain disjunction: a video on youtube.com whose
    category is Media and whose title has neither an indicator phrase nor a
    music-like token satisfies condition (c) and survives the pass. *)
Lemma music_exclusion_keeps_plain_youtube_video :
  let question := "what did i browse apart from songs" in
  let meta : gmap string string :=
    list_to_map [("title", "How to cook pasta"); ("domain", "youtube.com");
                 ("content_category", "Media")] in
  exclude_music question = true
  /\ media_category meta = true
  /\ music_exclusion_disjunction meta = true
  /\ retrieval_filter (fun l => l) question None None 20 ["doc"] [meta]
     = Some {| artist_filter := None; docs := ["doc"]; metas := [meta] |}.
Proof. vm_compute. repeat split; reflexivity. Qed.

(** ** Categorizer *)

(** C9 (with the priority of the first rule made explicit): the category
    is the first match of the lower-cased URL in the fixed cascade, General
    when nothing matches; a URL that contains "github.com" and "aws" is a
    Code Repository unless its lower-cased form contains "leetcode.com". *)
Theorem categorize_url_cascade (url title : string) :
  categorize_url url title = first_match (Py.lower url) category_cascade
  /\ (Py.contains "github.com" url = true ->
      Py.contains "aws" url = true ->
      Py.contains "leetcode.com" (Py.lower url) = false ->
      categorize_url url title = "Code Repository").
Proof.
  split.
  - unfold categorize_url, first_match, category_cascade, Py.any_in.
    cbn [find existsb fst snd]. rewrite ?orb_false_r.
    repeat match goal with
           | |- context [Py.contains ?n (Py.lower url)] =>
               destruct (Py.contains n (Py.lower url)); cbn [orb]; try reflexivity
           end.
  - intros Hg _ Hl. apply contains_lower in Hg.
    unfold categorize_url. change (Py.lower "github.com") with "github.com" in Hg.
    by rewrite Hl, Hg.
Qed.

Lemma categorize_url_cascade_witness :
  categorize_url "https://github.com/aws/aws-cli" "aws-cli" = "Code Repository".
Proof.
  apply (proj2 (categorize_url_cascade "https://github.com/aws/aws-cli" "aws-cli"));
    reflexivity.
Defined.

(** C9, refuted for every URL with "github.com" and "aws": the rule for
    "leetcode.com" comes first. *)
Lemma github_aws_url_on_leetcode :
  let url := "https://leetcode.com/discuss/github.com/aws-samples" in
  Py.contains "github.com" url = true
  /\ Py.contains "aws" url = true
  /\ categorize_url url "" = "Programming Practice"
  /\ categorize_url url "" <> "Code Repository".
Proof. vm_compute. repeat split; [reflexivity..|discriminate]. Qed.

(** ** Artist resolution *)

Lemma best_artist_short_circuit q_lower query_tokens artists a :
  In a artists ->
  Py.contains (Py.lower a) q_lower = true ->
  (forall x, In x artists -> Py.contains (Py.lower x) q_lower = true -> x = a) ->
  forall best_match best_score,
    best_artist q_lower query_tokens artists best_match best_score = Some a.
Proof.
  induction artists as [|artist rest IH]; intros Hin Ha Huniq bm bs; [done|].
  simpl. destruct (Py.contains (Py.lower artist) q_lower) eqn:Hsub.
  - f_equal. apply Huniq; [by left|done].
  - assert (In a rest) as Hrest.
    { destruct Hin as [->|]; [congruence|done]. }
    assert (forall x, In x rest -> Py.contains (Py.lower x) q_lower = true -> x = a)
      as Hu by (intros x Hx; apply Huniq; by right).
    destruct (bs <? artist_score query_tokens (Py.split (Py.lower artist)));
      by apply IH.
Qed.

(** C7: for the two titles of the specification and the question "songs by
    artist a" the resolver returns "Artist A" whatever the order in which
    the set of candidates is visited: "Artist A" is the only derived
    candidate whose lower-cased name occurs in the lower-cased question, so
    the exact-substring short-circuit can only fire on it. *)
Theorem artist_a_resolved_in_any_order (set_iter : list string -> list string) :
  (forall l, Permutation (set_iter l) l) ->
  let titles := ["Artist A - Song One"; "Artist B feat. Artist A - Song Two"] in
  let question := "songs by artist a" in
  extract_artist_from_query set_iter question titles = Some "Artist A"
  /\ (forall x, In x (collect_artists titles) ->
        Py.contains (Py.lower x) (Py.lower question) = true -> x = "Artist A").
Proof.
  intros Hperm titles question.
  assert (collect_artists titles
          = ["Artist A"; "Artist B feat. Artist A"; "artist a - song two"]) as Hall
    by (vm_compute; reflexivity).
  assert (forall x, In x (collect_artists titles) ->
            Py.contains (Py.lower x) (Py.lower question) = true -> x = "Artist A")
    as Huniq.
  { rewrite Hall. intros x [<-|[<-|[<-|[]]]]; vm_compute; congruence. }
  split; [|done].
  unfold extract_artist_from_query.
  change (query_tokens_of (Py.lower question)) with ["artist"].
  cbv iota. apply best_artist_short_circuit.
  - apply (Permutation_in _ (Permutation_sym (Hperm _))). rewrite Hall. by left.
  - vm_compute; reflexivity.
  - intros x Hx. apply Huniq. by apply (Permutation_in _ (Hperm _)).
Qed.

Lemma artist_a_resolved_in_any_order_witness :
  extract_artist_from_query (fun l => l) "songs by artist a"
    ["Artist A - Song One"; "Artist B feat. Artist A - Song Two"] = Some "Artist A".
Proof.
  apply (artist_a_resolved_in_any_order (fun l => l)).
  intros l. reflexivity.
Defined.

(** ** Empty results *)

Lemma slice_to_length_eq {A B} (k : Z) (l1 : list A) (l2 : list B) :
  length l1 = length l2 ->
  length (Py.slice_to k l1) = length (Py.slice_to k l2).
Proof.
  intros H. unfold Py.slice_to.
  destruct (0 <=? k); rewrite !length_firstn, H; reflexivity.
Qed.

Lemma structured_loop_length df dom docs_h i metas_h ds ms :
  structured_loop df dom docs_h i metas_h = Some (ds, ms) ->
  length ds = length ms.
Proof.
  revert i ds ms. induction metas_h as [|m metas_h IH]; intros i ds ms; simpl.
  - by intros [= <- <-].
  - destruct (structured_match df dom m); [|by apply IH].
    destruct (docs_h !! i); [|done].
    destruct (structured_loop df dom docs_h (S i) metas_h) as [[ds' ms']|] eqn:Hrec;
      [|done].
    intros [= <- <-]. simpl. f_equal. by eapply IH.
Qed.

(** The two lists that the stage returns have the same length: a candidate
    survives with its document or not at all. *)
Lemma retrieval_filter_aligned set_iter message df dom top_k docs_h metas_h f :
  retrieval_filter set_iter message df dom top_k docs_h metas_h = Some f ->
  length (docs f) = length (metas f).
Proof.
  unfold retrieval_filter.
  destruct (structured_pass df dom docs_h metas_h) as [[ds ms]|]; [|done].
  intros [= <-]. simpl. apply slice_to_length_eq, exclusion_loop_length.
Qed.

(** C6 (with the answer to an empty query result): when nothing is left to
    answer from, the response has [success = true], no sources, and one of
    four answers. When the vector query returned no document the answer is
    "No matching history found.", and the filters are not looked at. When
    it returned documents and the retrieval filter leaves none of them, the
    answer is the artist template when the resolver returned a name, else
    the date and domain template when both filters are present, else the
    generic message. *)
Theorem empty_result_response
    (set_iter : list string -> list string)
    (compose_answer : string -> Filtered -> ChatResponse)
    (now : Cal.date) (message : string) (top_k : Z)
    (docs_h : list string) (metas_h : list (gmap string string)) :
  (docs_h = [] ->
   chat_after_retrieval set_iter compose_answer now message top_k docs_h metas_h
   = Some {| success := true; answer := "No matching history found.";
             sources := [] |})
  /\ (forall f,
        docs_h <> [] ->
        retrieval_filter set_iter message (extract_date now message)
          (extract_domain message) top_k docs_h metas_h = Some f ->
        metas f = [] ->
        chat_after_retrieval set_iter compose_answer now message top_k docs_h metas_h
        = Some {| success := true;
                  answer :=
                    match artist_filter f, extract_date now message,
                          extract_domain message with
                    | Some (String c a), _, _ =>
                        "No songs featuring " +:+ String c a +:+ " found."
                    | _, Some (String c d), Some (String c' dom) =>
                        "No " +:+ String c' dom +:+ " activity found from "
                          +:+ String c d +:+ "."
                    | _, _, _ => "No matching results found."
                    end;
                  sources := [] |}).
Proof.
  split.
  - by intros ->.
  - intros f Hne Hf Hempty. unfold chat_after_retrieval.
    destruct docs_h as [|doc docs_h]; [done|]. rewrite Hf.
    pose proof (retrieval_filter_aligned _ _ _ _ _ _ _ _ Hf) as Hlen.
    rewrite Hempty in Hlen. apply length_zero_iff_nil in Hlen.
    unfold empty_result. rewrite Hlen.
    destruct (artist_filter f) as [[|c a]|]; simpl;
      destruct (extract_date now message) as [[|c1 d]|]; simpl;
      destruct (extract_domain message) as [[|c2 dom]|]; reflexivity.
Qed.

Lemma empty_result_response_witness :
  let meta : gmap string string :=
    list_to_map [("title", "Cat videos"); ("domain", "youtube.com");
                 ("visit_date", "2026-11-02"); ("content_category", "Media")] in
  chat_after_retrieval (fun l => l)
    (fun _ _ => {| success := true; answer := "composed"; sources := [] |})
    (Cal.mkdate 2026 11 3) "github activity yesterday" 20 ["Title: Cat videos"] [meta]
  = Some {| success := true;
            answer := "No github.com activity found from 2026-11-02.";
            sources := [] |}.
Proof.
  intros meta.
  apply (proj2 (empty_result_response (fun l => l) _ (Cal.mkdate 2026 11 3)
                  "github activity yesterday" 20 ["Title: Cat videos"] [meta])
           {| artist_filter := None; docs := []; metas := [] |}).
  - discriminate.
  - vm_compute. reflexivity.
  - reflexivity.
Defined.

(** C6, refuted as stated: the question names a date and a domain, no
    artist is resolved and nothing survives, since the vector query returned
    nothing; the answer is none of the three texts of the claim, which
    gives the date and domain template here. *)
Lemma empty_query_result_has_its_own_answer :
  let question := "github activity yesterday" in
  let now := Cal.mkdate 2026 11 3 in
  let composed := fun (_ : string) (_ : Filtered) =>
    {| success := true; answer := "composed"; sources := [] |} in
  extract_date now question = Some "2026-11-02"
  /\ extract_domain question = Some "github.com"
  /\ retrieval_filter (fun l => l) question (extract_date now question)
       (extract_domain question) 20 [] []
     = Some {| artist_filter := None; docs := []; metas := [] |}
  /\ chat_after_retrieval (fun l => l) composed now question 20 [] []
     = Some {| success := true; answer := "No matching history found.";
               sources := [] |}.
Proof. vm_compute. repeat split; reflexivity. Qed.

(** ** Memory distiller *)

(** C3 (the guarded call and the two calls after it): a failure of the
    chat-completion call that derives from [Exception] does not leave
    [distill_and_store_memory], the call ends normally and nothing is
    stored; when the completion returned a reply that is kept (not empty,
    not beginning with NONE), every failure of the embedding call and every
    failure of the add to the memory collection leaves
    [distill_and_store_memory] as that exception, and nothing is stored. *)
Theorem distill_swallows_only_completion_failure
    (Vec : Type)
    (chat_complete : list (string * string) -> result (option string))
    (embed_documents : list string -> result (list Vec))
    (add_error : string -> list (MemEntry Vec) -> MemEntry Vec -> option exn)
    (utc_timestamp : Z) (utc_isoformat : string)
    (user_id question answer : string) (store : list (MemEntry Vec)) :
  (forall e,
     chat_complete (distill_prompt question answer) = Raise e ->
     derives_Exception e = true ->
     distill_and_store_memory Vec chat_complete embed_documents add_error
       utc_timestamp utc_isoformat user_id question answer store
     = (Ok tt, store))
  /\ (forall summary e,
        chat_complete (distill_prompt question answer) = Ok (Some summary) ->
        summary <> EmptyString ->
        Py.startswith "NONE" (Py.upper (Py.strip summary)) = false ->
        embed_documents [summary] = Raise e ->
        distill_and_store_memory Vec chat_complete embed_documents add_error
          utc_timestamp utc_isoformat user_id question answer store
        = (Raise e, store))
  /\ (forall summary vec e,
        chat_complete (distill_prompt question answer) = Ok (Some summary) ->
        summary <> EmptyString ->
        Py.startswith "NONE" (Py.upper (Py.strip summary)) = false ->
        embed_documents [summary] = Ok vec ->
        add_error user_id store
          {| mem_id := "mem:" +:+ Py.str utc_timestamp; mem_document := summary;
             mem_embedding := vec; mem_user_id := user_id;
             mem_ts := utc_isoformat |} = Some e ->
        distill_and_store_memory Vec chat_complete embed_documents add_error
          utc_timestamp utc_isoformat user_id question answer store
        = (Raise e, store)).
Proof.
  unfold distill_and_store_memory. repeat split.
  - intros e Hchat He. by rewrite Hchat, He.
  - intros summary e Hchat Hne Hnone Hemb. rewrite Hchat.
    change (default EmptyString (Some summary)) with summary.
    rewrite Hnone, Hemb. by destruct summary.
  - intros summary vec e Hchat Hne Hnone Hemb Hadd. rewrite Hchat.
    change (default EmptyString (Some summary)) with summary.
    rewrite Hnone, Hemb, Hadd. by destruct summary.
Qed.

Lemma distill_swallows_only_completion_failure_witness :
  distill_and_store_memory unit
    (fun _ => Raise {| exn_class := "httpx.ReadTimeout"; derives_Exception := true |})
    (fun _ => Ok []) (fun _ _ _ => None) 1762200000 "2026-11-03T20:00:00"
    "local_user" "what did i read?" "Three articles." []
  = (Ok tt, []).
Proof.
  apply (proj1 (distill_swallows_only_completion_failure unit
                  (fun _ => Raise {| exn_class := "httpx.ReadTimeout";
                                     derives_Exception := true |})
                  (fun _ => Ok []) (fun _ _ _ => None) 1762200000
                  "2026-11-03T20:00:00" "local_user" "what did i read?"
                  "Three articles." [])
           {| exn_class := "httpx.ReadTimeout"; derives_Exception := true |});
    reflexivity.
Defined.

(** C3, refuted for the steps after the completion: when the completion
    returns a durable fact and the embedding call fails, or the embedding
    succeeds and the add to the memory collection fails, the exception
    leaves [distill_and_store_memory]. *)
Lemma distill_propagates_embedding_and_add_failures :
  let timeout := {| exn_class := "openai.APITimeoutError"; derives_Exception := true |} in
  let full := {| exn_class := "chromadb.errors.InternalError"; derives_Exception := true |} in
  let fact := fun _ : list (string * string) => Ok (Some "Prefers jazz piano.") in
  distill_and_store_memory unit fact (fun _ => Raise timeout) (fun _ _ _ => None)
    1762200000 "2026-11-03T20:00:00" "local_user" "q" "a" []
  = (Raise timeout, [])
  /\ distill_and_store_memory unit fact (fun _ => Ok [tt]) (fun _ _ _ => Some full)
       1762200000 "2026-11-03T20:00:00" "local_user" "q" "a" []
     = (Raise full, []).
Proof. split; vm_compute; reflexivity. Qed.

(** ** Shape of extracted dates *)

(** C10 at the inputs "march 0123" and "march 99": the year that follows a
    month name goes through [int] and is printed without padding, so the
    first result is neither YYYY-MM nor YYYY-MM-DD; the second has the day
    component 99. *)
Theorem extract_date_year_not_padded (now : Cal.date) :
  extract_date now "march 0123" = Some "123-03"
  /\ extract_date now "march 99" = Some (Py.str (Cal.year now) +:+ "-03-99").
Proof. split; reflexivity. Qed.

(** ** Decimal numerals *)

#[local] Arguments String.append !_ _ / : simpl nomatch.

Lemma append_assoc (s t u : string) : (s +:+ t) +:+ u = s +:+ (t +:+ u).
Proof. induction s as [|c s IH]; simpl; [done|]. by rewrite IH. Qed.

Lemma append_nil_r (s : string) : s +:+ "" = s.
Proof. induction s as [|c s IH]; simpl; [done|]. by rewrite IH. Qed.

Lemma length_append (s t : string) :
  String.length (s +:+ t) = (String.length s + String.length t)%nat.
Proof. induction s as [|c s IH]; simpl; [done|]. by rewrite IH. Qed.

Lemma str_forall_append p s t :
  str_forall p (s +:+ t) = str_forall p s && str_forall p t.
Proof. induction s as [|c s IH]; simpl; [done|]. by rewrite IH, andb_assoc. Qed.

Lemma int_go_append acc s t : Py.int_go acc (s +:+ t) = Py.int_go (Py.int_go acc s) t.
Proof. revert acc. induction s as [|c s IH]; intros acc; simpl; [done|]. apply IH. Qed.

Lemma pretty_N_go_append x s : pretty_N_go x s = pretty_N_go x "" +:+ s.
Proof.
  revert s. induction (N.lt_wf_0 x) as [x _ IH]; intros s.
  destruct (decide (x = 0%N)) as [->|Hx]; [by rewrite !pretty_N_go_0|].
  assert (x `div` 10 < x)%N as Hlt by (apply N.div_lt; lia).
  rewrite (pretty_N_go_step x s), (pretty_N_go_step x "") by lia.
  rewrite (IH _ Hlt (String _ s)), (IH _ Hlt (String _ "")).
  by rewrite append_assoc.
Qed.

Lemma pretty_N_char_digit x :
  (x < 10)%N ->
  Py.isdigit (pretty_N_char x) = true /\ Py.digit_val (pretty_N_char x) = Z.of_N x.
Proof.
  intros Hx.
  assert (x = 0 \/ x = 1 \/ x = 2 \/ x = 3 \/ x = 4 \/ x = 5 \/ x = 6 \/ x = 7
          \/ x = 8 \/ x = 9)%N as Hcases by lia.
  repeat (destruct Hcases as [->|Hcases]; [by vm_compute|]). by subst.
Qed.

Lemma pretty_N_go_digits x :
  str_forall Py.isdigit (pretty_N_go x "") = true
  /\ Py.int_go 0 (pretty_N_go x "") = Z.of_N x.
Proof.
  induction (N.lt_wf_0 x) as [x _ IH].
  destruct (decide (x = 0%N)) as [->|Hx]; [by rewrite pretty_N_go_0|].
  rewrite pretty_N_go_step, pretty_N_go_append by lia.
  destruct (IH (x `div` 10)%N) as [Hd Hv]; [apply N.div_lt; lia|].
  destruct (pretty_N_char_digit (x `mod` 10)) as [Hc Hcv]; [by apply N.mod_lt|].
  rewrite str_forall_append, int_go_append, Hd, Hv. simpl. rewrite Hc, Hcv.
  split; [done|].
  rewrite (N.div_mod x 10) at 3 by done. lia.
Qed.

(** [str(n)] of a natural number is its decimal numeral: digits only, and
    [int] reads the number back. *)
Lemma str_digits (n : Z) :
  0 <= n -> str_forall Py.isdigit (Py.str n) = true /\ Py.int (Py.str n) = n.
Proof.
  intros Hn. unfold Py.str, pretty, pretty_Z.
  destruct n as [|p|p]; [done| |lia].
  unfold pretty, pretty_positive, pretty, pretty_N.
  destruct (decide (N.pos p = 0%N)); [done|]. apply pretty_N_go_digits.
Qed.

Lemma zeros_digits k s :
  str_forall Py.isdigit (Py.zeros k +:+ s) = str_forall Py.isdigit s
  /\ Py.int (Py.zeros k +:+ s) = Py.int s.
Proof. induction k as [|k IH]; simpl; [done|]. apply IH. Qed.

Lemma fmt_d_digits w n :
  0 <= n -> str_forall Py.isdigit (Py.fmt_d w n) = true /\ Py.int (Py.fmt_d w n) = n.
Proof.
  intros Hn. unfold Py.fmt_d, Py.zfill.
  destruct (zeros_digits (w - String.length (Py.str n)) (Py.str n)) as [-> ->].
  by apply str_digits.
Qed.

Lemma fmt_d_inj w n1 n2 : 0 <= n1 -> 0 <= n2 -> Py.fmt_d w n1 = Py.fmt_d w n2 -> n1 = n2.
Proof.
  intros H1 H2 Heq.
  rewrite <-(proj2 (fmt_d_digits w n1 H1)), <-(proj2 (fmt_d_digits w n2 H2)).
  by rewrite Heq.
Qed.

(** ** Stable document identifiers *)

Lemma str_forall_impl (p q : ascii -> bool) s :
  (forall c, p c = true -> q c = true) ->
  str_forall p s = true -> str_forall q s = true.
Proof.
  intros Hpq. induction s as [|c s IH]; simpl; [done|].
  intros [Hc Hs]%andb_true_iff. by rewrite (Hpq _ Hc), IH.
Qed.

(** A string is cut in one way only at the last occurrence of a character. *)
Lemma append_sep_inj (c : ascii) (x y x' y' : string) :
  str_forall (fun a => negb (Ascii.eqb a c)) y = true ->
  str_forall (fun a => negb (Ascii.eqb a c)) y' = true ->
  x +:+ String c y = x' +:+ String c y' ->
  x = x' /\ y = y'.
Proof.
  intros Hy Hy'. revert x'.
  induction x as [|a x IH]; intros [|a' x']; simpl; intros Heq.
  - by injection Heq.
  - injection Heq as <- ->. rewrite str_forall_append in Hy. simpl in Hy.
    rewrite Ascii.eqb_refl in Hy. simpl in Hy. by rewrite andb_false_r in Hy.
  - injection Heq as -> <-. rewrite str_forall_append in Hy'. simpl in Hy'.
    rewrite Ascii.eqb_refl in Hy'. simpl in Hy'. by rewrite andb_false_r in Hy'.
  - injection Heq as -> Heq. destruct (IH _ Heq) as [-> ->]. done.
Qed.

Lemma digits_without (c : ascii) (s : string) :
  Py.isdigit c = false ->
  str_forall Py.isdigit s = true ->
  str_forall (fun a => negb (Ascii.eqb a c)) s = true.
Proof.
  intros Hc. apply str_forall_impl. intros a Ha.
  destruct (Ascii.eqb_spec a c) as [->|]; [congruence|done].
Qed.

Lemma strftime_Ymd_inj (d1 d2 : Cal.date) :
  0 <= Cal.year d1 -> 0 <= Cal.month d1 -> 0 <= Cal.day d1 ->
  0 <= Cal.year d2 -> 0 <= Cal.month d2 -> 0 <= Cal.day d2 ->
  Cal.strftime_Ymd d1 = Cal.strftime_Ymd d2 -> d1 = d2.
Proof.
  destruct d1 as [y1 m1 dd1], d2 as [y2 m2 dd2]. unfold Cal.strftime_Ymd.
  cbn [Cal.year Cal.month Cal.day].
  intros Hy1 Hm1 Hd1 Hy2 Hm2 Hd2 Heq.
  assert (forall Y M D, Y +:+ "-" +:+ M +:+ "-" +:+ D
                        = (Y +:+ String "-" M) +:+ String "-" D) as Hre
    by (intros; by rewrite append_assoc).
  rewrite !Hre in Heq.
  apply append_sep_inj in Heq as [Heq Hd];
    [|apply digits_without; [done|by apply fmt_d_digits]..].
  apply append_sep_inj in Heq as [Hy Hm];
    [|apply digits_without; [done|by apply fmt_d_digits]..].
  apply fmt_d_inj in Hy, Hm, Hd; try done. by subst.
Qed.

Lemma strftime_Ymd_no_colon (d : Cal.date) :
  0 <= Cal.year d -> 0 <= Cal.month d -> 0 <= Cal.day d ->
  str_forall (fun a => negb (Ascii.eqb a ":")) (Cal.strftime_Ymd d) = true.
Proof.
  intros Hy Hm Hd. unfold Cal.strftime_Ymd.
  rewrite !str_forall_append. simpl.
  rewrite !(digits_without ":") by (done || by apply fmt_d_digits). done.
Qed.

Lemma month_day_range (n : Z) (leapyear : bool) :
  0 <= n < 365 ->
  1 <= (Cal.month_day n leapyear).1 <= 12 /\ 1 <= (Cal.month_day n leapyear).2 <= 31.
Proof.
  intros Hn.
  assert (forallb (fun k =>
            forallb (fun l =>
              let md := Cal.month_day (Z.of_nat k) l in
              (1 <=? md.1) && (md.1 <=? 12) && (1 <=? md.2) && (md.2 <=? 31))
              [true; false]) (seq 0 365) = true) as Hall by (vm_compute; reflexivity).
  rewrite forallb_forall in Hall.
  specialize (Hall (Z.to_nat n)). rewrite Z2Nat.id in Hall by lia.
  assert (In (Z.to_nat n) (seq 0 365)) as Hin by (apply in_seq; lia).
  specialize (Hall Hin). rewrite forallb_forall in Hall.
  specialize (Hall leapyear). destruct leapyear.
  - specialize (Hall (or_introl eq_refl)). simpl in Hall. lia.
  - specialize (Hall (or_intror (or_introl eq_refl))). simpl in Hall. lia.
Qed.

Lemma ord2ymd_month_day (x : Z) :
  1 <= Cal.month (Cal.ord2ymd x) <= 12 /\ 1 <= Cal.day (Cal.ord2ymd x) <= 31.
Proof.
  unfold Cal.ord2ymd. cbv zeta.
  destruct (_ || _); simpl; [lia|].
  apply month_day_range. apply Z.mod_pos_bound. lia.
Qed.

Lemma fromtimestamp_ms_valid utcoffset ms d :
  Cal.fromtimestamp_ms utcoffset ms = Some d ->
  1 <= Cal.year d <= 9999 /\ 1 <= Cal.month d <= 12 /\ 1 <= Cal.day d <= 31.
Proof.
  unfold Cal.fromtimestamp_ms.
  destruct (_ && _) eqn:Hy; [|done]. intros [= <-].
  split; [lia|]. apply ord2ymd_month_day.
Qed.

Lemma url_hash_range py_hash item : 0 <= url_hash py_hash item < 10 ^ 9.
Proof. unfold url_hash. apply Z.mod_pos_bound. lia. Qed.

Lemma str_no_colon n :
  0 <= n -> str_forall (fun a => negb (Ascii.eqb a ":")) (Py.str n) = true.
Proof. intros Hn. apply digits_without; [done|]. by apply str_digits. Qed.

Lemma stable_doc_id_eq_iff
    (hash1 hash2 : string -> Z) (utcoffset : Z) (a b : HistoryItem) (ia ib : string) :
  stable_doc_id hash1 utcoffset a = Some ia ->
  stable_doc_id hash2 utcoffset b = Some ib ->
  (ia = ib <->
     domain a = domain b
     /\ visit_date utcoffset a = visit_date utcoffset b
     /\ url_hash hash1 a = url_hash hash2 b).
Proof.
  unfold stable_doc_id.
  destruct (visit_date utcoffset a) as [da|] eqn:Hda; [|done].
  destruct (visit_date utcoffset b) as [db|] eqn:Hdb; [|done].
  intros [= <-] [= <-].
  change ("hist:" +:+ domain a +:+ ":" +:+ Cal.strftime_Ymd da +:+ ":"
            +:+ Py.str (url_hash hash1 a)
          = "hist:" +:+ domain b +:+ ":" +:+ Cal.strftime_Ymd db +:+ ":"
              +:+ Py.str (url_hash hash2 b)
          <-> domain a = domain b /\ Some da = Some db
              /\ url_hash hash1 a = url_hash hash2 b).
  split.
  - intros Heq. apply (inj (String.append "hist:")) in Heq.
    assert (forall D V H, D +:+ ":" +:+ V +:+ ":" +:+ H
                          = (D +:+ String ":" V) +:+ String ":" H) as Hre
      by (intros; by rewrite append_assoc).
    rewrite !Hre in Heq.
    apply fromtimestamp_ms_valid in Hda as (?&?&?), Hdb as (?&?&?).
    pose proof (url_hash_range hash1 a). pose proof (url_hash_range hash2 b).
    apply append_sep_inj in Heq as [Heq Hh]; [|apply str_no_colon; lia..].
    apply append_sep_inj in Heq as [Hd Hv];
      [|apply strftime_Ymd_no_colon; lia..].
    apply strftime_Ymd_inj in Hv; [|lia..].
    apply (inj pretty) in Hh. by subst.
  - intros (-> & [= ->] & ->). done.
Qed.

(** C2, for any item in two interpreter runs: the identifier carries the
    value of the built-in string hash of the run, reduced modulo 10^9, so
    the same item gets the same identifier in two runs exactly when the two
    runs give its URL the same reduced hash; with the hash of strings
    salted anew at every interpreter start the identifiers differ. *)
Theorem stable_doc_id_differs_between_runs
    (hash_run1 hash_run2 : string -> Z) (utcoffset : Z) (item : HistoryItem)
    (id1 id2 : string) :
  stable_doc_id hash_run1 utcoffset item = Some id1 ->
  stable_doc_id hash_run2 utcoffset item = Some id2 ->
  (id1 = id2 <-> url_hash hash_run1 item = url_hash hash_run2 item)
  /\ (url_hash hash_run1 item <> url_hash hash_run2 item -> id1 <> id2).
Proof.
  intros H1 H2.
  pose proof (stable_doc_id_eq_iff hash_run1 hash_run2 utcoffset item item id1 id2
                H1 H2) as Hiff.
  assert (id1 = id2 <-> url_hash hash_run1 item = url_hash hash_run2 item) as Hsame.
  { rewrite Hiff. split; [by intros (_ & _ & H)|by intros H]. }
  split; [done|]. intros Hne Heq. by apply Hne, Hsame.
Qed.

Lemma stable_doc_id_differs_between_runs_witness :
  "hist:example.com:2025-11-03:746201337" <> "hist:example.com:2025-11-03:190455021".
Proof.
  apply (proj2 (stable_doc_id_differs_between_runs
                  (fun _ => 5523817746201337) (fun _ => -8126320190455021) 0
                  {| id := "1"; lastVisitTime := 1762200000000; title := "Docs";
                     url := "https://example.com/docs"; domain := "example.com";
                     dayOfWeek := 1; hour := 20; collectedAt := 1762200001000 |}
                  "hist:example.com:2025-11-03:746201337"
                  "hist:example.com:2025-11-03:190455021"
                  ltac:(vm_compute; reflexivity) ltac:(vm_compute; reflexivity))).
  vm_compute. discriminate.
Defined.

(** With one string hash, that is, within one run of the interpreter, two
    items with representable visit times get the same identifier exactly
    when they share the domain, the local calendar day of the visit and the
    URL hash reduced modulo 10^9; so items that share domain, day and URL
    get the same identifier. *)
Theorem stable_doc_id_same_iff
    (py_hash : string -> Z) (utcoffset : Z) (a b : HistoryItem) (ia ib : string) :
  stable_doc_id py_hash utcoffset a = Some ia ->
  stable_doc_id py_hash utcoffset b = Some ib ->
  (ia = ib <->
     domain a = domain b
     /\ visit_date utcoffset a = visit_date utcoffset b
     /\ url_hash py_hash a = url_hash py_hash b)
  /\ (domain a = domain b ->
      visit_date utcoffset a = visit_date utcoffset b ->
      url a = url b -> ia = ib).
Proof.
  unfold stable_doc_id.
  destruct (visit_date utcoffset a) as [da|] eqn:Hda; [|done].
  destruct (visit_date utcoffset b) as [db|] eqn:Hdb; [|done].
  intros [= <-] [= <-].
  assert (ida_iff :
    "hist:" +:+ domain a +:+ ":" +:+ Cal.strftime_Ymd da +:+ ":" +:+ Py.str (url_hash py_hash a)
    = "hist:" +:+ domain b +:+ ":" +:+ Cal.strftime_Ymd db +:+ ":" +:+ Py.str (url_hash py_hash b)
    <-> domain a = domain b /\ Some da = Some db
        /\ url_hash py_hash a = url_hash py_hash b).
  { split.
    - intros Heq. apply (inj (String.append "hist:")) in Heq.
      assert (forall D V H, D +:+ ":" +:+ V +:+ ":" +:+ H
                            = (D +:+ String ":" V) +:+ String ":" H) as Hre
        by (intros; by rewrite append_assoc).
      rewrite !Hre in Heq.
      apply fromtimestamp_ms_valid in Hda as (?&?&?), Hdb as (?&?&?).
      pose proof (url_hash_range py_hash a). pose proof (url_hash_range py_hash b).
      apply append_sep_inj in Heq as [Heq Hh]; [|apply str_no_colon; lia..].
      apply append_sep_inj in Heq as [Hd Hv];
        [|apply strftime_Ymd_no_colon; lia..].
      apply strftime_Ymd_inj in Hv; [|lia..].
      apply (inj pretty) in Hh. by subst.
    - intros (-> & [= ->] & ->). done. }
  split; [done|].
  intros Hd Hv Hu. apply ida_iff. repeat split; [done..|].
  unfold url_hash. by rewrite Hu.
Qed.

Lemma stable_doc_id_same_iff_witness :
  let a := {| id := "1"; lastVisitTime := 1762200000000; title := "Docs";
              url := "https://example.com/docs"; domain := "example.com";
              dayOfWeek := 1; hour := 20; collectedAt := 1762200001000 |} in
  let b := {| id := "2"; lastVisitTime := 1762203600000; title := "Docs again";
              url := "https://example.com/docs"; domain := "example.com";
              dayOfWeek := 1; hour := 21; collectedAt := 1762203601000 |} in
  domain a = domain b
  /\ visit_date 0 a = visit_date 0 b
  /\ url_hash (fun s => Z.of_nat (String.length s)) a
     = url_hash (fun s => Z.of_nat (String.length s)) b.
Proof.
  intros a b.
  apply (proj1 (proj1 (stable_doc_id_same_iff
                         (fun s => Z.of_nat (String.length s)) 0 a b
                         "hist:example.com:2025-11-03:24"
                         "hist:example.com:2025-11-03:24"
                         ltac:(vm_compute; reflexivity)
                         ltac:(vm_compute; reflexivity)))).
  reflexivity.
Defined.

Lemma length_zeros k : String.length (Py.zeros k) = k.
Proof. induction k as [|k IH]; simpl; [done|]. by rewrite IH. Qed.

(** Whatever the string hash of the interpreter, two items with different
    URLs get the same identifier. The reduced hash has 10^9 values, so two
    of the URLs "", "0", "00", ... of at most 10^9 characters share one. *)
Lemma stable_doc_id_collides_on_distinct_urls :
  ~ exists py_hash : string -> Z,
      forall (utcoffset : Z) (a b : HistoryItem) (i : string),
        stable_doc_id py_hash utcoffset a = Some i ->
        stable_doc_id py_hash utcoffset b = Some i ->
        domain a = domain b
        /\ visit_date utcoffset a = visit_date utcoffset b
        /\ url a = url b.
Proof.
  intros [py_hash Hclaim].
  pose (item := fun k : nat =>
    {| id := "x"; lastVisitTime := 0; title := "t"; url := Py.zeros k;
       domain := "example.com"; dayOfWeek := 4; hour := 0; collectedAt := 0 |}).
  pose (f := fun k : nat => Z.to_nat (url_hash py_hash (item k))).
  destruct (nat_pigeonhole f (S (Z.to_nat (10 ^ 9))) (Z.to_nat (10 ^ 9)))
    as (k1 & k2 & Hlt & Hf).
  { lia. }
  { intros k _. unfold f. pose proof (url_hash_range py_hash (item k)). lia. }
  assert (url_hash py_hash (item k1) = url_hash py_hash (item k2)) as Hh.
  { unfold f in Hf. pose proof (url_hash_range py_hash (item k1)).
    pose proof (url_hash_range py_hash (item k2)). lia. }
  assert (forall k, stable_doc_id py_hash 0 (item k)
                    = Some ("hist:example.com:1970-01-01:" +:+ Py.str (url_hash py_hash (item k))))
    as Hid by (intros k; reflexivity).
  destruct (Hclaim 0 (item k1) (item k2) _ (Hid k1)) as (_ & _ & Hurl).
  { rewrite Hid. by rewrite Hh. }
  apply (f_equal String.length) in Hurl. simpl in Hurl.
  rewrite !length_zeros in Hurl. lia.
Qed.

(** ** Stability of the retrieval filter under the visiting order *)

Lemma best_artist_no_substring q_lower query_tokens artists :
  (forall c, In c artists -> in_question q_lower c = false) ->
  forall best_match best_score, 0 <= best_score ->
    (best_artist q_lower query_tokens artists best_match best_score
     = (if 1 <=? best_score then best_match else None)
     /\ forall c, In c artists -> score_of query_tokens c <= best_score)
    \/ (exists a, In a artists
          /\ best_artist q_lower query_tokens artists best_match best_score = Some a
          /\ best_score < score_of query_tokens a
          /\ forall c, In c artists -> score_of query_tokens c <= score_of query_tokens a).
Proof.
  induction artists as [|artist rest IH]; intros Hno bm bs Hbs.
  { left. by split. }
  assert (in_question q_lower artist = false) as Hart by (apply Hno; by left).
  assert (forall c, In c rest -> in_question q_lower c = false) as Hrest
    by (intros c Hc; apply Hno; by right).
  simpl. unfold in_question in Hart. rewrite Hart.
  fold (score_of query_tokens artist).
  destruct (Z.ltb_spec bs (score_of query_tokens artist)) as [Hlt|Hge].
  - right.
    destruct (IH Hrest (Some artist) (score_of query_tokens artist)) as
      [[Hres Hle]|(a & Ha & Hres & Hlt' & Hle)]; [lia|..].
    + exists artist. split; [by left|]. rewrite Hres.
      destruct (Z.leb_spec 1 (score_of query_tokens artist)); [|lia].
      repeat split; [done|]. intros c [<-|Hc]; [lia|by apply Hle].
    + exists a. split; [by right|]. repeat split; [done|lia|].
      intros c [<-|Hc]; [lia|by apply Hle].
  - destruct (IH Hrest bm bs Hbs) as [[Hres Hle]|(a & Ha & Hres & Hlt' & Hle)].
    + left. split; [done|]. intros c [<-|Hc]; [lia|by apply Hle].
    + right. exists a. split; [by right|]. repeat split; [done..|].
      intros c [<-|Hc]; [lia|by apply Hle].
Qed.

Lemma best_artist_permutation q_lower query_tokens l1 l2 :
  Permutation l1 l2 ->
  tie_free q_lower query_tokens l1 ->
  best_artist q_lower query_tokens l1 None 0
  = best_artist q_lower query_tokens l2 None 0.
Proof.
  intros Hperm [Hsub Hscore].
  assert (forall c, In c l2 -> In c l1) as H21
    by (intros c; apply Permutation_in; by symmetry).
  assert (forall c, In c l1 -> In c l2) as H12
    by (intros c; by apply Permutation_in).
  destruct (existsb (in_question q_lower) l1) eqn:Hex.
  - apply existsb_exists in Hex as (a & Ha & Hin).
    rewrite !(best_artist_short_circuit q_lower query_tokens _ a); auto.
  - assert (forall c, In c l1 -> in_question q_lower c = false) as Hno1.
    { intros c Hc. destruct (in_question q_lower c) eqn:Hq; [|done].
      assert (existsb (in_question q_lower) l1 = true) as Ht
        by (apply existsb_exists; eauto). congruence. }
    assert (forall c, In c l2 -> in_question q_lower c = false) as Hno2 by auto.
    destruct (best_artist_no_substring q_lower query_tokens l1 Hno1 None 0)
      as [[-> Hle1]|(a1 & Ha1 & -> & Hlt1 & Hle1)]; [lia|..];
      destruct (best_artist_no_substring q_lower query_tokens l2 Hno2 None 0)
        as [[-> Hle2]|(a2 & Ha2 & -> & Hlt2 & Hle2)]; try lia.
    + done.
    + specialize (Hle1 a2 (H21 _ Ha2)). lia.
    + specialize (Hle2 a1 (H12 _ Ha1)). lia.
    + f_equal. apply Hscore; auto; [lia|].
      pose proof (Hle1 a2 (H21 _ Ha2)). pose proof (Hle2 a1 (H12 _ Ha1)). lia.
Qed.

Lemma tie_free_permutation q_lower query_tokens l1 l2 :
  Permutation l1 l2 ->
  tie_free q_lower query_tokens l1 -> tie_free q_lower query_tokens l2.
Proof.
  intros Hperm [Hsub Hscore].
  assert (forall c, In c l2 -> In c l1) as H21
    by (intros c; apply Permutation_in; by symmetry).
  assert (forall c, In c l1 -> In c l2) as H12
    by (intros c; by apply Permutation_in).
  split.
  - intros a b Ha Hb. apply Hsub; auto.
  - intros Hno a b Ha Hb Hs Heq Hmax.
    apply Hscore; auto.
Qed.

(** C5 (with both kinds of tie): two runs of the retrieval-filter stage on
    the same question, filters, [top_k] and raw candidates give the same
    ordered output, whatever the orders in which the two runs visit the set
    of candidate artists, provided artist resolution has no tie: where the
    resolver runs its loop (a music question with a query token), at most
    one candidate occurs in the question, and, when none does, at most one
    candidate has the highest score of at least 1. *)
Theorem retrieval_filter_order_independent
    (set_iter1 set_iter2 : list string -> list string)
    (message : string) (date_filter domain_filter : option string) (top_k : Z)
    (docs_h : list string) (metas_h : list (gmap string string)) :
  (forall l, Permutation (set_iter1 l) l) ->
  (forall l, Permutation (set_iter2 l) l) ->
  (forall ds ms,
     structured_pass date_filter domain_filter docs_h metas_h = Some (ds, ms) ->
     is_music_query message = true ->
     query_tokens_of (Py.lower message) <> [] ->
     tie_free (Py.lower message) (query_tokens_of (Py.lower message))
       (collect_artists (map (fun meta => meta_get meta "title") ms))) ->
  retrieval_filter set_iter1 message date_filter domain_filter top_k docs_h metas_h
  = retrieval_filter set_iter2 message date_filter domain_filter top_k docs_h metas_h.
Proof.
  intros H1 H2 Htie. unfold retrieval_filter.
  destruct (structured_pass date_filter domain_filter docs_h metas_h)
    as [[ds ms]|] eqn:Hpass; [|done].
  specialize (Htie ds ms eq_refl).
  destruct (is_music_query message) eqn:Hmusic; [|done].
  specialize (Htie eq_refl).
  set (pool := collect_artists _) in *.
  assert (extract_artist_from_query set_iter1 message
            (map (fun meta => meta_get meta "title") ms)
          = extract_artist_from_query set_iter2 message
              (map (fun meta => meta_get meta "title") ms)) as ->; [|done].
  unfold extract_artist_from_query. fold pool.
  destruct (query_tokens_of (Py.lower message)) as [|tok toks]; [done|].
  specialize (Htie ltac:(done)).
  apply best_artist_permutation.
  - by rewrite H1, H2.
  - apply (tie_free_permutation _ _ pool); [by rewrite H1|done].
Qed.

Lemma retrieval_filter_order_independent_witness :
  let metas_h : list (gmap string string) :=
    [list_to_map [("title", "Artist A - Song One"); ("domain", "youtube.com")];
     list_to_map [("title", "Artist B feat. Artist A - Song Two");
                  ("domain", "youtube.com")]] in
  retrieval_filter (fun l => l) "songs by artist a" None None 20 ["one"; "two"] metas_h
  = retrieval_filter (@List.rev string) "songs by artist a" None None 20
      ["one"; "two"] metas_h.
Proof.
  intros metas_h.
  apply (retrieval_filter_order_independent (fun l => l) (@List.rev string)).
  - intros l. reflexivity.
  - intros l. symmetry. apply Permutation_rev.
  - intros ds ms [= <- <-] _ _.
    change (collect_artists _)
      with ["Artist A"; "Artist B feat. Artist A"; "artist a - song two"].
    split.
    + intros a b [<-|[<-|[<-|[]]]] [<-|[<-|[<-|[]]]]; vm_compute; congruence.
    + intros Hno. specialize (Hno "Artist A" (or_introl eq_refl)).
      vm_compute in Hno. discriminate.
Defined.

(** C5, refuted as stated: with no candidate occurring in the question, two
    candidates that share the highest score are resolved by the visiting
    order, and the output of the stage changes with it. *)
Lemma retrieval_filter_depends_on_order_at_score_tie :
  let question := "taylor songs" in
  let m1 : gmap string string :=
    list_to_map [("title", "Taylor Momsen - Heaven"); ("domain", "youtube.com")] in
  let m2 : gmap string string :=
    list_to_map [("title", "Taylor Dayne - Tell It"); ("domain", "youtube.com")] in
  (forall a, In a (collect_artists ["Taylor Momsen - Heaven"; "Taylor Dayne - Tell It"]) ->
     in_question (Py.lower question) a = false)
  /\ retrieval_filter (fun l => l) question None None 20 ["one"; "two"] [m1; m2]
     = Some {| artist_filter := Some "Taylor Momsen"; docs := ["one"]; metas := [m1] |}
  /\ retrieval_filter (@List.rev string) question None None 20 ["one"; "two"] [m1; m2]
     = Some {| artist_filter := Some "Taylor Dayne"; docs := ["two"]; metas := [m2] |}.
Proof.
  intros question m1 m2. split; [|split; vm_compute; reflexivity].
  change (collect_artists _) with ["Taylor Momsen"; "Taylor Dayne"].
  intros a [<-|[<-|[]]]; vm_compute; reflexivity.
Qed.

(** ** Matching is blind to the value of digits *)

Lemma sim_refl s : sim s s.
Proof. induction s as [|c s IH]; simpl; [done|]. split; [by left|done]. Qed.

Lemma sim_length s s' : sim s s' -> String.length s = String.length s'.
Proof.
  revert s'. induction s as [|a s IH]; intros [|b s']; simpl; try done.
  intros [_ H]. by rewrite (IH _ H).
Qed.

Lemma sim_append s1 s1' s2 s2' :
  sim s1 s1' -> sim s2 s2' -> sim (s1 +:+ s2) (s1' +:+ s2').
Proof.
  revert s1'. induction s1 as [|a s1 IH]; intros [|b s1']; simpl; try done.
  intros [Hc H1] H2. split; [done|]. by apply IH.
Qed.

Lemma sim_digits s s' :
  str_forall Py.isdigit s = true -> str_forall Py.isdigit s' = true ->
  String.length s = String.length s' -> sim s s'.
Proof.
  revert s'. induction s as [|a s IH]; intros [|b s']; simpl; try done.
  intros [Ha Hs]%andb_true_iff [Hb Hs']%andb_true_iff [= Hlen].
  split; [by right|]. by apply IH.
Qed.

Lemma digit_facts c :
  Py.isdigit c = true -> Py.isspace c = false /\ Py.lower_char c = c.
Proof. destruct c as [[] [] [] [] [] [] [] []]; vm_compute; try done. Qed.

Lemma sim_lower s s' : sim s s' -> sim (Py.lower s) (Py.lower s').
Proof.
  revert s'. induction s as [|a s IH]; intros [|b s']; simpl; try done.
  intros [[->|[Ha Hb]] H]; (split; [|by apply IH]); [by left|].
  rewrite (proj2 (digit_facts _ Ha)), (proj2 (digit_facts _ Hb)). by right.
Qed.

Lemma sim_drop n s s' : sim s s' -> sim (Py.drop n s) (Py.drop n s').
Proof.
  revert s s'. induction n as [|n IH]; intros [|a s] [|b s']; simpl; try done.
  intros [_ H]. by apply IH.
Qed.

Lemma startswith_sim l s s' :
  str_forall no_digit l = true -> sim s s' ->
  Py.startswith l s = Py.startswith l s'.
Proof.
  revert s s'. induction l as [|c l IH]; intros [|a s] [|b s']; simpl; try done.
  intros [Hc Hl]%andb_true_iff [[->|[Ha Hb]] H].
  - destruct (Ascii.eqb c b); [by apply IH|done].
  - unfold no_digit in Hc. apply negb_true_iff in Hc.
    destruct (Ascii.eqb_spec c a) as [->|]; [congruence|].
    destruct (Ascii.eqb_spec c b) as [->|]; [congruence|]. done.
Qed.

Lemma contains_sim l s s' :
  str_forall no_digit l = true -> sim s s' ->
  Py.contains l s = Py.contains l s'.
Proof.
  intros Hl. revert s'. induction s as [|a s IH]; intros [|b s'] H; try done.
  simpl. rewrite (startswith_sim l (String a s) (String b s') Hl H).
  destruct H as [_ H]. by rewrite (IH _ H).
Qed.

Lemma existsb_no_digit c cs :
  forallb no_digit cs = true -> Py.isdigit c = true -> existsb (Ascii.eqb c) cs = false.
Proof.
  intros Hcs Hc. induction cs as [|x cs IH]; simpl in *; [done|].
  apply andb_true_iff in Hcs as [Hx Hcs]. rewrite (IH Hcs), orb_false_r.
  destruct (Ascii.eqb_spec c x) as [->|]; [|done].
  unfold no_digit in Hx. by rewrite Hc in Hx.
Qed.

Lemma in_cls_sim k a b :
  blind_cls k = true -> sim_char a b -> Re.in_cls k a = Re.in_cls k b.
Proof.
  intros Hk [->|[Ha Hb]]; [done|].
  destruct k as [| |cs|cs]; simpl in *.
  - by rewrite Ha, Hb.
  - by rewrite (proj1 (digit_facts _ Ha)), (proj1 (digit_facts _ Hb)).
  - by rewrite !existsb_no_digit.
  - by rewrite !existsb_no_digit.
Qed.

Lemma run_sim k hi s s' :
  blind_cls k = true -> sim s s' -> Re.run k hi s = Re.run k hi s'.
Proof.
  intros Hk. revert hi s'.
  induction s as [|a s IH]; intros hi [|b s']; simpl; try done.
  intros [Hc H]. rewrite (in_cls_sim k a b Hk Hc).
  destruct hi as [[|n]|]; simpl; [done|..];
    (destruct (Re.in_cls k b); [|done]); f_equal; by apply IH.
Qed.

Lemma give_back_sim lo n s s' :
  sim s s' -> Forall2 sim_rest (Re.give_back lo n s) (Re.give_back lo n s').
Proof.
  intros H. induction n as [|n IH]; simpl.
  - destruct (0 <? lo)%nat; constructor; [|constructor]. by apply (sim_drop 0).
  - destruct (S n <? lo)%nat; constructor; [|done]. by apply (sim_drop (S n)).
Qed.

Lemma Forall2_flat_map_map {A B} (R : A -> A -> Prop) (Q : B -> B -> Prop)
    (f g : A -> list B) (l l' : list A) :
  (forall x y, R x y -> Forall2 Q (f x) (g y)) ->
  Forall2 R l l' -> Forall2 Q (flat_map f l) (flat_map g l').
Proof.
  intros Hfg. induction 1; simpl; [constructor|].
  apply Forall2_app; auto.
Qed.

Lemma Forall2_map_both {A B} (R : A -> A -> Prop) (Q : B -> B -> Prop)
    (f g : A -> B) (l l' : list A) :
  (forall x y, R x y -> Q (f x) (g y)) ->
  Forall2 R l l' -> Forall2 Q (map f l) (map g l').
Proof. intros Hfg. induction 1; simpl; constructor; auto. Qed.

Lemma matches_sim r s s' :
  blind r = true -> sim s s' -> Forall2 sim_rest (Re.matches r s) (Re.matches r s').
Proof.
  revert s s'. induction r as [l|k lo hi|r1 IH1|r1 IH1 r2 IH2|r1 IH1 r2 IH2|r1 IH1];
    intros s s' Hr H; simpl in Hr |- *.
  - rewrite (startswith_sim l s s' Hr H).
    destruct (Py.startswith l s'); constructor; [|constructor].
    by apply sim_drop.
  - rewrite (run_sim k hi s s' Hr H). by apply give_back_sim.
  - apply Forall2_app; [by apply IH1|]. by repeat constructor.
  - apply andb_true_iff in Hr as [Hr1 Hr2].
    apply (Forall2_flat_map_map sim_rest); [|by apply IH1].
    intros m1 m1' Hm. apply (Forall2_map_both sim_rest); [|by apply IH2].
    by intros m2 m2' Hm2.
  - apply andb_true_iff in Hr as [Hr1 Hr2].
    apply Forall2_app; [by apply IH1|by apply IH2].
  - apply (Forall2_map_both sim_rest); [|by apply IH1].
    by intros m m' Hm.
Qed.

Lemma search_sim r s s' :
  blind r = true -> sim s s' -> found (Re.search r s) = found (Re.search r s').
Proof.
  intros Hr. revert s'.
  induction s as [|a s IH]; intros [|b s'] H; try done; simpl;
    pose proof (matches_sim r _ _ Hr H) as Hm; unfold Re.match_;
    destruct Hm as [|m m' ms ms' _ _]; simpl; try done.
  destruct H as [_ H]. by apply IH.
Qed.

(** ** The round trip of an extracted date through the query expansion *)

Lemma length_zfill w s : (w <= String.length (Py.zfill w s))%nat.
Proof.
  unfold Py.zfill. rewrite length_append, length_zeros. lia.
Qed.

Lemma day_loop_sound current_year q ms :
  forallb (day_key_ok q) ms = true ->
  existsb (day_key_hit q) ms = true ->
  exists x, extract_date_months current_year q ms = Some x
            /\ (String.length (Py.str current_year) + 6 <= String.length x)%nat.
Proof.
  induction ms as [|[name num] ms IH]; simpl; [done|].
  unfold day_key_ok at 1, day_key_hit at 1, bare_month. cbn [fst snd].
  intros [[Hy Hok]%andb_true_iff Hall]%andb_true_iff Hex.
  destruct (Re.search (re_month_year name) q); [done|].
  assert (forall g : string,
            (String.length (Py.str current_year) + 6
             <= String.length (Py.str current_year +:+ "-" +:+ Py.fmt_d 2 num
                               +:+ "-" +:+ Py.fmt_d 2 (Py.int g)))%nat) as Hlen.
  { intros g. rewrite !length_append. simpl.
    pose proof (length_zfill 2 (Py.str num)).
    pose proof (length_zfill 2 (Py.str (Py.int g))).
    unfold Py.fmt_d. lia. }
  destruct (Re.search (re_month_day name) q) as [m1|];
    destruct (Re.search (re_day_month name) q) as [m2|];
    try (eexists; split; [reflexivity|apply Hlen]).
  cbn [found orb] in Hok, Hex. apply negb_true_iff in Hok. rewrite Hok. by apply IH.
Qed.

Lemma any_in_relative_words q :
  Py.any_in relative_words q = false ->
  Py.contains "yesterday" q = false /\ Py.contains "today" q = false
  /\ Py.contains "last week" q = false /\ Py.contains "this week" q = false.
Proof.
  unfold Py.any_in, relative_words. cbn [existsb].
  rewrite !orb_false_iff. tauto.
Qed.

Lemma day_checks_sound now query :
  day_checks (Py.lower query) = true ->
  exists x, extract_date now query = Some x
            /\ (String.length (Py.str (Cal.year now)) + 6 <= String.length x)%nat.
Proof.
  unfold day_checks.
  intros [[Hrel%negb_true_iff Hall]%andb_true_iff Hex]%andb_true_iff.
  apply any_in_relative_words in Hrel as (H1 & H2 & H3 & H4).
  unfold extract_date. rewrite H1, H2, H3, H4.
  destruct (day_loop_sound (Cal.year now) _ _ Hall Hex) as (x & -> & Hlen). eauto.
Qed.

Lemma month_loop_sound current_year q ms :
  existsb (key_hit q) ms = true ->
  found (extract_date_months current_year q ms) = true.
Proof.
  induction ms as [|[name num] ms IH]; simpl; [done|].
  unfold key_hit at 1, day_key_hit, bare_month. cbn [fst snd].
  destruct (Re.search (re_month_year name) q); [done|].
  destruct (Re.search (re_month_day name) q); [done|].
  destruct (Re.search (re_day_month name) q); [done|].
  cbn [found orb]. destruct (Py.contains name q && _); [done|]. apply IH.
Qed.

Lemma month_checks_sound now query :
  month_checks (Py.lower query) = true -> found (extract_date now query) = true.
Proof.
  intros H. apply (month_loop_sound (Cal.year now)) in H. unfold extract_date.
  repeat (match goal with |- context [if ?b then _ else _] => destruct b end;
          [done|]).
  by destruct (extract_date_months _ _ _).
Qed.

Lemma forallb_ext_in {A} (f g : A -> bool) (l : list A) :
  (forall x, In x l -> f x = g x) -> forallb f l = forallb g l.
Proof.
  induction l as [|x l IH]; intros H; simpl; [done|].
  rewrite (H x) by (by left). rewrite IH; [done|]. intros y Hy. apply H. by right.
Qed.

Lemma existsb_ext_in {A} (f g : A -> bool) (l : list A) :
  (forall x, In x l -> f x = g x) -> existsb f l = existsb g l.
Proof.
  induction l as [|x l IH]; intros H; simpl; [done|].
  rewrite (H x) by (by left). rewrite IH; [done|]. intros y Hy. apply H. by right.
Qed.

Lemma month_keys_no_digit key :
  In key months -> str_forall no_digit key.1 = true.
Proof.
  assert (forallb (fun key : string * Z => str_forall no_digit key.1) months = true)
    as H by (vm_compute; reflexivity).
  rewrite forallb_forall in H. apply H.
Qed.

Lemma key_tests_sim q q' key :
  In key months -> sim q q' ->
  found (Re.search (re_month_year key.1) q) = found (Re.search (re_month_year key.1) q')
  /\ found (Re.search (re_month_day key.1) q) = found (Re.search (re_month_day key.1) q')
  /\ found (Re.search (re_day_month key.1) q) = found (Re.search (re_day_month key.1) q')
  /\ bare_month q key = bare_month q' key.
Proof.
  intros Hkey%month_keys_no_digit H.
  repeat split; try (apply search_sim; [simpl; by rewrite Hkey|done]).
  unfold bare_month. by rewrite (contains_sim _ _ _ Hkey H).
Qed.

Lemma day_checks_sim q q' : sim q q' -> day_checks q = day_checks q'.
Proof.
  intros H. unfold day_checks. f_equal; [f_equal|].
  - f_equal. unfold Py.any_in. apply existsb_ext_in.
    intros w Hw. apply contains_sim; [|done].
    unfold relative_words in Hw. simpl in Hw.
    destruct Hw as [<-|[<-|[<-|[<-|[]]]]]; reflexivity.
  - apply forallb_ext_in. intros key Hkey. unfold day_key_ok.
    destruct (key_tests_sim q q' key Hkey H) as (-> & -> & -> & ->). done.
  - apply existsb_ext_in. intros key Hkey. unfold day_key_hit.
    destruct (key_tests_sim q q' key Hkey H) as (_ & -> & -> & _). done.
Qed.

Lemma month_checks_sim q q' : sim q q' -> month_checks q = month_checks q'.
Proof.
  intros H. unfold month_checks. apply existsb_ext_in.
  intros key Hkey. unfold key_hit, day_key_hit.
  destruct (key_tests_sim q q' key Hkey H) as (-> & -> & -> & ->). done.
Qed.

(** The checks on the 84 and the 12 templates, by evaluation. *)
Lemma day_templates_checked w m :
  In w Cal.day_names -> In m Cal.month_names ->
  day_checks (Py.lower (day_template w m)) = true.
Proof.
  assert (forallb (fun w =>
            forallb (fun m => day_checks (Py.lower (day_template w m)))
              Cal.month_names) Cal.day_names = true) as H by (vm_compute; reflexivity).
  rewrite forallb_forall in H. intros Hw Hm.
  specialize (H w Hw). rewrite forallb_forall in H. by apply H.
Qed.

Lemma month_templates_checked m :
  In m Cal.month_names -> month_checks (Py.lower (month_template m)) = true.
Proof.
  assert (forallb (fun m => month_checks (Py.lower (month_template m)))
            Cal.month_names = true) as H by (vm_compute; reflexivity).
  rewrite forallb_forall in H. apply H.
Qed.

Lemma strptime_Ymd_valid s dt :
  Cal.strptime_Ymd s = Some dt -> Cal.valid dt = true.
Proof.
  unfold Cal.strptime_Ymd.
  destruct (Re.match_ Cal.re_Ymd s) as [[gs [|c rest]]|]; [|done..].
  destruct (Cal.valid _) eqn:Hv; [|done]. by intros [= <-].
Qed.

Lemma valid_fields dt :
  Cal.valid dt = true ->
  1 <= Cal.year dt <= 9999 /\ 1 <= Cal.month dt <= 12 /\ 1 <= Cal.day dt <= 31.
Proof.
  unfold Cal.valid, Cal.days_in_month. intros H.
  repeat (apply andb_true_iff in H as [H ?]).
  repeat case_match; lia.
Qed.

Lemma fmt_d_length (w : nat) (bound : Z) :
  forallb (fun k => (String.length (Py.fmt_d w (Z.of_nat k)) =? w)%nat)
    (seq 0 (Z.to_nat bound)) = true ->
  forall n, 0 <= n < bound -> String.length (Py.fmt_d w n) = w.
Proof.
  intros H n Hn. rewrite forallb_forall in H.
  specialize (H (Z.to_nat n)). rewrite Z2Nat.id in H by lia.
  apply Nat.eqb_eq, H, in_seq. lia.
Qed.

Lemma fmt_d_2_length n : 0 <= n < 100 -> String.length (Py.fmt_d 2 n) = 2%nat.
Proof. apply (fmt_d_length 2 100). vm_compute. reflexivity. Qed.

Lemma fmt_d_4_length n : 0 <= n < 10000 -> String.length (Py.fmt_d 4 n) = 4%nat.
Proof. apply (fmt_d_length 4 10000). vm_compute. reflexivity. Qed.

Lemma str_year_length n : 1000 <= n <= 9999 -> String.length (Py.str n) = 4%nat.
Proof.
  intros Hn.
  assert (forallb (fun k => (String.length (Py.str (Z.of_nat k + 1000)) =? 4)%nat)
            (seq 0 (Z.to_nat 9000)) = true) as H by (vm_compute; reflexivity).
  rewrite forallb_forall in H.
  specialize (H (Z.to_nat (n - 1000))). rewrite Z2Nat.id in H by lia.
  replace (n - 1000 + 1000) with n in H by lia.
  apply Nat.eqb_eq, H, in_seq. lia.
Qed.

Lemma day_name_in dt : In (Cal.day_name dt) Cal.day_names.
Proof.
  unfold Cal.day_name. apply nth_In.
  pose proof (Z.mod_pos_bound (Cal.ymd2ord dt + 6) 7).
  unfold Cal.weekday. simpl. lia.
Qed.

Lemma month_name_in dt : 1 <= Cal.month dt <= 12 -> In (Cal.month_name dt) Cal.month_names.
Proof. intros H. unfold Cal.month_name. apply nth_In. simpl. lia. Qed.

Lemma rendered_day_sim dt :
  Cal.valid dt = true ->
  sim (Py.lower (Cal.strftime_ABdY dt))
      (Py.lower (day_template (Cal.day_name dt) (Cal.month_name dt))).
Proof.
  intros (Hy & Hm & Hd)%valid_fields. apply sim_lower.
  unfold Cal.strftime_ABdY, day_template.
  change " 00 0000" with (" " +:+ "00" +:+ " " +:+ "0000").
  repeat (apply sim_append; [apply sim_refl|]).
  apply sim_append; [|apply sim_append; [apply sim_refl|]].
  - apply sim_digits; [by apply fmt_d_digits; lia|done|].
    apply fmt_d_2_length. lia.
  - apply sim_digits; [by apply fmt_d_digits; lia|done|].
    apply fmt_d_4_length. lia.
Qed.

Lemma rendered_month_sim dt :
  Cal.valid dt = true ->
  sim (Py.lower (Cal.strftime_BY dt)) (Py.lower (month_template (Cal.month_name dt))).
Proof.
  intros (Hy & Hm & Hd)%valid_fields. apply sim_lower.
  unfold Cal.strftime_BY, month_template.
  change " 0000" with (" " +:+ "0000").
  repeat (apply sim_append; [apply sim_refl|]).
  apply sim_digits; [by apply fmt_d_digits; lia|done|].
  apply fmt_d_4_length. lia.
Qed.

(** C8: when a date extracted from a question is rendered for the query
    expansion, the rendered text read back by [extract_date] gives a date of
    no coarser granularity: a day stays a day, a month stays at least a
    month. The clock shows a four-digit year. *)
Theorem date_round_trip_keeps_granularity
    (now : Cal.date) (question d r : string) :
  1000 <= Cal.year now <= 9999 ->
  extract_date now question = Some d ->
  render_date d = Some r ->
  (granularity (Some d) <= granularity (extract_date now r))%nat.
Proof.
  intros Hnow _ Hr. unfold render_date in Hr. unfold granularity at 1.
  destruct (String.length d =? 7)%nat.
  - destruct (Cal.strptime_Ymd _) as [dt|] eqn:Hdt; [|done].
    injection Hr as <-. apply strptime_Ymd_valid in Hdt.
    assert (found (extract_date now (Cal.strftime_BY dt)) = true) as Hf.
    { apply month_checks_sound.
      rewrite (month_checks_sim _ _ (rendered_month_sim dt Hdt)).
      apply month_templates_checked, month_name_in.
      by apply valid_fields in Hdt as (_ & ? & _). }
    destruct (extract_date now _) as [x|]; [|done].
    simpl. destruct (_ =? _)%nat; lia.
  - destruct (Cal.strptime_Ymd _) as [dt|] eqn:Hdt; [|done].
    injection Hr as <-. apply strptime_Ymd_valid in Hdt.
    destruct (day_checks_sound now (Cal.strftime_ABdY dt)) as (x & -> & Hlen).
    { rewrite (day_checks_sim _ _ (rendered_day_sim dt Hdt)).
      apply day_templates_checked; [apply day_name_in|].
      apply month_name_in. by apply valid_fields in Hdt as (_ & ? & _). }
    rewrite (str_year_length _ Hnow) in Hlen. simpl.
    destruct (Nat.eqb_spec (String.length x) 7); lia.
Qed.

Lemma date_round_trip_keeps_granularity_witness :
  extract_date (Cal.mkdate 2026 11 3) "what did I read on March 15" = Some "2026-03-15"
  /\ render_date "2026-03-15" = Some "Sunday March 15 2026"
  /\ (2 <= granularity (extract_date (Cal.mkdate 2026 11 3) "Sunday March 15 2026"))%nat.
Proof.
  split; [reflexivity|]. split; [reflexivity|].
  apply (date_round_trip_keeps_granularity (Cal.mkdate 2026 11 3)
           "what did I read on March 15" "2026-03-15" "Sunday March 15 2026");
    [simpl; lia|reflexivity|reflexivity].
Defined.

(** * Further properties *)

(** ** User identifiers *)

Lemma keep_chars_all p s : str_forall p (keep_chars p s) = true.
Proof.
  induction s as [|c s IH]; simpl; [done|].
  destruct (p c) eqn:Hc; simpl; [by rewrite Hc|done].
Qed.

Lemma keep_chars_id p s : str_forall p s = true -> keep_chars p s = s.
Proof.
  induction s as [|c s IH]; simpl; [done|].
  intros [-> Hs]%andb_true_iff. by rewrite IH.
Qed.

Lemma keep_chars_append p s t :
  keep_chars p (s +:+ t) = keep_chars p s +:+ keep_chars p t.
Proof.
  induction s as [|c s IH]; simpl; [done|].
  destruct (p c); simpl; by rewrite IH.
Qed.

Lemma get_user_id_cases request_user_id :
  (get_user_id request_user_id = "local_user")
  \/ (exists s, request_user_id = Some s
        /\ get_user_id request_user_id = keep_chars safe_id_char s
        /\ keep_chars safe_id_char s <> EmptyString).
Proof.
  unfold get_user_id. destruct request_user_id as [[|c s]|]; [by left| |by left].
  change (default EmptyString (Some (String c s))) with (String c s).
  cbn [Py.truthy].
  destruct (keep_chars safe_id_char (String c s)) as [|c' s'] eqn:Hk; [by left|].
  right. exists (String c s). by rewrite Hk.
Qed.

Lemma get_user_id_nonempty_safe (request_user_id : option string) :
  get_user_id request_user_id <> EmptyString
  /\ str_forall safe_id_char (get_user_id request_user_id) = true.
Proof.
  destruct (get_user_id_cases request_user_id) as [->|(s & _ & -> & Hne)];
    [done|]. split; [done|]. apply keep_chars_all.
Qed.

(** The user identifier is never empty and has only letters, digits, "_"
    and "-"; so have the names of the two collections made from it. *)
Theorem get_user_id_safe (request_user_id : option string) :
  get_user_id request_user_id <> EmptyString
  /\ str_forall safe_id_char (get_user_id request_user_id) = true
  /\ str_forall safe_id_char
       (history_collection_name (get_user_id request_user_id)) = true
  /\ str_forall safe_id_char
       (memory_collection_name (get_user_id request_user_id)) = true.
Proof.
  destruct (get_user_id_nonempty_safe request_user_id) as [Hne Hsafe].
  repeat split; [done..| |];
    unfold history_collection_name, memory_collection_name;
    by rewrite str_forall_append, Hsafe.
Qed.

(** A user identifier that the function returned is returned unchanged when
    it is passed in again. *)
Theorem get_user_id_idempotent (request_user_id : option string) :
  get_user_id (Some (get_user_id request_user_id)) = get_user_id request_user_id.
Proof.
  destruct (get_user_id_nonempty_safe request_user_id) as [Hne Hsafe].
  unfold get_user_id at 1.
  destruct (get_user_id request_user_id) as [|c s] eqn:Hid; [done|].
  change (default EmptyString (Some (String c s))) with (String c s).
  cbn [Py.truthy]. rewrite (keep_chars_id _ _ Hsafe). done.
Qed.

(** Characters outside the safe set do not count: two requested identifiers
    that differ by one such character name the same user. *)
Theorem get_user_id_ignores_unsafe (pre post : string) (c : ascii) :
  safe_id_char c = false ->
  get_user_id (Some (pre +:+ String c post)) = get_user_id (Some (pre +:+ post)).
Proof.
  intros Hc.
  assert (keep_chars safe_id_char (pre +:+ String c post)
          = keep_chars safe_id_char (pre +:+ post)) as Hk.
  { rewrite !keep_chars_append. simpl. by rewrite Hc. }
  unfold get_user_id.
  assert (forall s, (if Py.truthy (Some s)
                     then (let safe_id := keep_chars safe_id_char (default EmptyString (Some s)) in
                           if Py.truthy (Some safe_id) then safe_id else "local_user")
                     else "local_user")
                    = if Py.truthy (Some (keep_chars safe_id_char s))
                      then keep_chars safe_id_char s else "local_user") as Hform.
  { intros [|a s]; reflexivity. }
  by rewrite !Hform, Hk.
Qed.

Lemma get_user_id_ignores_unsafe_witness :
  get_user_id (Some "alice@example") = get_user_id (Some "aliceexample").
Proof.
  apply (get_user_id_ignores_unsafe "alice" "example" "@"). reflexivity.
Defined.

(** ** The retrieval filter as a filter followed by a truncation *)

Lemma structured_loop_pairs df dom docs_h i metas_h ds ms :
  structured_loop df dom docs_h i metas_h = Some (ds, ms) ->
  combine ds ms
  = List.filter (fun p => structured_match df dom p.2) (combine (drop i docs_h) metas_h).
Proof.
  revert i ds ms. induction metas_h as [|m metas_h IH]; intros i ds ms; simpl.
  - intros [= <- <-]. by destruct (drop i docs_h).
  - destruct (docs_h !! i) as [d|] eqn:Hd.
    + rewrite (drop_S _ _ _ Hd). simpl.
      destruct (structured_match df dom m); [|by apply IH].
      destruct (structured_loop df dom docs_h (S i) metas_h) as [[ds' ms']|] eqn:Hrec;
        [|done].
      intros [= <- <-]. simpl. f_equal. by apply IH.
    + rewrite (drop_ge docs_h i) by (by apply lookup_ge_None).
      destruct (structured_match df dom m); [done|].
      intros Hrec. apply IH in Hrec.
      rewrite (drop_ge docs_h (S i)) in Hrec
        by (apply lookup_ge_None in Hd; lia).
      done.
Qed.

Lemma structured_loop_metas df dom docs_h i metas_h ds ms :
  structured_loop df dom docs_h i metas_h = Some (ds, ms) ->
  ms = List.filter (structured_match df dom) metas_h.
Proof.
  revert i ds ms. induction metas_h as [|m metas_h IH]; intros i ds ms; simpl.
  - by intros [= <- <-].
  - destruct (structured_match df dom m); [|by apply IH].
    destruct (docs_h !! i); [|done].
    destruct (structured_loop df dom docs_h (S i) metas_h) as [[ds' ms']|] eqn:Hrec;
      [|done].
    intros [= <- <-]. f_equal. by eapply IH.
Qed.

(** The date and domain pass fails exactly when a candidate that passes the
    test has no document at its index. *)
Lemma structured_loop_error df dom docs_h i metas_h :
  structured_loop df dom docs_h i metas_h = None
  <-> exists j m, metas_h !! j = Some m
                  /\ structured_match df dom m = true
                  /\ (length docs_h <= i + j)%nat.
Proof.
  revert i. induction metas_h as [|m metas_h IH]; intros i; simpl.
  - split; [done|]. by intros (j & m & Hj & _).
  - destruct (structured_match df dom m) eqn:Hm.
    + destruct (docs_h !! i) as [d|] eqn:Hd.
      * apply lookup_lt_Some in Hd as Hlt.
        destruct (structured_loop df dom docs_h (S i) metas_h) as [[ds ms]|] eqn:Hrec.
        -- split; [done|]. intros (j & m' & Hj & Hm' & Hlen).
           destruct j as [|j]; [simpl in *; lia|].
           assert (structured_loop df dom docs_h (S i) metas_h = None) as Hn.
           { apply IH. exists j, m'. repeat split; [done..|lia]. }
           congruence.
        -- split; [|done]. intros _.
           apply IH in Hrec as (j & m' & Hj & Hm' & Hlen).
           exists (S j), m'. repeat split; [done..|lia].
      * split; [|done]. intros _. exists 0%nat, m.
        apply lookup_ge_None in Hd. repeat split; [done..|lia].
    + rewrite IH. split.
      * intros (j & m' & Hj & Hm' & Hlen). exists (S j), m'.
        repeat split; [done..|lia].
      * intros (j & m' & Hj & Hm' & Hlen). destruct j as [|j].
        -- simpl in Hj. injection Hj as <-. congruence.
        -- exists j, m'. repeat split; [done..|lia].
Qed.

Lemma exclusion_loop_pairs af im em ey docs_h i metas_h :
  (i + length metas_h <= length docs_h)%nat ->
  combine (exclusion_loop af im em ey docs_h i metas_h).1
          (exclusion_loop af im em ey docs_h i metas_h).2
  = List.filter (fun p => negb (should_exclude af im em ey p.2))
      (combine (drop i docs_h) metas_h).
Proof.
  revert i. induction metas_h as [|m metas_h IH]; intros i Hlen; simpl.
  - by destruct (drop i docs_h).
  - simpl in Hlen.
    destruct (lookup_lt_is_Some_2 docs_h i) as [d Hd]; [lia|].
    rewrite (drop_S _ _ _ Hd), Hd. simpl.
    destruct (should_exclude af im em ey m); simpl; rewrite <-IH by lia; done.
Qed.

Lemma filter_filter {A} (f g : A -> bool) (l : list A) :
  List.filter f (List.filter g l) = List.filter (fun x => g x && f x) l.
Proof.
  induction l as [|x l IH]; simpl; [done|].
  destruct (g x); simpl; [destruct (f x)|]; by rewrite IH.
Qed.

Lemma filter_all_true {A} (f : A -> bool) (l : list A) :
  (forall x, f x = true) -> List.filter f l = l.
Proof. intros H. induction l as [|x l IH]; simpl; [done|]. by rewrite H, IH. Qed.

Lemma slice_to_combine {A B} (k : Z) (l1 : list A) (l2 : list B) :
  length l1 = length l2 ->
  combine (Py.slice_to k l1) (Py.slice_to k l2) = Py.slice_to k (combine l1 l2).
Proof.
  intros Hlen. unfold Py.slice_to.
  destruct (0 <=? k); rewrite ?length_combine, <-?Hlen, ?Nat.min_id;
    symmetry; apply combine_firstn.
Qed.

Lemma structured_match_no_filter df dom m :
  Py.truthy df || Py.truthy dom = false -> structured_match df dom m = true.
Proof.
  unfold structured_match. by intros [-> ->]%orb_false_iff.
Qed.

(** The stage keeps, in the order of the vector query and each with its own
    document, the candidates that pass the date and domain test and are not
    excluded, and of these the ones that the slice [[:top_k]] takes. *)
Theorem retrieval_filter_filters_then_truncates
    (set_iter : list string -> list string)
    (message : string) (date_filter domain_filter : option string) (top_k : Z)
    (docs_h : list string) (metas_h : list (gmap string string)) (f : Filtered) :
  (length metas_h <= length docs_h)%nat ->
  retrieval_filter set_iter message date_filter domain_filter top_k docs_h metas_h
  = Some f ->
  combine (docs f) (metas f)
  = Py.slice_to top_k
      (List.filter
         (fun p => structured_match date_filter domain_filter p.2
                   && negb (should_exclude (artist_filter f) (is_music_query message)
                              (exclude_music message) (exclude_youtube message) p.2))
         (combine docs_h metas_h)).
Proof.
  intros Hlen. unfold retrieval_filter.
  destruct (structured_pass date_filter domain_filter docs_h metas_h)
    as [[ds ms]|] eqn:Hpass; [|done].
  intros [= <-]. cbn [docs metas artist_filter].
  rewrite slice_to_combine by apply exclusion_loop_length. f_equal.
  assert (combine ds ms
          = List.filter (fun p => structured_match date_filter domain_filter p.2)
              (combine docs_h metas_h) /\ (length ms <= length ds)%nat) as [Hpairs Hle].
  { unfold structured_pass in Hpass.
    destruct (Py.truthy date_filter || Py.truthy domain_filter) eqn:Hany.
    - split; [by apply (structured_loop_pairs _ _ _ 0)|].
      by rewrite (structured_loop_length _ _ _ _ _ _ _ Hpass).
    - injection Hpass as <- <-. split; [|done].
      rewrite filter_all_true; [done|].
      intros p. by apply structured_match_no_filter. }
  rewrite exclusion_loop_pairs by (simpl; lia).
  change (drop 0 ds) with ds. by rewrite Hpairs, filter_filter.
Qed.

Lemma retrieval_filter_filters_then_truncates_witness :
  let m1 : gmap string string :=
    list_to_map [("title", "Pull requests"); ("domain", "github.com");
                 ("visit_date", "2026-11-02")] in
  let m2 : gmap string string :=
    list_to_map [("title", "Cat videos"); ("domain", "youtube.com");
                 ("visit_date", "2026-11-02")] in
  combine ["one"] [m1]
  = Py.slice_to 20
      (List.filter
         (fun p => structured_match (Some "2026-11-02") (Some "github.com") p.2
                   && negb (should_exclude None
                              (is_music_query "github activity yesterday")
                              (exclude_music "github activity yesterday")
                              (exclude_youtube "github activity yesterday") p.2))
         (combine ["one"; "two"] [m1; m2])).
Proof.
  intros m1 m2.
  apply (retrieval_filter_filters_then_truncates (fun l => l)
           "github activity yesterday" (Some "2026-11-02") (Some "github.com") 20
           ["one"; "two"] [m1; m2]
           {| artist_filter := None; docs := ["one"]; metas := [m1] |}).
  - simpl. lia.
  - vm_compute. reflexivity.
Defined.

Lemma exclusion_loop_pairs_padded af im em ey docs_h i metas_h :
  combine (exclusion_loop af im em ey docs_h i metas_h).1
          (exclusion_loop af im em ey docs_h i metas_h).2
  = List.filter (fun p => negb (should_exclude af im em ey p.2))
      (combine (map (document_at docs_h) (seq i (length metas_h))) metas_h).
Proof.
  revert i. induction metas_h as [|m metas_h IH]; intros i; simpl; [done|].
  destruct (should_exclude af im em ey m); simpl; by rewrite <- IH.
Qed.

(** The stage fails (and the handler answers with HTTP 500) exactly when a
    date or domain filter is present and a candidate that passes it has no
    document at its index. Without such a filter the stage does not fail: a
    candidate without a document at its index is paired with the empty
    string, and the stage keeps the pairs that are not excluded, cut by the
    slice [[:top_k]]. *)
Theorem retrieval_filter_fails_on_missing_document
    (set_iter : list string -> list string)
    (message : string) (date_filter domain_filter : option string) (top_k : Z)
    (docs_h : list string) (metas_h : list (gmap string string)) :
  (retrieval_filter set_iter message date_filter domain_filter top_k docs_h metas_h
   = None
   <-> Py.truthy date_filter || Py.truthy domain_filter = true
       /\ exists j m, metas_h !! j = Some m
                      /\ structured_match date_filter domain_filter m = true
                      /\ (length docs_h <= j)%nat)
  /\ (Py.truthy date_filter || Py.truthy domain_filter = false ->
      exists f,
        retrieval_filter set_iter message date_filter domain_filter top_k
          docs_h metas_h = Some f
        /\ combine (docs f) (metas f)
           = Py.slice_to top_k
               (List.filter
                  (fun p => negb (should_exclude (artist_filter f)
                                    (is_music_query message) (exclude_music message)
                                    (exclude_youtube message) p.2))
                  (combine (map (document_at docs_h) (seq 0 (length metas_h)))
                     metas_h))).
Proof.
  unfold retrieval_filter, structured_pass. split.
  - destruct (Py.truthy date_filter || Py.truthy domain_filter).
    + pose proof (structured_loop_error date_filter domain_filter docs_h 0 metas_h)
        as Herr.
      destruct (structured_loop date_filter domain_filter docs_h 0 metas_h)
        as [[ds ms]|].
      * split; [done|]. intros [_ H]. by apply Herr in H.
      * split; [|done]. intros _. split; [done|]. by apply Herr.
    + split; [done|]. by intros [? _].
  - intros ->. eexists. split; [reflexivity|]. cbn [docs metas artist_filter].
    rewrite slice_to_combine by apply exclusion_loop_length.
    by rewrite exclusion_loop_pairs_padded.
Qed.

Lemma retrieval_filter_fails_on_missing_document_witness :
  exists f,
    retrieval_filter (fun l => l) "what did i read" None None 20 ["one"]
      [ {["title" := "First"]}; {["title" := "Second"]} ] = Some f
    /\ combine (docs f) (metas f)
       = [("one", {["title" := "First"]}); ("", {["title" := "Second"]})].
Proof.
  destruct (proj2 (retrieval_filter_fails_on_missing_document (fun l => l)
                     "what did i read" None None 20 ["one"]
                     [ {["title" := "First"]}; {["title" := "Second"]} ])
              eq_refl) as (f & Hf & Hpairs).
  exists f. split; [exact Hf|]. rewrite Hpairs.
  vm_compute in Hf. injection Hf as <-. reflexivity.
Defined.

Lemma in_firstn {A} (x : A) n l : In x (firstn n l) -> In x l.
Proof.
  revert n. induction l as [|y l IH]; intros [|n]; simpl; try done.
  intros [->|H]; [by left|right; by eapply IH].
Qed.

Lemma in_slice_to {A} (x : A) k l : In x (Py.slice_to k l) -> In x l.
Proof. unfold Py.slice_to. destruct (0 <=? k); apply in_firstn. Qed.

Lemma should_exclude_false af im em ey m :
  should_exclude af im em ey m = false ->
  (Py.truthy af && im = true ->
   Py.contains (Py.lower (default EmptyString af)) (Py.lower (meta_get m "title")) = true)
  /\ (ey = true ->
      Py.contains "youtube.com" (Py.lower (meta_get m "domain")) = false).
Proof.
  unfold should_exclude.
  generalize (Py.truthy af && im),
    (Py.contains (Py.lower (default EmptyString af)) (Py.lower (meta_get m "title"))),
    (Py.any_in music_indicators (Py.lower (meta_get m "title"))),
    (Py.mem (Py.lower (meta_get m "domain")) ["youtube.com"; "music.youtube.com"]),
    (Py.any_in music_terms (Py.lower (meta_get m "title"))),
    (Py.mem (Py.lower (meta_get m "content_category")) ["media"; "music streaming"]),
    (Py.contains "youtube.com" (Py.lower (meta_get m "domain"))).
  intros [] [] [] [] [] [] []; destruct em, ey; simpl; intros; split; congruence.
Qed.

(** Every candidate that the stage returns came from the vector query and
    passes the filters in force: its visit date has the date filter as a
    prefix (a 7-character month) or equals it (any other date), its domain
    equals the domain filter, its domain does not contain "youtube.com" when
    the question excludes YouTube, and its title contains the resolved
    artist. *)
Theorem retrieval_filter_survivors_pass
    (set_iter : list string -> list string)
    (message : string) (date_filter domain_filter : option string) (top_k : Z)
    (docs_h : list string) (metas_h : list (gmap string string))
    (f : Filtered) (meta : gmap string string) :
  retrieval_filter set_iter message date_filter domain_filter top_k docs_h metas_h
  = Some f ->
  In meta (metas f) ->
  In meta metas_h
  /\ (forall c d, date_filter = Some (String c d) ->
        if (String.length (String c d) =? 7)%nat
        then Py.startswith (String c d) (meta_get meta "visit_date") = true
        else meta_get meta "visit_date" = String c d)
  /\ (forall c d, domain_filter = Some (String c d) ->
        meta_get meta "domain" = String c d)
  /\ (exclude_youtube message = true ->
      Py.contains "youtube.com" (Py.lower (meta_get meta "domain")) = false)
  /\ (forall c a, artist_filter f = Some (String c a) ->
        Py.contains (Py.lower (String c a)) (Py.lower (meta_get meta "title")) = true).
Proof.
  unfold retrieval_filter.
  destruct (structured_pass date_filter domain_filter docs_h metas_h)
    as [[ds ms]|] eqn:Hpass; [|done].
  intros [= <-]. cbn [docs metas artist_filter].
  intros Hin%in_slice_to. rewrite exclusion_loop_metas in Hin.
  apply filter_In in Hin as [Hms Hkeep%negb_true_iff].
  assert (In meta metas_h /\ structured_match date_filter domain_filter meta = true)
    as [Hraw Hmatch].
  { unfold structured_pass in Hpass.
    destruct (Py.truthy date_filter || Py.truthy domain_filter) eqn:Hany.
    - apply structured_loop_metas in Hpass. subst ms. by apply filter_In in Hms.
    - injection Hpass as <- <-. split; [done|]. by apply structured_match_no_filter. }
  apply should_exclude_false in Hkeep as [Hartist Hyt].
  split; [done|]. unfold structured_match in Hmatch.
  apply andb_true_iff in Hmatch as [Hdate Hdom].
  repeat split.
  - intros c d ->. cbn [Py.truthy] in Hdate.
    change (default EmptyString (Some (String c d))) with (String c d) in Hdate.
    destruct (String.length (String c d) =? 7)%nat; [exact Hdate|].
    by apply String.eqb_eq in Hdate.
  - intros c d ->. cbn [Py.truthy] in Hdom.
    change (default EmptyString (Some (String c d))) with (String c d) in Hdom.
    by apply String.eqb_eq in Hdom.
  - done.
  - intros c a Ha. rewrite Ha in Hartist.
    change (default EmptyString (Some (String c a))) with (String c a) in Hartist.
    apply Hartist. destruct (is_music_query message); [done|discriminate Ha].
Qed.

Lemma retrieval_filter_survivors_pass_witness :
  let m1 : gmap string string :=
    list_to_map [("title", "Pull requests"); ("domain", "github.com");
                 ("visit_date", "2026-11-02")] in
  let m2 : gmap string string :=
    list_to_map [("title", "Cat videos"); ("domain", "youtube.com");
                 ("visit_date", "2026-11-02")] in
  meta_get m1 "domain" = "github.com".
Proof.
  intros m1 m2.
  apply (proj1 (proj2 (proj2 (retrieval_filter_survivors_pass (fun l => l)
           "github activity yesterday" (Some "2026-11-02") (Some "github.com") 20
           ["one"; "two"] [m1; m2]
           {| artist_filter := None; docs := ["one"]; metas := [m1] |} m1
           ltac:(vm_compute; reflexivity) ltac:(left; reflexivity))))
         "g"%char "ithub.com").
  reflexivity.
Defined.

Lemma exclusion_loop_keeps_all af im em ey docs_h i metas_h :
  (forall m, In m metas_h -> should_exclude af im em ey m = false) ->
  length docs_h = (i + length metas_h)%nat ->
  exclusion_loop af im em ey docs_h i metas_h = (drop i docs_h, metas_h).
Proof.
  revert i. induction metas_h as [|m metas_h IH]; intros i Hall Hlen; simpl.
  - rewrite drop_ge by (simpl in Hlen; lia). done.
  - simpl in Hlen. rewrite (Hall m) by (by left).
    destruct (lookup_lt_is_Some_2 docs_h i) as [d Hd]; [lia|].
    rewrite IH; [|intros m' Hm'; apply Hall; by right|lia].
    simpl. by rewrite Hd, (drop_S _ _ _ Hd).
Qed.

(** A question without date, domain, music intent and exclusions leaves the
    candidates as the vector query ranked them: the stage only takes the
    slice [[:top_k]]. *)
Theorem retrieval_filter_without_filters
    (set_iter : list string -> list string) (message : string) (top_k : Z)
    (docs_h : list string) (metas_h : list (gmap string string)) :
  is_music_query message = false ->
  exclude_music message = false ->
  exclude_youtube message = false ->
  length docs_h = length metas_h ->
  retrieval_filter set_iter message None None top_k docs_h metas_h
  = Some {| artist_filter := None;
            docs := Py.slice_to top_k docs_h;
            metas := Py.slice_to top_k metas_h |}.
Proof.
  intros Hm He Hy Hlen. unfold retrieval_filter, structured_pass.
  cbn [Py.truthy orb]. rewrite Hm, He, Hy.
  rewrite exclusion_loop_keeps_all; [done| |done].
  intros m _. reflexivity.
Qed.

Lemma retrieval_filter_without_filters_witness :
  retrieval_filter (fun l => l) "what did i read" None None 1 ["one"; "two"] [∅; ∅]
  = Some {| artist_filter := None; docs := ["one"]; metas := [∅] |}.
Proof.
  apply (retrieval_filter_without_filters (fun l => l) "what did i read" 1
           ["one"; "two"] [∅; ∅]); reflexivity.
Defined.

(** ** Soundness of the artist resolver *)

Lemma best_artist_result q_lower query_tokens artists best_match best_score a :
  best_artist q_lower query_tokens artists best_match best_score = Some a ->
  (In a artists
   /\ (in_question q_lower a = true \/ best_score < score_of query_tokens a))
  \/ (best_match = Some a /\ 1 <= best_score).
Proof.
  revert best_match best_score.
  induction artists as [|artist rest IH]; intros bm bs; simpl.
  - destruct (Z.leb_spec 1 bs); [|done]. intros ->. by right.
  - fold (in_question q_lower artist) (score_of query_tokens artist).
    destruct (in_question q_lower artist) eqn:Hq.
    { intros [= <-]. left. split; [by left|by left]. }
    destruct (Z.ltb_spec bs (score_of query_tokens artist)) as [Hlt|Hge];
      intros [[Hin Hwhy]|[Hbm Hbs]]%IH.
    + left. split; [by right|]. destruct Hwhy; [by left|right; lia].
    + injection Hbm as <-. left. split; [by left|by right].
    + left. split; [by right|done].
    + by right.
Qed.

Lemma inner_score_unrelated query_token artist_tokens score :
  existsb (tokens_related query_token) artist_tokens = false ->
  fold_left
    (fun score artist_token =>
       if String.eqb query_token artist_token then score + 2
       else if Py.contains query_token artist_token
               || Py.contains artist_token query_token then score + 1
       else score)
    artist_tokens score = score.
Proof.
  revert score. induction artist_tokens as [|t ts IH]; intros score; simpl; [done|].
  unfold tokens_related at 1.
  intros [[[He Hc1]%orb_false_iff Hc2]%orb_false_iff Hrest]%orb_false_iff.
  rewrite He, Hc1, Hc2. simpl. by apply IH.
Qed.

Lemma artist_score_unrelated query_tokens artist_tokens :
  existsb (fun qt => existsb (tokens_related qt) artist_tokens) query_tokens = false ->
  artist_score query_tokens artist_tokens = 0.
Proof.
  unfold artist_score. generalize 0.
  induction query_tokens as [|qt qts IH]; intros score; simpl; [done|].
  intros [Hqt Hrest]%orb_false_iff.
  rewrite (inner_score_unrelated _ _ _ Hqt). by apply IH.
Qed.

(** What the resolver returns is one of the candidates taken from the
    titles, and there is a reason for it: its lower-cased name occurs in the
    lower-cased question, or a word of the question that is not a stop word
    and has more than two characters and a word of the name are equal or
    contain one another. *)
Theorem extract_artist_from_query_sound
    (set_iter : list string -> list string) (query : string)
    (available_titles : list string) (artist : string) :
  (forall l, Permutation (set_iter l) l) ->
  extract_artist_from_query set_iter query available_titles = Some artist ->
  In artist (collect_artists available_titles)
  /\ (Py.contains (Py.lower artist) (Py.lower query) = true
      \/ exists query_token artist_token,
           In query_token (query_tokens_of (Py.lower query))
           /\ In artist_token (Py.split (Py.lower artist))
           /\ tokens_related query_token artist_token = true).
Proof.
  intros Hperm. unfold extract_artist_from_query.
  destruct (query_tokens_of (Py.lower query)) as [|tok toks] eqn:Htoks; [done|].
  intros [[Hin Hwhy]|[? _]]%best_artist_result; [|done].
  split; [by apply (Permutation_in _ (Hperm _))|].
  destruct Hwhy as [Hq|Hscore]; [by left|right].
  destruct (existsb (fun qt => existsb (tokens_related qt) (Py.split (Py.lower artist)))
              (tok :: toks)) eqn:Hex.
  - apply existsb_exists in Hex as (qt & Hqt & Hex).
    apply existsb_exists in Hex as (at_ & Hat & Hrel). eauto.
  - apply artist_score_unrelated in Hex. unfold score_of in Hscore. lia.
Qed.

Lemma extract_artist_from_query_sound_witness :
  In "Taylor Momsen" (collect_artists ["Taylor Momsen - Heaven"; "Taylor Dayne - Tell It"]).
Proof.
  apply (extract_artist_from_query_sound (fun l => l) "taylor songs"
           ["Taylor Momsen - Heaven"; "Taylor Dayne - Tell It"] "Taylor Momsen").
  - intros l. reflexivity.
  - vm_compute. reflexivity.
Defined.

Lemma mem_In s l : Py.mem s l = true <-> In s l.
Proof.
  unfold Py.mem. rewrite existsb_exists. split.
  - intros (x & Hx & ->%String.eqb_eq). done.
  - intros H. exists s. split; [done|apply String.eqb_refl].
Qed.

Lemma set_add_In x y l : In x (set_add y l) <-> x = y \/ In x l.
Proof.
  unfold set_add. destruct (Py.mem y l) eqn:Hm.
  - apply mem_In in Hm. split; [by right|]. by intros [->|].
  - rewrite in_app_iff. simpl. split; [intros [|[|[]]]|intros [|]]; auto.
Qed.

Lemma fold_left_set_add_mono {A} (g : A -> string) (xs : list A) acc x :
  In x acc -> In x (fold_left (fun acc a => set_add (g a) acc) xs acc).
Proof.
  revert acc. induction xs as [|a xs IH]; intros acc H; simpl; [done|].
  apply IH, set_add_In. by right.
Qed.

Lemma add_title_artists_mono acc title x :
  In x acc -> In x (add_title_artists acc title).
Proof.
  intros H. unfold add_title_artists.
  assert (In x (if Py.contains " - " title
                then set_add (strip_numeric_prefix (Py.strip (Py.before_first " - " title))) acc
                else acc)) as H'.
  { destruct (Py.contains " - " title); [apply set_add_In; by right|done]. }
  revert H'. generalize (if Py.contains " - " title
                then set_add (strip_numeric_prefix (Py.strip (Py.before_first " - " title))) acc
                else acc).
  induction feat_patterns as [|pat pats IH]; intros acc' H'; simpl; [done|].
  apply IH. by apply (fold_left_set_add_mono (fun gs => strip_numeric_prefix (Py.strip (Re.group 1 gs)))).
Qed.

Lemma collect_artists_mono titles acc x :
  In x acc -> In x (fold_left add_title_artists titles acc).
Proof.
  revert acc. induction titles as [|t ts IH]; intros acc H; simpl; [done|].
  by apply IH, add_title_artists_mono.
Qed.

(** No main artist is lost: every title that contains " - " has the text
    before it, trimmed and without a leading "(digits)", among the
    candidates. *)
Theorem collect_artists_has_main_artists (titles : list string) (title : string) :
  In title titles ->
  Py.contains " - " title = true ->
  In (main_artist_of title) (collect_artists titles).
Proof.
  unfold collect_artists. generalize (@nil string).
  induction titles as [|t ts IH]; intros acc Hin Hsep; [done|].
  simpl. destruct Hin as [->|Hin]; [|by apply IH].
  apply collect_artists_mono. unfold add_title_artists. rewrite Hsep.
  generalize feat_patterns. intros pats.
  assert (In (main_artist_of title)
            (set_add (strip_numeric_prefix (Py.strip (Py.before_first " - " title))) acc))
    as H by (apply set_add_In; by left).
  revert H. generalize (set_add (strip_numeric_prefix (Py.strip (Py.before_first " - " title))) acc).
  induction pats as [|pat pats IHp]; intros acc' H; simpl; [done|].
  apply IHp. by apply (fold_left_set_add_mono (fun gs => strip_numeric_prefix (Py.strip (Re.group 1 gs)))).
Qed.

Lemma collect_artists_has_main_artists_witness :
  In "Rick Astley" (collect_artists ["(3) Rick Astley - Never Gonna Give You Up"]).
Proof.
  apply (collect_artists_has_main_artists
           ["(3) Rick Astley - Never Gonna Give You Up"]
           "(3) Rick Astley - Never Gonna Give You Up").
  - left. reflexivity.
  - reflexivity.
Defined.

(** ** What the capture groups of the date patterns hold *)

Lemma length_drop n s : String.length (Py.drop n s) = (String.length s - n)%nat.
Proof.
  revert s. induction n as [|n IH]; intros [|c s]; simpl; try done; lia.
Qed.

Lemma length_take n s :
  (n <= String.length s)%nat -> String.length (Py.take n s) = n.
Proof.
  revert s. induction n as [|n IH]; intros [|c s]; simpl; try done; [lia|].
  intros H. rewrite IH; lia.
Qed.

Lemma run_le_length k hi s : (Re.run k hi s <= String.length s)%nat.
Proof.
  revert hi. induction s as [|c s IH]; intros [[|h]|]; simpl; try lia;
    (destruct (Re.in_cls k c); [|lia]);
    match goal with |- context [Re.run k ?x s] => specialize (IH x) end; lia.
Qed.

Lemma run_le_cap k h s : (Re.run k (Some h) s <= h)%nat.
Proof.
  revert h. induction s as [|c s IH]; intros [|h]; simpl; try lia.
  destruct (Re.in_cls k c); [|lia]. specialize (IH h). lia.
Qed.

Lemma run_take k hi s n :
  (n <= Re.run k hi s)%nat -> str_forall (Re.in_cls k) (Py.take n s) = true.
Proof.
  revert hi n. induction s as [|c s IH]; intros hi [|n]; try done.
  simpl Py.take. cbn [str_forall].
  destruct hi as [[|h]|]; simpl; try lia;
    (destruct (Re.in_cls k c); [|lia]); intros Hn; simpl;
    match goal with H : (S n <= S (Re.run k ?x s))%nat |- _ => apply (IH x n) end; lia.
Qed.

Lemma give_back_inv lo n s m :
  In m (Re.give_back lo n s) ->
  exists j, (lo <= j <= n)%nat /\ m = ([], Py.drop j s).
Proof.
  induction n as [|n IH]; simpl.
  - destruct (Nat.ltb_spec 0 lo); [done|]. intros [<-|[]]. exists 0%nat. split; [lia|done].
  - destruct (Nat.ltb_spec (S n) lo); [done|]. intros [<-|Hin].
    + exists (S n). split; [lia|done].
    + destruct (IH Hin) as (j & Hj & ->). exists j. split; [lia|done].
Qed.

(** A group around [\d{lo,hi}] holds between [lo] and [hi] digits. *)
Lemma matches_digit_group lo hi s m :
  In m (Re.matches (Re.Grp (Re.d_ lo hi)) s) ->
  exists g, m.1 = [g] /\ digits g /\ (lo <= String.length g <= hi)%nat.
Proof.
  simpl. intros (m' & <- & Hm')%in_map_iff.
  apply give_back_inv in Hm' as (j & Hj & ->). simpl.
  pose proof (run_le_length Re.Digit (Some hi) s) as H1.
  pose proof (run_le_cap Re.Digit hi s) as H2.
  rewrite length_drop.
  replace (String.length s - (String.length s - j))%nat with j by lia.
  eexists. split; [done|]. split; [apply (run_take Re.Digit (Some hi)); lia|].
  rewrite length_take; lia.
Qed.

Lemma matches_cat_inv r1 r2 s m :
  In m (Re.matches (Re.Cat r1 r2) s) ->
  exists m1 m2, In m1 (Re.matches r1 s) /\ In m2 (Re.matches r2 m1.2)
                /\ m.1 = (m1.1 ++ m2.1)%list.
Proof.
  simpl. intros (m1 & H1 & (m2 & <- & H2)%in_map_iff)%in_flat_map. eauto.
Qed.

Lemma matches_lit_groups l s m : In m (Re.matches (Re.Lit l) s) -> m.1 = [].
Proof. simpl. destruct (Py.startswith l s); [|done]. by intros [<-|[]]. Qed.

Lemma matches_rep_groups k lo hi s m : In m (Re.matches (Re.Rep k lo hi) s) -> m.1 = [].
Proof. simpl. by intros (j & _ & ->)%give_back_inv. Qed.

Lemma search_inv r s m : Re.search r s = Some m -> exists s', In m (Re.matches r s').
Proof.
  induction s as [|c s IH]; simpl; unfold Re.match_;
    destruct (Re.matches r _) as [|m0 ms] eqn:Hm; simpl; try done.
  - intros [= <-]. exists EmptyString. rewrite Hm. by left.
  - intros [= <-]. exists (String c s). rewrite Hm. by left.
Qed.

Ltac split_groups H :=
  repeat match type of H with
    | In _ (Re.matches (Re.cat _) _) => unfold Re.cat in H; simpl foldr in H
    | In ?m (Re.matches (Re.Cat _ _) _) =>
        let m1 := fresh "m" in let H1 := fresh "Hm" in let E := fresh "Hg" in
        apply matches_cat_inv in H as (m1 & ?m2 & H1 & H & E);
        first [ apply matches_lit_groups in H1
              | apply matches_rep_groups in H1
              | apply matches_digit_group in H1 as (? & H1 & ? & ?) ];
        rewrite H1 in E; clear H1
    end.

Ltac close_groups H :=
  apply matches_lit_groups in H;
  repeat match goal with E : _.1 = (_ ++ _)%list |- _ => rewrite E; clear E end;
  rewrite H; cbn [app Re.group nth pred].

Lemma month_year_group name q m :
  Re.search (re_month_year name) q = Some m ->
  digits (Re.group 1 m.1) /\ String.length (Re.group 1 m.1) = 4%nat.
Proof.
  intros (s' & H)%search_inv. unfold re_month_year in H.
  split_groups H. close_groups H. split; [done|lia].
Qed.

Lemma month_day_group name q m :
  Re.search (re_month_day name) q = Some m ->
  digits (Re.group 1 m.1) /\ (1 <= String.length (Re.group 1 m.1) <= 2)%nat.
Proof.
  intros (s' & H)%search_inv. unfold re_month_day in H.
  split_groups H. close_groups H. split; [done|lia].
Qed.

Lemma day_month_group name q m :
  Re.search (re_day_month name) q = Some m ->
  digits (Re.group 1 m.1) /\ (1 <= String.length (Re.group 1 m.1) <= 2)%nat.
Proof.
  intros (s' & H)%search_inv. unfold re_day_month in H.
  split_groups H. close_groups H. split; [done|lia].
Qed.

Lemma iso_groups q m :
  Re.search re_iso q = Some m ->
  (digits (Re.group 1 m.1) /\ String.length (Re.group 1 m.1) = 4%nat)
  /\ (digits (Re.group 2 m.1) /\ (1 <= String.length (Re.group 2 m.1) <= 2)%nat)
  /\ (digits (Re.group 3 m.1) /\ (1 <= String.length (Re.group 3 m.1) <= 2)%nat).
Proof.
  intros (s' & H)%search_inv. unfold re_iso in H.
  split_groups H. close_groups H. repeat split; try done; lia.
Qed.

Lemma us_groups q m :
  Re.search re_us q = Some m ->
  (digits (Re.group 1 m.1) /\ (1 <= String.length (Re.group 1 m.1) <= 2)%nat)
  /\ (digits (Re.group 2 m.1) /\ (1 <= String.length (Re.group 2 m.1) <= 2)%nat)
  /\ (digits (Re.group 3 m.1) /\ String.length (Re.group 3 m.1) = 4%nat).
Proof.
  intros (s' & H)%search_inv. unfold re_us in H.
  split_groups H. close_groups H. repeat split; try done; lia.
Qed.

(** ** Calendar bounds *)

Lemma ord2ymd_year_range n :
  1 <= n <= 3652059 -> 1 <= Cal.year (Cal.ord2ymd n) <= 9999.
Proof.
  intros Hn. unfold Cal.ord2ymd. cbv zeta.
  destruct (_ || _) eqn:Hsp; cbn [Cal.year].
  - apply orb_true_iff in Hsp. rewrite !Z.eqb_eq in Hsp.
    Z.div_mod_to_equations. lia.
  - Z.div_mod_to_equations. lia.
Qed.

Lemma ymd2ord_range d :
  Cal.valid d = true ->
  365 * (Cal.year d - 1) + 1 <= Cal.ymd2ord d <= 3652060.
Proof.
  intros Hv. pose proof (valid_fields d Hv) as (Hy & Hm & Hd).
  unfold Cal.valid in Hv. apply andb_true_iff in Hv as [_ Hdim%Z.leb_le].
  destruct d as [y m dd]. cbn [Cal.year Cal.month Cal.day] in *.
  assert (0 <= Cal.days_before_month y m /\ Cal.days_before_month y m + dd <= 366)
    as [Hb1 Hb2].
  { assert (m = 1 \/ m = 2 \/ m = 3 \/ m = 4 \/ m = 5 \/ m = 6 \/ m = 7 \/ m = 8
            \/ m = 9 \/ m = 10 \/ m = 11 \/ m = 12) as Hcases by lia.
    unfold Cal.days_before_month, Cal.days_in_month in *.
    repeat (destruct Hcases as [->|Hcases];
            [set (t := Cal.days_before_month_common _); vm_compute in t; subst t;
             destruct (Cal.is_leap y); cbn in Hdim |- *; lia|]).
    subst. set (t := Cal.days_before_month_common _). vm_compute in t. subst t.
    destruct (Cal.is_leap y); cbn in Hdim |- *; lia. }
  unfold Cal.ymd2ord, Cal.days_before_year. cbn [Cal.year Cal.month Cal.day].
  Z.div_mod_to_equations. lia.
Qed.

(** ** The shape of an extracted date *)

Lemma digit_val_range c : Py.isdigit c = true -> 0 <= Py.digit_val c <= 9.
Proof. destruct c as [[] [] [] [] [] [] [] []]; vm_compute; intuition congruence. Qed.

Lemma int_short g :
  digits g -> (String.length g <= 4)%nat -> 0 <= Py.int g < 10 ^ Z.of_nat (String.length g).
Proof.
  unfold digits, Py.int.
  destruct g as [|a [|b [|c [|d [|e g]]]]]; simpl; intros H Hlen; try lia;
    repeat (apply andb_true_iff in H as [?%digit_val_range H]); lia.
Qed.

Lemma str_length n : 0 <= n <= 9999 -> (1 <= String.length (Py.str n) <= 4)%nat.
Proof.
  intros Hn.
  assert (forallb (fun k => let l := String.length (Py.str (Z.of_nat k)) in
                            (1 <=? l)%nat && (l <=? 4)%nat)
            (seq 0 (Z.to_nat 10000)) = true) as H by (vm_compute; reflexivity).
  rewrite forallb_forall in H.
  specialize (H (Z.to_nat n)). rewrite Z2Nat.id in H by lia.
  assert (In (Z.to_nat n) (seq 0 (Z.to_nat 10000))) as Hin by (apply in_seq; lia).
  apply H, andb_true_iff in Hin as [?%Nat.leb_le ?%Nat.leb_le]. lia.
Qed.

Lemma fmt_d_two_digits n : 0 <= n < 100 -> two_digits (Py.fmt_d 2 n).
Proof.
  intros Hn. split; [apply fmt_d_digits; lia|by apply fmt_d_2_length].
Qed.

Lemma zfill_two_digits g :
  digits g -> (1 <= String.length g <= 2)%nat -> two_digits (Py.zfill 2 g).
Proof.
  intros Hg Hlen. unfold Py.zfill. split.
  - unfold digits. by rewrite (proj1 (zeros_digits _ g)).
  - rewrite length_append, length_zeros. lia.
Qed.

Lemma int_two_digits g :
  digits g -> (1 <= String.length g <= 2)%nat -> two_digits (Py.fmt_d 2 (Py.int g)).
Proof.
  intros Hg Hlen. apply fmt_d_two_digits.
  pose proof (int_short g Hg ltac:(lia)) as Hi.
  assert (10 ^ Z.of_nat (String.length g) <= 100); [|lia].
  assert (String.length g = 1 \/ String.length g = 2)%nat as [->| ->] by lia; simpl; lia.
Qed.

Lemma strftime_Ymd_day_shaped d :
  0 <= Cal.year d <= 9999 -> 1 <= Cal.month d <= 12 -> 1 <= Cal.day d <= 31 ->
  day_shaped (Cal.strftime_Ymd d).
Proof.
  intros Hy Hm Hd. exists (Py.fmt_d 4 (Cal.year d)), (Py.fmt_d 2 (Cal.month d)),
    (Py.fmt_d 2 (Cal.day d)).
  split; [apply fmt_d_digits; lia|]. split; [apply fmt_d_4_length; lia|].
  repeat split; try (apply fmt_d_digits; lia); apply fmt_d_2_length; lia.
Qed.

Lemma month_numbers key : In key months -> 0 <= key.2 < 100.
Proof.
  assert (forallb (fun key : string * Z => (0 <=? key.2) && (key.2 <? 100)) months = true)
    as H by (vm_compute; reflexivity).
  rewrite forallb_forall in H. intros Hin. apply H in Hin. lia.
Qed.

Lemma extract_date_months_shaped current_year q ms d :
  1000 <= current_year <= 9999 ->
  (forall key, In key ms -> 0 <= key.2 < 100) ->
  extract_date_months current_year q ms = Some d ->
  month_shaped d \/ day_shaped d.
Proof.
  intros Hcy. induction ms as [|[name num] ms IH]; intros Hnum; simpl; [done|].
  pose proof (Hnum (name, num) (or_introl eq_refl)) as Hn. cbn [snd] in Hn.
  assert (digits (Py.str current_year) /\ String.length (Py.str current_year) = 4%nat)
    as [Hcd Hcl].
  { split; [apply str_digits; lia|apply str_year_length; lia]. }
  destruct (Re.search (re_month_year name) q) as [my|] eqn:Hmy.
  { intros [= <-]. left. apply month_year_group in Hmy as [Hg Hl].
    pose proof (int_short _ Hg ltac:(lia)) as Hi. rewrite Hl in Hi.
    exists (Py.str (Py.int (Re.group 1 my.1))), (Py.fmt_d 2 num).
    split; [apply str_digits; lia|]. split; [apply str_length; lia|].
    split; [by apply fmt_d_two_digits|done]. }
  destruct (Re.search (re_month_day name) q) as [m1|] eqn:Hm1;
    destruct (Re.search (re_day_month name) q) as [m2|] eqn:Hm2;
    try (intros [= <-]; right;
         first [apply month_day_group in Hm1 as [Hg Hl]
               |apply day_month_group in Hm2 as [Hg Hl]];
         eexists _, _, _; repeat split;
         [exact Hcd|exact Hcl|apply fmt_d_digits; lia|apply fmt_d_2_length; lia
         |apply (int_two_digits _ Hg Hl)|apply (int_two_digits _ Hg Hl)]).
  destruct (Py.contains name q && _).
  - intros [= <-]. left. exists (Py.str current_year), (Py.fmt_d 2 num).
    split; [done|]. split; [lia|]. split; [by apply fmt_d_two_digits|done].
  - apply IH. intros key Hkey. apply Hnum. by right.
Qed.

(** With the clock at a valid date in a four-digit year, every date that
    [extract_date] returns is a year, "-", and a two-digit month, followed
    or not by "-" and a two-digit day. With a day the year has four digits;
    without, it has one to four (it is the number after the month name,
    printed without padding). *)
Theorem extract_date_shaped (now : Cal.date) (query d : string) :
  Cal.valid now = true ->
  1000 <= Cal.year now ->
  extract_date now query = Some d ->
  month_shaped d \/ day_shaped d.
Proof.
  intros Hv Hy. pose proof (valid_fields now Hv) as (Hy' & Hm & Hd).
  pose proof (ymd2ord_range now Hv) as Hord.
  assert (forall k, 1 <= k <= 7 -> day_shaped (Cal.strftime_Ymd (Cal.minus_days now k)))
    as Hrel.
  { intros k Hk. unfold Cal.minus_days.
    pose proof (ord2ymd_year_range (Cal.ymd2ord now - k) ltac:(lia)).
    pose proof (ord2ymd_month_day (Cal.ymd2ord now - k)) as [? ?].
    apply strftime_Ymd_day_shaped; lia. }
  assert (day_shaped (Cal.strftime_Ymd now)) as Hnow
    by (apply strftime_Ymd_day_shaped; lia).
  unfold extract_date.
  repeat (match goal with |- context [if ?b then _ else _] => destruct b end;
          [intros [= <-]; right; first [exact Hnow|apply Hrel; lia]|]).
  destruct (extract_date_months _ _ _) as [r|] eqn:Hloop.
  { intros [= <-]. eapply extract_date_months_shaped; [|apply month_numbers|done]. lia. }
  destruct (Re.search re_iso _) as [m|] eqn:Hiso.
  { intros [= <-]. right. apply iso_groups in Hiso as ([? ?] & [? ?] & [? ?]).
    exists (Re.group 1 m.1), (Py.zfill 2 (Re.group 2 m.1)), (Py.zfill 2 (Re.group 3 m.1)).
    split; [done|]. split; [done|].
    split; [by apply zfill_two_digits|]. split; [by apply zfill_two_digits|done]. }
  destruct (Re.search re_us _) as [m|] eqn:Hus; [|done].
  intros [= <-]. right. apply us_groups in Hus as ([? ?] & [? ?] & [? ?]).
  exists (Re.group 3 m.1), (Py.zfill 2 (Re.group 1 m.1)), (Py.zfill 2 (Re.group 2 m.1)).
  split; [done|]. split; [done|].
  split; [by apply zfill_two_digits|]. split; [by apply zfill_two_digits|done].
Qed.

Lemma extract_date_shaped_witness :
  month_shaped "123-03" \/ day_shaped "123-03".
Proof.
  apply (extract_date_shaped (Cal.mkdate 2026 11 3) "march 0123" "123-03");
    [reflexivity|simpl; lia|reflexivity].
Defined.


(** ** Substrings *)

Lemma startswith_iff p s : Py.startswith p s = true <-> exists t, s = p +:+ t.
Proof.
  revert s. induction p as [|a p IH]; intros s; simpl.
  - split; [by exists s|done].
  - destruct s as [|b s]; [split; [done|by intros [t Ht]]|].
    destruct (Ascii.eqb_spec a b) as [->|Hne].
    + rewrite IH. split; intros [t Ht]; exists t; [by rewrite Ht|by injection Ht].
    + split; [done|]. intros [t Ht]. by injection Ht.
Qed.

Lemma contains_iff n h : Py.contains n h = true <-> exists p t, h = p +:+ n +:+ t.
Proof.
  induction h as [|c h IH]; simpl.
  - rewrite orb_false_r, startswith_iff. split.
    + intros [t Ht]. by exists EmptyString, t.
    + intros (p & t & Ht). destruct p; [by exists t|done].
  - rewrite orb_true_iff, startswith_iff, IH. split.
    + intros [[t Ht]|(p & t & Ht)]; [by exists EmptyString, t|].
      exists (String c p), t. by rewrite Ht.
    + intros (p & t & Ht). destruct p as [|a p]; [left; by exists t|].
      right. exists p, t. by injection Ht.
Qed.

Lemma contains_trans a b c :
  Py.contains a b = true -> Py.contains b c = true -> Py.contains a c = true.
Proof.
  rewrite !contains_iff. intros (p1 & t1 & ->) (p2 & t2 & ->).
  exists (p2 +:+ p1), (t1 +:+ t2). by rewrite !append_assoc.
Qed.

(** ** Query expansion *)

Lemma prefix_hint (m e x : string) (b : bool) :
  (exists t, e = m +:+ t) -> exists t, (if b then e +:+ x else e) = m +:+ t.
Proof.
  intros [t ->]. destruct b; [|by exists t].
  exists (t +:+ x). by rewrite append_assoc.
Qed.

(** The expanded query begins with the question as it was asked: the hints
    are only appended. *)
Theorem enhanced_query_keeps_question (now : Cal.date) (message : string) :
  Py.startswith message (enhanced_query now message) = true.
Proof.
  apply startswith_iff. unfold enhanced_query.
  set (dated := if Py.truthy (extract_date now message) then _ else _).
  assert (exists t, dated = message +:+ t) as Hdated.
  { subst dated. destruct (Py.truthy _); [destruct (render_date _)|].
    - eexists. reflexivity.
    - exists EmptyString. by rewrite append_nil_r.
    - exists EmptyString. by rewrite append_nil_r. }
  clearbody dated. cbv zeta.
  destruct (is_music_query message); [|by apply prefix_hint].
  do 7 apply prefix_hint.
  apply (prefix_hint _ _ " music audio video song" true Hdated).
Qed.

(** In a music question, a word that brings the hint for female singers
    through "woman", "female" or "she" brings the hint for male singers as
    well, since "man", "male" and "he" are parts of these words. *)
Theorem female_hint_brings_male_hint (now : Cal.date) (message : string) :
  is_music_query message = true ->
  Py.any_in ["woman"; "female"; "she"] (Py.lower message) = true ->
  exists before after,
    enhanced_query now message
    = before +:+ " female woman girl" +:+ " male man boy" +:+ after.
Proof.
  intros Hmusic Hany.
  assert (Py.any_in ["girl"; "woman"; "female"; "she"] (Py.lower message) = true
          /\ Py.any_in ["boy"; "man"; "male"; "he"] (Py.lower message) = true)
    as [Hf Hm].
  { apply any_in_true in Hany as (w & Hw & Hin). split; apply any_in_true.
    - exists w. split; [by right|done].
    - destruct Hw as [<-|[<-|[<-|[]]]].
      + exists "man". split; [right; by left|]. by apply (contains_trans _ "woman").
      + exists "male". split; [do 2 right; by left|]. by apply (contains_trans _ "female").
      + exists "he". split; [do 3 right; by left|]. by apply (contains_trans _ "she"). }
  unfold enhanced_query. rewrite Hmusic, Hf, Hm.
  set (dated := if Py.truthy (extract_date now message) then _ else _).
  clearbody dated. cbv zeta.
  set (base := if Py.contains "danc" _ then _ else _). clearbody base.
  destruct (Py.contains "duet" _ || Py.contains "together" _).
  - exists base, " duet collaboration featuring". by rewrite !append_assoc.
  - exists base, EmptyString. by rewrite !append_assoc, append_nil_r.
Qed.

Lemma female_hint_brings_male_hint_witness :
  exists before after,
    enhanced_query (Cal.mkdate 2026 11 3) "songs by a female singer"
    = before +:+ " female woman girl" +:+ " male man boy" +:+ after.
Proof.
  apply (female_hint_brings_male_hint (Cal.mkdate 2026 11 3) "songs by a female singer");
    reflexivity.
Defined.

(** ** Sources *)

Lemma mapM_lookup_seq_some {A B} (g : A -> B) (l : list A) (a n : nat) :
  (a + n <= length l)%nat ->
  mapM (fun i => g <$> l !! i) (seq a n) = Some (map g (firstn n (skipn a l))).
Proof.
  revert a. induction n as [|n IH]; intros a Hlen; [done|].
  destruct (lookup_lt_is_Some_2 l a) as [x Hx]; [lia|].
  simpl. rewrite Hx. simpl. rewrite IH by lia. simpl.
  change (skipn a l) with (drop a l). rewrite (drop_S _ _ _ Hx). done.
Qed.

Lemma mapM_lookup_seq_none {A B} (g : A -> B) (l : list A) (a n : nat) :
  (0 < n)%nat -> (length l < a + n)%nat ->
  mapM (fun i => g <$> l !! i) (seq a n) = None.
Proof.
  revert a. induction n as [|n IH]; intros a Hn Hlen; [lia|].
  simpl. destruct (l !! a) as [x|] eqn:Hx; [|done]. simpl.
  apply lookup_lt_Some in Hx. rewrite IH by lia. done.
Qed.

(** [mk_sources] makes one entry for each document, from the metadata at
    the same index; it fails exactly when there are more documents than
    metadata. *)
Theorem mk_sources_spec (docs : list string) (metas : list (gmap string string)) :
  ((length docs <= length metas)%nat ->
   mk_sources docs metas = Some (map mk_source (firstn (length docs) metas)))
  /\ ((length metas < length docs)%nat -> mk_sources docs metas = None).
Proof.
  unfold mk_sources. split; intros H.
  - by rewrite mapM_lookup_seq_some.
  - apply mapM_lookup_seq_none; lia.
Qed.

Lemma mk_sources_spec_witness :
  mk_sources ["one"; "two"] [∅] = None.
Proof. apply (proj2 (mk_sources_spec ["one"; "two"] [∅])). simpl. lia. Defined.

(** After the retrieval filter [mk_sources] does not fail: the stage returns
    as many documents as metadata, and every surviving candidate gets its
    source entry, in order. *)
Theorem mk_sources_after_filter
    (set_iter : list string -> list string)
    (message : string) (date_filter domain_filter : option string) (top_k : Z)
    (docs_h : list string) (metas_h : list (gmap string string)) (f : Filtered) :
  retrieval_filter set_iter message date_filter domain_filter top_k docs_h metas_h
  = Some f ->
  mk_sources (docs f) (metas f) = Some (map mk_source (metas f)).
Proof.
  intros Hlen%retrieval_filter_aligned.
  unfold mk_sources. rewrite mapM_lookup_seq_some by lia.
  by rewrite Hlen, firstn_all.
Qed.

Lemma mk_sources_after_filter_witness :
  mk_sources ["one"] [∅] = Some (map mk_source [∅]).
Proof.
  apply (mk_sources_after_filter (fun l => l) "what did i read" None None 1
           ["one"; "two"] [∅; ∅]
           {| artist_filter := None; docs := ["one"]; metas := [∅] |}).
  reflexivity.
Defined.

Lemma lstrip_head s c t : Py.lstrip s = String c t -> Py.isspace c = false.
Proof.
  induction s as [|a s IH]; simpl; [done|].
  destruct (Py.isspace a) eqn:Ha; [done|]. by intros [= <- <-].
Qed.

Lemma rstrip_head s c t :
  Py.rstrip s = String c t -> exists s', s = String c s'.
Proof.
  destruct s as [|a s]; simpl; [done|].
  destruct (Py.rstrip s); [destruct (Py.isspace a)|]; intros [= <- <-]; eauto.
Qed.

Lemma rstrip_last s t c :
  Py.rstrip s = t +:+ String c EmptyString -> Py.isspace c = false.
Proof.
  revert t. induction s as [|a s IH]; intros t; simpl.
  - by destruct t.
  - destruct (Py.rstrip s) as [|b r] eqn:Hr.
    + destruct (Py.isspace a) eqn:Ha; [by destruct t|].
      destruct t as [|a' [|? ?]]; simpl; intros [= <-]; done.
    + destruct t as [|a' t]; simpl; [by intros [= _ ?]|].
      intros [= _ Ht]. by apply (IH t).
Qed.

(** The text under a source (visit date, day name and time period) neither
    begins nor ends with white space, whichever of the three are missing. *)
Theorem mk_source_meta_trimmed (m : gmap string string) :
  trimmed (src_meta (mk_source m)).
Proof.
  unfold mk_source, Py.strip. cbn [src_meta].
  set (text := _ +:+ _). clearbody text. split.
  - intros c t Ht. destruct (rstrip_head _ _ _ Ht) as [s' Hs'].
    by apply lstrip_head in Hs'.
  - intros t c Ht. by apply rstrip_last in Ht.
Qed.

(** ** Stored items *)

Lemma item_metadata_lookup utcoffset repr extracted_content it d :
  visit_date utcoffset it = Some d ->
  exists m, item_metadata utcoffset repr extracted_content it = Some m
    /\ m !! "title" = Some (title it)
    /\ m !! "url" = Some (url it)
    /\ m !! "domain" = Some (domain it)
    /\ m !! "visit_date" = Some (Cal.strftime_Ymd d)
    /\ m !! "day_name" = Some (Cal.day_name d)
    /\ m !! "time_period" = Some (get_time_period (hour it))
    /\ m !! "content_category" = Some (categorize_url (url it) (title it)).
Proof.
  intros Hd. unfold item_metadata. rewrite Hd. eexists. split; [reflexivity|].
  unfold list_to_map. cbn [foldr fst snd].
  destruct (dict_truthy extracted_content);
    repeat split;
    repeat (rewrite lookup_insert_ne by done); by rewrite lookup_insert_eq.
Qed.

Lemma startswith_append (a r : string) : Py.startswith a (a +:+ r) = true.
Proof. apply startswith_iff. by exists r. Qed.

Lemma startswith_same_length (p a r : string) :
  Py.startswith p (a +:+ r) = true -> String.length p = String.length a -> p = a.
Proof.
  revert a. induction p as [|c p IH]; intros [|b a]; simpl; try done.
  destruct (Ascii.eqb_spec c b) as [->|]; [|done].
  intros Hp [= Hlen]. by rewrite (IH a).
Qed.

Lemma strftime_Ymd_month_key (d : Cal.date) :
  Cal.strftime_Ymd d = month_key d +:+ "-" +:+ Py.fmt_d 2 (Cal.day d).
Proof. unfold Cal.strftime_Ymd, month_key. by rewrite !append_assoc. Qed.

Lemma month_key_length (d : Cal.date) :
  1 <= Cal.year d <= 9999 -> 1 <= Cal.month d <= 12 ->
  String.length (month_key d) = 7%nat.
Proof.
  intros Hy Hm. unfold month_key.
  rewrite !length_append, fmt_d_4_length, fmt_d_2_length by lia. done.
Qed.

Lemma strftime_Ymd_length (d : Cal.date) :
  1 <= Cal.year d <= 9999 -> 1 <= Cal.month d <= 12 -> 1 <= Cal.day d <= 31 ->
  String.length (Cal.strftime_Ymd d) = 10%nat.
Proof.
  intros Hy Hm Hd. rewrite strftime_Ymd_month_key, !length_append.
  rewrite month_key_length, fmt_d_2_length by lia. done.
Qed.

(** An item that the ingestion stored passes the date and domain pass of a
    question exactly when the date filter, if there is one, is the day or
    the month of its visit and the domain filter, if there is one, is its
    domain. *)
Theorem stored_item_passes_its_filters
    (utcoffset : Z) (repr : gmap string string -> string)
    (extracted_content : option (gmap string string)) (it : HistoryItem)
    (d : Cal.date) (date_filter domain_filter : option string) :
  visit_date utcoffset it = Some d ->
  exists m, item_metadata utcoffset repr extracted_content it = Some m
    /\ (structured_match date_filter domain_filter m = true <->
        (Py.truthy date_filter = true ->
         date_filter = Some (Cal.strftime_Ymd d) \/ date_filter = Some (month_key d))
        /\ (Py.truthy domain_filter = true -> domain_filter = Some (domain it))).
Proof.
  intros Hd.
  destruct (item_metadata_lookup utcoffset repr extracted_content it d Hd)
    as (m & Hm & _ & _ & Hdom & Hvd & _).
  exists m. split; [done|].
  apply fromtimestamp_ms_valid in Hd as (Hy & Hmo & Hday).
  pose proof (month_key_length d Hy Hmo) as Hlen7.
  pose proof (strftime_Ymd_length d Hy Hmo Hday) as Hlen10.
  unfold structured_match, meta_get. rewrite Hdom, Hvd.
  change (default EmptyString (Some ?x)) with x.
  rewrite andb_true_iff.
  assert ((if Py.truthy domain_filter
           then String.eqb (domain it) (default EmptyString domain_filter)
           else true) = true
          <-> (Py.truthy domain_filter = true -> domain_filter = Some (domain it)))
    as ->.
  { destruct domain_filter as [[|c s]|]; simpl; [done| |done].
    rewrite String.eqb_eq. split; [by intros -> | intros H; by injection (H eq_refl)]. }
  assert ((if Py.truthy date_filter
           then
             if (String.length (default EmptyString date_filter) =? 7)%nat
             then Py.startswith (default EmptyString date_filter) (Cal.strftime_Ymd d)
             else String.eqb (Cal.strftime_Ymd d) (default EmptyString date_filter)
           else true) = true
          <-> (Py.truthy date_filter = true ->
               date_filter = Some (Cal.strftime_Ymd d)
               \/ date_filter = Some (month_key d)))
    as ->; [|done].
  destruct date_filter as [df|]; [|done].
  destruct df as [|c s]; [done|].
  change (default EmptyString (Some (String c s))) with (String c s).
  cbn [Py.truthy]. set (df := String c s). clearbody df.
  destruct (Nat.eqb_spec (String.length df) 7) as [H7|H7].
  - split.
    + intros Hsw _. right. f_equal.
      rewrite strftime_Ymd_month_key in Hsw.
      apply (startswith_same_length _ _ _ Hsw). lia.
    + intros H. destruct (H eq_refl) as [[= ->]|[= ->]]; [lia|].
      rewrite strftime_Ymd_month_key. apply startswith_append.
  - rewrite String.eqb_eq. split.
    + intros <-. by left.
    + intros H. destruct (H eq_refl) as [[= ->]|[= ->]]; [done|lia].
Qed.

Lemma stored_item_passes_its_filters_witness :
  exists m,
    item_metadata 0 (fun _ => EmptyString) None
      {| id := "1"; lastVisitTime := 1700000000000; title := "Two Sum";
         url := "https://leetcode.com/problems/two-sum"; domain := "leetcode.com";
         dayOfWeek := 2; hour := 22; collectedAt := 1700000001000 |} = Some m
    /\ (structured_match (Some "2023-11") (Some "leetcode.com") m = true <->
        (Py.truthy (Some "2023-11") = true ->
         Some "2023-11" = Some (Cal.strftime_Ymd (Cal.mkdate 2023 11 14))
         \/ Some "2023-11" = Some (month_key (Cal.mkdate 2023 11 14)))
        /\ (Py.truthy (Some "leetcode.com") = true ->
            Some "leetcode.com" = Some "leetcode.com")).
Proof.
  apply (stored_item_passes_its_filters 0 (fun _ => EmptyString) None
           {| id := "1"; lastVisitTime := 1700000000000; title := "Two Sum";
              url := "https://leetcode.com/problems/two-sum";
              domain := "leetcode.com";
              dayOfWeek := 2; hour := 22; collectedAt := 1700000001000 |}
           (Cal.mkdate 2023 11 14) (Some "2023-11") (Some "leetcode.com")).
  vm_compute. reflexivity.
Defined.

Lemma rstrip_append_nonempty (s t : string) :
  Py.rstrip t <> EmptyString -> Py.rstrip (s +:+ t) = s +:+ Py.rstrip t.
Proof.
  intros Ht. induction s as [|c s IH]; [done|].
  cbn [String.append Py.rstrip]. rewrite IH.
  destruct (s +:+ Py.rstrip t) eqn:Hs; [|done].
  destruct s; [done|discriminate].
Qed.

Lemma rstrip_get_time_period (h : Z) :
  Py.rstrip (get_time_period h) = get_time_period h.
Proof. unfold get_time_period. repeat case_match; reflexivity. Qed.

Lemma get_time_period_nonempty (h : Z) : get_time_period h <> EmptyString.
Proof. unfold get_time_period. repeat case_match; done. Qed.

Lemma digit_not_space (c : ascii) : Py.isdigit c = true -> Py.isspace c = false.
Proof. destruct c as [[] [] [] [] [] [] [] []]; done. Qed.

Lemma lstrip_digit_first (s t : string) :
  str_forall Py.isdigit s = true -> s <> EmptyString ->
  Py.lstrip (s +:+ t) = s +:+ t.
Proof.
  destruct s as [|c s]; [done|]. cbn [str_forall String.append Py.lstrip].
  intros [Hc _]%andb_true_iff _. by rewrite (digit_not_space c Hc).
Qed.

(** The source entry of a stored item carries its URL and its title, and
    under them the visit date, the day name and the time period, separated
    by single blanks: stripping removes nothing. *)
Theorem stored_item_source
    (utcoffset : Z) (repr : gmap string string -> string)
    (extracted_content : option (gmap string string)) (it : HistoryItem)
    (d : Cal.date) :
  visit_date utcoffset it = Some d ->
  exists m, item_metadata utcoffset repr extracted_content it = Some m
    /\ mk_source m
       = {| src_url := url it;
            src_title := title it;
            src_meta := Cal.strftime_Ymd d +:+ " " +:+ Cal.day_name d +:+ " "
                        +:+ get_time_period (hour it) |}.
Proof.
  intros Hd.
  destruct (item_metadata_lookup utcoffset repr extracted_content it d Hd)
    as (m & Hm & Htitle & Hurl & _ & Hvd & Hdn & Htp & _).
  exists m. split; [done|].
  apply fromtimestamp_ms_valid in Hd as (Hy & _ & _).
  unfold mk_source, meta_get. rewrite Htitle, Hurl, Hvd, Hdn, Htp.
  change (default ?y (Some ?x)) with x. f_equal.
  unfold Py.strip, Cal.strftime_Ymd.
  rewrite !append_assoc, lstrip_digit_first.
  - rewrite <- !append_assoc, rstrip_append_nonempty;
      rewrite rstrip_get_time_period; [done|apply get_time_period_nonempty].
  - by apply fmt_d_digits; lia.
  - intros H. pose proof (fmt_d_4_length (Cal.year d)) as Hl.
    rewrite H in Hl. simpl in Hl. lia.
Qed.

Lemma stored_item_source_witness :
  exists m,
    item_metadata 0 (fun _ => EmptyString) None
      {| id := "7"; lastVisitTime := 1700000000000; title := "Two Sum";
         url := "https://leetcode.com/problems/two-sum"; domain := "leetcode.com";
         dayOfWeek := 2; hour := 22; collectedAt := 1700000001000 |} = Some m
    /\ mk_source m
       = {| src_url := "https://leetcode.com/problems/two-sum";
            src_title := "Two Sum";
            src_meta := Cal.strftime_Ymd (Cal.mkdate 2023 11 14) +:+ " "
                        +:+ Cal.day_name (Cal.mkdate 2023 11 14) +:+ " "
                        +:+ get_time_period 22 |}.
Proof.
  apply (stored_item_source 0 (fun _ => EmptyString) None
           {| id := "7"; lastVisitTime := 1700000000000; title := "Two Sum";
              url := "https://leetcode.com/problems/two-sum";
              domain := "leetcode.com";
              dayOfWeek := 2; hour := 22; collectedAt := 1700000001000 |}
           (Cal.mkdate 2023 11 14)).
  vm_compute. reflexivity.
Defined.

(** ** Categorizer and distiller *)

(** A URL is in the category Media exactly when its lower-cased form
    contains "youtube.com" and none of the substrings of the earlier rules;
    the second test of the rule, for "music.youtube.com", never decides. *)
Theorem categorize_url_media (url title : string) :
  categorize_url url title = "Media"
  <-> Py.any_in ["leetcode.com"; "github.com"; "chatgpt.com"; "claude.ai";
                 "perplexity.ai"; "docs.google.com"; "aws"; "x.com";
                 "twitter.com"; "cricbuzz.com"] (Py.lower url) = false
      /\ Py.contains "youtube.com" (Py.lower url) = true.
Proof.
  unfold categorize_url, Py.any_in. cbn [existsb]. rewrite ?orb_false_r.
  pose proof (contains_trans "youtube.com" "music.youtube.com" (Py.lower url)
                eq_refl) as Hsub.
  revert Hsub.
  repeat match goal with
         | |- context [Py.contains ?n (Py.lower url)] =>
             generalize (Py.contains n (Py.lower url)); intros []
         end; cbn [orb]; intros Hsub; split; try done; try tauto;
    try (intros [? ?]; done).
Qed.

Lemma none_any_case (t : string) :
  Py.startswith "NONE" (Py.upper t) = Py.startswith "none" (Py.lower t).
Proof.
  assert (forall c, Ascii.eqb "N" (Py.upper_char c) = Ascii.eqb "n" (Py.lower_char c))
    as HN by (intros [[] [] [] [] [] [] [] []]; reflexivity).
  assert (forall c, Ascii.eqb "O" (Py.upper_char c) = Ascii.eqb "o" (Py.lower_char c))
    as HO by (intros [[] [] [] [] [] [] [] []]; reflexivity).
  assert (forall c, Ascii.eqb "E" (Py.upper_char c) = Ascii.eqb "e" (Py.lower_char c))
    as HE by (intros [[] [] [] [] [] [] [] []]; reflexivity).
  destruct t as [|c1 [|c2 [|c3 [|c4 t]]]]; cbn [Py.upper Py.lower Py.startswith];
    rewrite ?HN, ?HO, ?HE; reflexivity.
Qed.

(** A reply of the model that begins, after leading white space, with the
    letters of "none" in any case is not stored, whatever follows them: the
    embedding provider and the collection are not reached. *)
Theorem distill_drops_none_reply
    (Vec : Type)
    (chat_complete : list (string * string) -> result (option string))
    (embed_documents : list string -> result (list Vec))
    (add_error : string -> list (MemEntry Vec) -> MemEntry Vec -> option exn)
    (utc_timestamp : Z) (utc_isoformat : string)
    (user_id question answer summary : string) (store : list (MemEntry Vec)) :
  chat_complete (distill_prompt question answer) = Ok (Some summary) ->
  Py.startswith "none" (Py.lower (Py.strip summary)) = true ->
  distill_and_store_memory Vec chat_complete embed_documents add_error
    utc_timestamp utc_isoformat user_id question answer store
  = (Ok tt, store).
Proof.
  intros Hchat Hnone. unfold distill_and_store_memory. rewrite Hchat.
  change (default EmptyString (Some summary)) with summary.
  by rewrite none_any_case, Hnone, orb_true_r.
Qed.

Lemma distill_drops_none_reply_witness :
  distill_and_store_memory unit
    (fun _ => Ok (Some "  Nonetheless, the user prefers jazz."))
    (fun _ => Ok [tt]) (fun _ _ _ => None) 1700000000 "2023-11-14T22:13:20"
    "local_user" "what do i like" "You like jazz." []
  = (Ok tt, []).
Proof.
  apply (distill_drops_none_reply unit
           (fun _ => Ok (Some "  Nonetheless, the user prefers jazz."))
           (fun _ => Ok [tt]) (fun _ _ _ => None) 1700000000 "2023-11-14T22:13:20"
           "local_user" "what do i like" "You like jazz."
           "  Nonetheless, the user prefers jazz." []);
    reflexivity.
Defined.

(** ** The answer to a question that is not about music *)

Lemma group_of_append category x c by_category :
  group_of c (by_category_append category x by_category)
  = if String.eqb category c then (group_of c by_category ++ [x])%list
    else group_of c by_category.
Proof.
  induction by_category as [|[k items] rest IH]; simpl.
  - by destruct (String.eqb_spec category c).
  - destruct (String.eqb_spec k category) as [->|Hk]; simpl.
    + by destruct (String.eqb_spec category c).
    + destruct (String.eqb_spec k c) as [->|Hkc]; [|done].
      by destruct (String.eqb_spec category c) as [->|].
Qed.

Lemma keys_append category x by_category :
  forall k, In k (map fst (by_category_append category x by_category))
            <-> k = category \/ In k (map fst by_category).
Proof.
  induction by_category as [|[c items] rest IH]; intros k; simpl; [intuition congruence|].
  destruct (String.eqb_spec c category) as [->|Hc]; simpl; [intuition congruence|].
  rewrite IH. intuition congruence.
Qed.

Lemma keys_append_NoDup category x by_category :
  NoDup (map fst by_category) ->
  NoDup (map fst (by_category_append category x by_category)).
Proof.
  induction by_category as [|[c items] rest IH]; simpl.
  - intros _. apply NoDup_singleton.
  - intros [Hc Hrest]%NoDup_cons.
    destruct (String.eqb_spec c category) as [->|Hne]; simpl.
    + by apply NoDup_cons.
    + apply NoDup_cons. split; [|by apply IH].
      rewrite list_elem_of_In, keys_append, <- list_elem_of_In. intuition congruence.
Qed.

Lemma groups_append_nonempty category x by_category :
  Forall (fun kv => kv.2 <> []) by_category ->
  Forall (fun kv => kv.2 <> []) (by_category_append category x by_category).
Proof.
  induction 1 as [|[c items] rest Hc Hrest IH]; simpl.
  - by repeat constructor.
  - destruct (String.eqb c category); constructor; try done.
    simpl. by destruct items.
Qed.

Lemma by_category_loop_inv i metas_h by_category :
  NoDup (map fst by_category) ->
  Forall (fun kv => kv.2 <> []) by_category ->
  NoDup (map fst (by_category_loop i metas_h by_category))
  /\ Forall (fun kv => kv.2 <> []) (by_category_loop i metas_h by_category)
  /\ forall c, group_of c (by_category_loop i metas_h by_category)
               = (group_of c by_category ++ of_category c i metas_h)%list.
Proof.
  revert i by_category.
  induction metas_h as [|meta rest IH]; intros i by_category Hnd Hne; simpl.
  - repeat split; try done. intros c. by rewrite app_nil_r.
  - destruct (IH (S i) (by_category_append (category_of meta) (listed i meta)
                          by_category))
      as (Hnd' & Hne' & Hgrp);
      [by apply keys_append_NoDup|by apply groups_append_nonempty|].
    repeat split; try done. intros c. rewrite Hgrp, group_of_append.
    destruct (String.eqb (category_of meta) c); [|done].
    by rewrite <- app_assoc.
Qed.

Lemma group_of_In c items by_category :
  NoDup (map fst by_category) -> In (c, items) by_category ->
  group_of c by_category = items.
Proof.
  induction by_category as [|[k its] rest IH]; simpl; [done|].
  intros [Hk Hrest]%NoDup_cons [[= -> ->]|Hin].
  - by rewrite String.eqb_refl.
  - destruct (String.eqb_spec k c) as [->|]; [|by apply IH].
    destruct Hk. apply list_elem_of_In, in_map_iff. by exists (c, items).
Qed.

Lemma group_of_nonempty_In c by_category :
  group_of c by_category <> [] -> In (c, group_of c by_category) by_category.
Proof.
  induction by_category as [|[k its] rest IH]; simpl; [done|].
  destruct (String.eqb_spec k c) as [->|]; [by left|]. intros H. right. by apply IH.
Qed.

Lemma by_category_groups metas_h c items :
  In (c, items) (by_category_loop 0 metas_h [])
  <-> items = of_category c 0 metas_h /\ items <> [].
Proof.
  destruct (by_category_loop_inv 0 metas_h []) as (Hnd & Hne & Hgrp);
    [apply NoDup_nil_2|constructor|].
  split.
  - intros Hin. split.
    + by rewrite <- (group_of_In _ _ _ Hnd Hin), Hgrp.
    + rewrite Forall_forall in Hne. apply (Hne (c, items)).
      by apply list_elem_of_In.
  - intros [-> Hitems]. specialize (Hgrp c). simpl in Hgrp. rewrite <- Hgrp.
    apply group_of_nonempty_In. by rewrite Hgrp.
Qed.

Lemma sorted_insert_In kv l y : In y (sorted_insert kv l) <-> y = kv \/ In y l.
Proof.
  induction l as [|kv' l IH]; simpl; [intuition congruence|].
  destruct (String.leb kv.1 kv'.1); simpl; [intuition congruence|].
  rewrite IH. intuition congruence.
Qed.

Lemma sorted_items_In l y : In y (sorted_items l) <-> In y l.
Proof.
  induction l as [|kv l IH]; simpl; [done|].
  rewrite sorted_insert_In, IH. intuition congruence.
Qed.

Lemma leb_false_ltb (a b : string) : String.leb a b = false -> String.ltb b a = true.
Proof.
  unfold String.leb, String.ltb. rewrite (String.compare_antisym a b).
  by destruct (String.compare b a).
Qed.

Lemma leb_ne_ltb (a b : string) :
  String.leb a b = true -> a <> b -> String.ltb a b = true.
Proof.
  unfold String.leb, String.ltb. intros Hle Hne.
  destruct (String.compare a b) eqn:Hc; try done.
  by apply String.compare_eq_iff in Hc.
Qed.

Lemma sorted_insert_ascending kv l :
  ascending (map fst l) -> ~ In kv.1 (map fst l) ->
  ascending (map fst (sorted_insert kv l)).
Proof.
  induction l as [|kv' l IH]; [done|].
  intros Hasc Hnotin. cbn [sorted_insert].
  destruct (String.leb kv.1 kv'.1) eqn:Hle.
  - cbn [map ascending]. split; [|exact Hasc].
    apply leb_ne_ltb; [done|]. intros Heq. apply Hnotin. by left.
  - destruct Hasc as [Hhd Htl]. cbn [map ascending]. split.
    + destruct l as [|kv'' l]; cbn [sorted_insert map].
      * by apply leb_false_ltb.
      * destruct (String.leb kv.1 kv''.1); cbn [map]; [by apply leb_false_ltb|done].
    + apply IH; [done|]. intros Hin. apply Hnotin. by right.
Qed.

Lemma sorted_items_keys l k :
  In k (map fst (sorted_items l)) <-> In k (map fst l).
Proof.
  rewrite !in_map_iff. split; intros (kv & Hk & Hin); exists kv;
    by rewrite sorted_items_In in *.
Qed.

Lemma sorted_items_ascending l :
  NoDup (map fst l) -> ascending (map fst (sorted_items l)).
Proof.
  induction l as [|kv l IH]; [done|]. cbn [map].
  intros [Hk Hl]%NoDup_cons. cbn [sorted_items foldr].
  apply sorted_insert_ascending; [by apply IH|].
  fold (sorted_items l). rewrite sorted_items_keys. by rewrite <- list_elem_of_In.
Qed.

(** The groups that the answer lists: the categories, each once, in
    ascending order; under a category all the results of that category, in
    retrieval order, each with its position among the results counted from
    one. *)
Theorem browse_groups_spec (metas_h : list (gmap string string)) :
  ascending (map fst (sorted_items (by_category_loop 0 metas_h [])))
  /\ forall c items,
       In (c, items) (sorted_items (by_category_loop 0 metas_h []))
       <-> items = of_category c 0 metas_h /\ items <> [].
Proof.
  split.
  - apply sorted_items_ascending.
    by destruct (by_category_loop_inv 0 metas_h []) as (Hnd & _);
      [apply NoDup_nil_2|constructor|].
  - intros c items. by rewrite sorted_items_In, by_category_groups.
Qed.

Lemma of_category_In c i metas_h x :
  In x (of_category c i metas_h)
  <-> exists j m, metas_h !! j = Some m /\ category_of m = c
                  /\ x = listed (i + j) m.
Proof.
  revert i. induction metas_h as [|meta rest IH]; intros i; simpl.
  - split; [done|]. by intros (j & m & Hj & _).
  - assert (In x (of_category c (S i) rest)
            <-> exists j m, (meta :: rest) !! S j = Some m /\ category_of m = c
                            /\ x = listed (i + S j) m) as Hrest.
    { rewrite IH. split; intros (j & m & Hj & Hc & ->); exists j, m;
        (split; [done|split; [done|f_equal; lia]]). }
    destruct (String.eqb_spec (category_of meta) c) as [Hc|Hc]; simpl.
    + rewrite Hrest. split.
      * intros [<-|(j & m & H)]; [|by exists (S j), m].
        exists 0%nat, meta. by rewrite Nat.add_0_r.
      * intros ([|j] & m & Hj & Hm & ->); [|right; by exists j, m].
        left. injection Hj as <-. by rewrite Nat.add_0_r.
    + rewrite Hrest. split.
      * intros (j & m & H). by exists (S j), m.
      * intros ([|j] & m & Hj & Hm & ->); [|by exists j, m].
        injection Hj as <-. done.
Qed.

Lemma of_category_app c i l1 l2 :
  of_category c i (l1 ++ l2)
  = (of_category c i l1 ++ of_category c (i + length l1) l2)%list.
Proof.
  revert i. induction l1 as [|meta l1 IH]; intros i; simpl.
  - by rewrite Nat.add_0_r.
  - rewrite IH. replace (S i + length l1)%nat with (i + S (length l1))%nat by lia.
    by destruct (String.eqb (category_of meta) c).
Qed.

(** The lines after [acc] that the rendering loop adds for [groups]. *)
Lemma browse_fold_In (multi : bool) (groups : list (string * list Listed))
    (acc : list string) (line : string) :
  In line
    (fold_left
       (fun answer_lines kv =>
          let answer_lines :=
            if multi then (answer_lines ++ [category_header kv.1])%list
            else answer_lines in
          (answer_lines ++ map render_listed (firstn 5 kv.2))%list)
       groups acc)
  <-> In line acc
      \/ exists kv, In kv groups
           /\ ((multi = true /\ line = category_header kv.1)
               \/ In line (map render_listed (firstn 5 kv.2))).
Proof.
  revert acc. induction groups as [|kv groups IH]; intros acc; simpl.
  - split; [by left|]. by intros [H|(kv & [] & _)].
  - rewrite IH. clear IH. rewrite in_app_iff. split.
    + intros [[Hacc|Hkv]|(kv' & Hin & H)].
      * destruct multi; [|by left].
        apply in_app_iff in Hacc as [Hacc|[<-|[]]]; [by left|].
        right. exists kv. split; [by left|]. by left.
      * right. exists kv. split; [by left|]. by right.
      * right. exists kv'. split; [by right|done].
    + intros [Hacc|(kv' & [<-|Hin] & H)].
      * left. left. destruct multi; [|done]. apply in_app_iff. by left.
      * destruct H as [[-> ->]|H]; [|left; by right].
        left. left. apply in_app_iff. right. by left.
      * right. by exists kv'.
Qed.

(** Every line of the answer is the heading, the heading of the category
    of some result, or the bullet of a result: with the title and the
    domain of that result and, as its citation, the position of the result
    counted from one, that is, the number of its entry among the sources. *)
Theorem browse_lines_cite_results (exclude_music : bool)
    (metas_h : list (gmap string string)) (line : string) :
  In line (browse_lines exclude_music metas_h) ->
  line = browse_header exclude_music
  \/ (exists m, In m metas_h /\ line = category_header (category_of m))
  \/ (exists i m, metas_h !! i = Some m /\ line = render_listed (listed i m)).
Proof.
  unfold browse_lines. rewrite browse_fold_In.
  intros [[<-|[]]|([c items] & Hin & H)]; [by left|]. right.
  apply sorted_items_In, by_category_groups in Hin as [-> Hne].
  cbn [fst snd] in H. destruct H as [[_ ->]|H].
  - left. destruct (of_category c 0 metas_h) as [|x xs] eqn:Hx; [done|].
    assert (In x (of_category c 0 metas_h)) as Hxin by (rewrite Hx; by left).
    apply of_category_In in Hxin as (j & m & Hj & <- & _).
    exists m. split; [|done]. apply list_elem_of_In. by eapply list_elem_of_lookup_2.
  - right. apply in_map_iff in H as (x & <- & Hx).
    apply in_firstn, of_category_In in Hx as (j & m & Hj & _ & ->).
    by exists j, m.
Qed.

Lemma browse_lines_cite_results_witness :
  render_listed {| l_title := "Two Sum"; l_domain := "leetcode.com"; l_citation := 1 |}
  = browse_header false
  \/ (exists m, In m [ {["title" := "Two Sum"; "domain" := "leetcode.com"]} ]
                /\ render_listed {| l_title := "Two Sum"; l_domain := "leetcode.com";
                                    l_citation := 1 |}
                   = category_header (category_of m))
  \/ (exists i m,
        [ ({["title" := "Two Sum"; "domain" := "leetcode.com"]} : gmap string string) ]
          !! i = Some m
        /\ render_listed {| l_title := "Two Sum"; l_domain := "leetcode.com";
                            l_citation := 1 |}
           = render_listed (listed i m)).
Proof.
  apply (browse_lines_cite_results false
           [ {["title" := "Two Sum"; "domain" := "leetcode.com"]} ]).
  vm_compute. right. left. reflexivity.
Defined.

(** A result is listed in the answer when fewer than five results before
    it have its category. *)
Theorem browse_lines_list_first_five (exclude_music : bool)
    (metas_h : list (gmap string string)) (i : nat) (m : gmap string string) :
  metas_h !! i = Some m ->
  (length (of_category (category_of m) 0 (firstn i metas_h)) < 5)%nat ->
  In (render_listed (listed i m)) (browse_lines exclude_music metas_h).
Proof.
  intros Hi Hfew. unfold browse_lines. rewrite browse_fold_In. right.
  pose proof (take_drop_middle metas_h i m Hi) as Hsplit.
  assert (of_category (category_of m) 0 metas_h
          = (of_category (category_of m) 0 (firstn i metas_h)
             ++ listed i m
                :: of_category (category_of m) (S i) (skipn (S i) metas_h))%list)
    as Hcat.
  { rewrite <- Hsplit at 1. rewrite of_category_app. f_equal.
    apply lookup_lt_Some in Hi.
    rewrite length_firstn, Nat.min_l by lia. simpl.
    by rewrite String.eqb_refl. }
  exists (category_of m, of_category (category_of m) 0 metas_h). split.
  - apply sorted_items_In, by_category_groups. split; [done|].
    rewrite Hcat. by destruct (of_category _ 0 (firstn i metas_h)).
  - right. cbn [snd]. apply in_map. rewrite Hcat.
    rewrite firstn_app. apply in_app_iff. right.
    destruct (5 - length (of_category (category_of m) 0 (firstn i metas_h)))%nat
      as [|k] eqn:Hk; [lia|]. by left.
Qed.

Lemma browse_lines_list_first_five_witness :
  In (render_listed (listed 1 {["title" := "Two Sum"; "domain" := "leetcode.com"]}))
     (browse_lines true
        [ {["title" := "Inbox"]};
          {["title" := "Two Sum"; "domain" := "leetcode.com"]} ]).
Proof.
  apply (browse_lines_list_first_five true
           [ {["title" := "Inbox"]};
             {["title" := "Two Sum"; "domain" := "leetcode.com"]} ]
           1 {["title" := "Two Sum"; "domain" := "leetcode.com"]}).
  - reflexivity.
  - vm_compute. lia.
Defined.

(** ** The text of a stored item *)

Lemma rstrip_append_empty (s t : string) :
  Py.rstrip t = EmptyString -> Py.rstrip (s +:+ t) = Py.rstrip s.
Proof.
  intros Ht. induction s as [|c s IH]; [done|].
  cbn [String.append Py.rstrip]. by rewrite IH.
Qed.

Lemma rstrip_categorize_url (url title : string) :
  Py.rstrip (categorize_url url title) = categorize_url url title
  /\ categorize_url url title <> EmptyString.
Proof. unfold categorize_url. repeat case_match; by split. Qed.

Lemma rich_base_text_shape (it : HistoryItem) (d : Cal.date) :
  (exists r, rich_base_text it d = String "T" r)
  /\ Py.rstrip (rich_base_text it d) = rich_base_text it d.
Proof.
  split.
  - unfold rich_base_text. eexists. reflexivity.
  - destruct (rstrip_categorize_url (url it) (title it)) as [Hr Hne].
    unfold rich_base_text. rewrite <- !append_assoc.
    rewrite rstrip_append_nonempty; rewrite Hr; done.
Qed.

Lemma strip_keeps_base (it : HistoryItem) (d : Cal.date) (t : string) :
  Py.startswith (rich_base_text it d) (Py.strip (rich_base_text it d +:+ t)) = true.
Proof.
  destruct (rich_base_text_shape it d) as [[r Hr] Hbase].
  unfold Py.strip.
  assert (Py.lstrip (rich_base_text it d +:+ t) = rich_base_text it d +:+ t) as ->.
  { rewrite Hr. reflexivity. }
  destruct (Py.rstrip t) eqn:Ht.
  - rewrite rstrip_append_empty, Hbase by done. apply startswith_refl.
  - rewrite rstrip_append_nonempty by (by rewrite Ht). apply startswith_append.
Qed.

(** The text that is embedded for an item begins with its nine base lines
    (title, URL, domain, the visit date in two forms, day, time, time period
    and category), whatever was extracted from the page, and is exactly
    these lines for an item without extracted content. *)
Theorem create_rich_text_keeps_base
    (utcoffset : Z) (extracted_content : option (gmap string string))
    (it : HistoryItem) (d : Cal.date) :
  visit_date utcoffset it = Some d ->
  exists text, create_rich_text utcoffset extracted_content it = Some text
    /\ Py.startswith (rich_base_text it d) text = true
    /\ (dict_truthy extracted_content = false -> text = rich_base_text it d).
Proof.
  intros Hd. unfold create_rich_text. rewrite Hd. eexists. split; [reflexivity|].
  assert (exists t, rich_base_text it d = rich_base_text it d +:+ t) as Hbase
    by (exists EmptyString; by rewrite append_nil_r).
  split.
  - cbv zeta. destruct (dict_truthy extracted_content).
    + set (content := default ∅ extracted_content). clearbody content.
      match goal with
      | |- Py.startswith _ (Py.strip ?x) = true =>
          assert (exists t, x = rich_base_text it d +:+ t) as [t ->]
            by (do 12 apply prefix_hint; exact Hbase)
      end.
      apply strip_keeps_base.
    + rewrite <- (append_nil_r (rich_base_text it d)) at 2. apply strip_keeps_base.
  - intros ->. cbv zeta.
    destruct (rich_base_text_shape it d) as [[r Hr] Hrs].
    unfold Py.strip.
    assert (Py.lstrip (rich_base_text it d) = rich_base_text it d) as ->
      by (rewrite Hr; reflexivity).
    exact Hrs.
Qed.

Lemma create_rich_text_keeps_base_witness :
  exists text,
    create_rich_text 0 (Some {["channel" := "NPR Music"]})
      {| id := "7"; lastVisitTime := 1700000000000; title := "Tiny Desk";
         url := "https://www.youtube.com/watch?v=1"; domain := "www.youtube.com";
         dayOfWeek := 2; hour := 22; collectedAt := 1700000001000 |} = Some text
    /\ Py.startswith
         (rich_base_text
            {| id := "7"; lastVisitTime := 1700000000000; title := "Tiny Desk";
               url := "https://www.youtube.com/watch?v=1";
               domain := "www.youtube.com";
               dayOfWeek := 2; hour := 22; collectedAt := 1700000001000 |}
            (Cal.mkdate 2023 11 14)) text = true
    /\ (dict_truthy (Some {["channel" := "NPR Music"]}) = false ->
        text = rich_base_text
                 {| id := "7"; lastVisitTime := 1700000000000; title := "Tiny Desk";
                    url := "https://www.youtube.com/watch?v=1";
                    domain := "www.youtube.com";
                    dayOfWeek := 2; hour := 22; collectedAt := 1700000001000 |}
                 (Cal.mkdate 2023 11 14)).
Proof.
  apply (create_rich_text_keeps_base 0 (Some {["channel" := "NPR Music"]})
           {| id := "7"; lastVisitTime := 1700000000000; title := "Tiny Desk";
              url := "https://www.youtube.com/watch?v=1";
              domain := "www.youtube.com";
              dayOfWeek := 2; hour := 22; collectedAt := 1700000001000 |}
           (Cal.mkdate 2023 11 14)).
  vm_compute. reflexivity.
Defined.
